(** * Order checkout of the multi-store backend

    A shallow embedding of the checkout core of the backend:
    [services/reservation.service.ts], [services/cart.service.ts],
    [services/order.service.ts] and the payment service they call.

    The Prisma client is modelled as an explicit database value threaded
    through a state-and-exception monad.  Every [await]ed Prisma call is one
    operation of that monad. *)

From Stdlib Require Import ZArith List String SpecFloat.
From stdpp Require Import base list gmap strings.

Local Open Scope string_scope.
Local Open Scope list_scope.
Local Open Scope Z_scope.

(** ** Data model (the Prisma schema) *)

(** Primary keys that Prisma generates ([@default(uuid())]) are modelled by
    numbers drawn from a counter; identifiers that come from outside (users,
    stores, products of the CMS, idempotency keys) stay strings.  Columns
    that the three services only pass through ([createdAt], [updatedAt],
    pickup times, stock levels for reordering) are left out. *)
Definition Id := nat.

Module ReservationStatus.
Inductive t := reserved | used | released | expired | cancelled.
#[global] Instance eq_dec : EqDecision t.
Proof. solve_decision. Defined.
End ReservationStatus.

Module IdempotencyStatus.
Inductive t := in_progress | completed | failed.
#[global] Instance eq_dec : EqDecision t.
Proof. solve_decision. Defined.
End IdempotencyStatus.

Module OrderStatus.
Inductive t := pending | confirmed | preparing | ready | completed | cancelled.
#[global] Instance eq_dec : EqDecision t.
Proof. solve_decision. Defined.
End OrderStatus.

Module PaymentStatus.
Inductive t := pending | paid | failed | refunded.
#[global] Instance eq_dec : EqDecision t.
Proof. solve_decision. Defined.
End PaymentStatus.

Module DeliveryType.
Inductive t := pickup | delivery.
End DeliveryType.

(** [store_inventory]: one row per (storeId, productId), the unique index
    [store_inventory_storeId_productId_key]. *)
Module StoreInventory.
Record t := mk {
    quantityAvailable : Z;
    reservedQuantity : Z;
    isAvailable : bool;
}.
End StoreInventory.

(** [inventory_reservations]; [expiresAt] in milliseconds. *)
Module InventoryReservation.
Record t := mk {
    id : Id;
    storeId : string;
    productId : string;
    quantity : Z;
    userId : option string;
    orderId : option Id;
    status : ReservationStatus.t;
    expiresAt : Z;
}.
End InventoryReservation.

(** ** JavaScript numbers

    A JS [number] used for money is an IEEE 754 binary64 value; the
    Standard Library's [spec_float] with precision 53 gives its arithmetic
    (round to nearest, ties to even).  Quantities and counts are [Int]
    columns and stay in [Z]. *)
Module Number.
Definition t := spec_float.
Definition prec : Z := 53.
Definition emax : Z := 1024.

(** The number denoted by an integer literal or an [Int] column. *)
Definition ofZ (n : Z) : t := binary_normalize prec emax n 0 false.
Definition mul : t -> t -> t := SFmul prec emax.
Definition add : t -> t -> t := SFadd prec emax.
Definition sub : t -> t -> t := SFsub prec emax.
Definition div : t -> t -> t := SFdiv prec emax.
Definition ltb : t -> t -> bool := SFltb.

(** A decimal literal or a [Decimal] column value with two fractional
    digits, given in hundredths: [Number("2.99")] is the binary64 nearest
    to 299/100, which is what correctly rounded division returns. *)
Definition ofCents (c : Z) : t := div (ofZ c) (ofZ 100).

(** The literal [0.085]. *)
Definition lit_0_085 : t := div (ofZ 85) (ofZ 1000).

(** [Math.round]: the nearest integer, ties towards +infinity; NaN,
    infinities and integral values are returned as they are, and a result
    of zero keeps the sign of the argument. *)
Definition Math_round (x : t) : t :=
  match x with
  | S754_finite s m e =>
      if 0 <=? e then x
      else
        let v := if s then Z.neg m else Z.pos m in
        let n := (2 * v + 2 ^ (- e)) / 2 ^ (1 - e) in
        if n =? 0 then S754_zero s else ofZ n
  | _ => x
  end.

(** The value is exactly [n / 100] for some integer [n]: a finite binary
    number [m * 2^e] with [e < 0] is one iff [2^(-e)] divides [100 * m]. *)
Definition exact_decimal2 (x : t) : bool :=
  match x with
  | S754_zero _ => true
  | S754_finite _ m e =>
      if 0 <=? e then true else (100 * Z.pos m) mod 2 ^ (- e) =? 0
  | _ => false
  end.
End Number.

(** [shopping_carts] and [cart_items].  [priceAtTime] is a [Decimal(10,2)]
    column, kept in hundredths. *)
Module ShoppingCart.
Record t := mk {
    id : Id;
    userId : string;
    storeId : string;
    isActive : bool;
}.
End ShoppingCart.

Module CartItem.
Record t := mk {
    id : Id;
    cartId : Id;
    productId : string;
    quantity : Z;
    priceAtTime : Z;
}.
End CartItem.

(** The [totals] object of [CartWithItems]. *)
Module Totals.
Record t := mk {
    subtotal : Number.t;
    tax : Number.t;
    deliveryFee : Number.t;
    discount : Number.t;
    total : Number.t;
}.
End Totals.

(** A cart item with the product fetched from the CMS; only the product's
    name is read by the checkout ([item.product?.attributes?.name]). *)
Module CartLine.
Record t := mk {
    item : CartItem.t;
    productName : option string;
}.
End CartLine.

Module CartWithItems.
Record t := mk {
    cart : ShoppingCart.t;
    items : list CartLine.t;
    totals : Totals.t;
}.
End CartWithItems.

Module DeliveryAddress.
Record t := mk {
    title : string;
    addressLine1 : string;
    addressLine2 : option string;
    city : string;
    state : string;
    zipCode : string;
    country : string;
}.
End DeliveryAddress.

(** [orders].  The four amounts are the JS numbers handed to Prisma; the
    columns they are written to are [DECIMAL(12,2)]. *)
Module Order.
Record t := mk {
    id : Id;
    orderNumber : string;
    userId : string;
    storeId : string;
    status : OrderStatus.t;
    totalAmount : Number.t;
    taxAmount : Number.t;
    deliveryFee : Number.t;
    discountAmount : Number.t;
    paymentMethod : option string;
    paymentStatus : PaymentStatus.t;
    deliveryType : option DeliveryType.t;
    deliveryAddress : option DeliveryAddress.t;
    specialInstructions : option string;
}.
End Order.

Module OrderItem.
Record t := mk {
    id : Id;
    orderId : Id;
    productId : string;
    productName : string;
    quantity : Z;
    unitPrice : Z;
    totalPrice : Number.t;
    specialInstructions : option string;
}.
End OrderItem.

Module Store.
Record t := mk {
    name : string;
    address : option string;
    phone : option string;
}.
End Store.

(** The object [getOrderById] builds: the order's columns, its items and
    the store's contact details. *)
Module OrderWithItems.
Record store_t := mkStore {
    name : string;
    address : string;
    phone : string;
}.
Record t := mk {
    order : Order.t;
    items : list OrderItem.t;
    store : option store_t;
}.
End OrderWithItems.

(** The body of [createOrderSchema]. *)
Module CreateOrderData.
Record t := mk {
    storeId : string;
    deliveryType : DeliveryType.t;
    deliveryAddress : option DeliveryAddress.t;
    specialInstructions : option string;
    paymentMethod : string;
    idempotencyKey : option string;
}.
End CreateOrderData.

(** The bodies of [createReservationSchema] and [updateReservationSchema]. *)
Module CreateReservationData.
Record t := mk {
    storeId : string;
    productId : string;
    quantity : Z;
    userId : option string;
    orderId : option Id;
    ttlMinutes : Z;
}.
End CreateReservationData.

Module UpdateReservationData.
Record t := mk {
    status : ReservationStatus.t;
    orderId : option Id;
}.
End UpdateReservationData.

(** ** Errors

    Every [throw new Error(`...`)] of the three services is a constructor
    that carries the values interpolated into the message. *)
Inductive CartProblem :=
| EmptyCart
    (* 'Cart is empty' *)
| NoLongerAvailable (productId : string)
    (* `Product ${productId} is no longer available` *)
| CurrentlyUnavailable (productId : string)
    (* `Product ${productId} is currently unavailable` *)
| OnlyOf (quantityAvailable : Z) (productId : string) (inCart : Z).
    (* `Only ${quantityAvailable} of ${productId} available (${quantity} in cart)` *)

Inductive Error :=
| ProductNotAvailableInStore
    (* 'Product not available in this store' *)
| OnlyItemsAvailable (availableQuantity requested : Z)
    (* `Only ${availableQuantity} items available (${quantity} requested)` *)
| ReservationNotFound
| ReservationCannotBeCancelled
| OrderAlreadyBeingProcessed
    (* 'Order is already being processed' *)
| CartValidationFailed (errors : list CartProblem)
| CartIsEmpty
| PaymentFailed (error : option string)
| RecordNotFound
    (* Prisma P2025: update or delete of a row that does not exist *)
| UniqueConstraintFailed
    (* Prisma P2002 *)
| NoFreeOrderNumber.
    (* every candidate order number of the run was taken *)

(** ** Responses and idempotency records *)

(** What [createOrder] can hand back or store in the [response] JSON column
    of an idempotency record: the object of [getOrderById] (or its [null]),
    the transaction's result [{ order, items }], or [{ error: message }]. *)
Inductive Payload :=
| NullPayload
| OrderPayload (o : OrderWithItems.t)
| TxResultPayload (order : Order.t) (items : list OrderItem.t)
| ErrorPayload (e : Error).

(** [idempotency_keys], unique on (key, userId). *)
Module IdempotencyKey.
Record t := mk {
    id : Id;
    key : string;
    userId : string;
    status : IdempotencyStatus.t;
    requestHash : string;
    response : Payload;
}.
End IdempotencyKey.

(** The argument and the result of [PaymentService.processPayment]. *)
Module PaymentRequest.
Record t := mk {
    amount : Number.t;
    paymentMethod : string;
    orderId : Id;
    userId : string;
}.
End PaymentRequest.

Module PaymentResult.
Record t := mk {
    success : bool;
    error : option string;
}.
End PaymentResult.

(** ** The database and the world around a call *)

Record Database := mkDatabase {
  storeInventory : gmap (string * string) StoreInventory.t;
  inventoryReservation : list InventoryReservation.t;
  idempotencyKey : list IdempotencyKey.t;
  order : list Order.t;
  orderItem : list OrderItem.t;
  shoppingCart : list ShoppingCart.t;
  cartItem : list CartItem.t;
  store : gmap string Store.t;
}.

Definition set_storeInventory (f : gmap (string * string) StoreInventory.t ->
                                   gmap (string * string) StoreInventory.t)
  (d : Database) : Database :=
  mkDatabase (f (storeInventory d)) (inventoryReservation d) (idempotencyKey d)
    (order d) (orderItem d) (shoppingCart d) (cartItem d) (store d).

Definition set_inventoryReservation
  (f : list InventoryReservation.t -> list InventoryReservation.t)
  (d : Database) : Database :=
  mkDatabase (storeInventory d) (f (inventoryReservation d)) (idempotencyKey d)
    (order d) (orderItem d) (shoppingCart d) (cartItem d) (store d).

Definition set_idempotencyKey (f : list IdempotencyKey.t -> list IdempotencyKey.t)
  (d : Database) : Database :=
  mkDatabase (storeInventory d) (inventoryReservation d) (f (idempotencyKey d))
    (order d) (orderItem d) (shoppingCart d) (cartItem d) (store d).

Definition set_order (f : list Order.t -> list Order.t) (d : Database) : Database :=
  mkDatabase (storeInventory d) (inventoryReservation d) (idempotencyKey d)
    (f (order d)) (orderItem d) (shoppingCart d) (cartItem d) (store d).

Definition set_orderItem (f : list OrderItem.t -> list OrderItem.t)
  (d : Database) : Database :=
  mkDatabase (storeInventory d) (inventoryReservation d) (idempotencyKey d)
    (order d) (f (orderItem d)) (shoppingCart d) (cartItem d) (store d).

Definition set_cartItem (f : list CartItem.t -> list CartItem.t)
  (d : Database) : Database :=
  mkDatabase (storeInventory d) (inventoryReservation d) (idempotencyKey d)
    (order d) (orderItem d) (shoppingCart d) (f (cartItem d)) (store d).

(** The state a service call runs in: the database, the supply of fresh
    primary keys, and the charges the payment provider has been asked for
    (the one effect a database rollback cannot undo). *)
Record World := mkWorld {
  db : Database;
  nextId : Id;
  charges : list PaymentRequest.t;
}.

(** What a call reads from outside the database: the clock, the process
    environment, the random sources, the payment provider's verdict, the
    hash of a request body and the CMS's product names. *)
Record Env := mkEnv {
  now : Z;
  defaultTTLMinutes : Z;
  randomUUID : string;
  orderNumberCandidates : list string;
  processPayment : PaymentRequest.t -> PaymentResult.t;
  sha256_of_json : CreateOrderData.t -> string;
  getProductById : string -> option string;
}.

(** ** The monad of service calls: state and exceptions *)

Inductive Outcome (A : Type) :=
| Returned (a : A)
| Thrown (e : Error).
Arguments Returned {A} a.
Arguments Thrown {A} e.

Definition M (A : Type) : Type := World -> Outcome A * World.

#[global] Instance M_ret : MRet M := fun A a w => (Returned a, w).
#[global] Instance M_bind : MBind M := fun A B k m w =>
  match m w with
  | (Returned a, w') => k a w'
  | (Thrown e, w') => (Thrown e, w')
  end.

Definition throw {A} (e : Error) : M A := fun w => (Thrown e, w).

(** A read of the database. *)
Definition query {A} (f : Database -> A) : M A := fun w => (Returned (f (db w)), w).

(** A write to the database. *)
Definition write (f : Database -> Database) : M unit :=
  fun w => (Returned tt, mkWorld (f (db w)) (nextId w) (charges w)).

(** A fresh primary key. *)
Definition freshId : M Id :=
  fun w => (Returned (nextId w), mkWorld (db w) (S (nextId w)) (charges w)).

(** [try { m } catch (error) { h error }]. *)
Definition try_catch {A} (m : M A) (h : Error -> M A) : M A := fun w =>
  match m w with
  | (Returned a, w') => (Returned a, w')
  | (Thrown e, w') => h e w'
  end.

(** [prisma.$transaction(async tx => m)]: when the callback throws, the
    database is rolled back to what it was; primary keys already drawn and
    charges already made are not. *)
Definition transaction {A} (m : M A) : M A := fun w =>
  match m w with
  | (Returned a, w') => (Returned a, w')
  | (Thrown e, w') => (Thrown e, mkWorld (db w) (nextId w') (charges w'))
  end.

(** [for (const x of xs) { await body(x) }], collecting the results. *)
Fixpoint for_each {A B} (xs : list A) (body : A -> M B) : M (list B) :=
  match xs with
  | [] => mret []
  | x :: xs' => b ← body x; bs ← for_each xs' body; mret (b :: bs)
  end.

(** ** Prisma model operations *)

Module Prisma.

(** [storeInventory.findFirst({ where: { storeId, productId } })]. *)
Definition storeInventory_findFirst (storeId productId : string)
  : M (option StoreInventory.t) :=
  query (fun d => storeInventory d !! (storeId, productId)).

(** The same with [isAvailable: true] in the [where] clause. *)
Definition storeInventory_findFirst_available (storeId productId : string)
  : M (option StoreInventory.t) :=
  query (fun d =>
    match storeInventory d !! (storeId, productId) with
    | Some inv => if StoreInventory.isAvailable inv then Some inv else None
    | None => None
    end).

Definition add_reserved (delta : Z) (inv : StoreInventory.t) : StoreInventory.t :=
  StoreInventory.mk (StoreInventory.quantityAvailable inv)
    (StoreInventory.reservedQuantity inv + delta)
    (StoreInventory.isAvailable inv).

(** [storeInventory.update({ where: { storeId_productId }, data:
    { reservedQuantity: { increment: delta } } })]; [decrement: q] is
    [increment: -q].  One SQL statement; it throws when the row is absent. *)
Definition storeInventory_increment_reserved (storeId productId : string)
  (delta : Z) : M unit :=
  inv ← query (fun d => storeInventory d !! (storeId, productId));
  match inv with
  | Some i =>
      write (set_storeInventory (insert (storeId, productId) (add_reserved delta i)))
  | None => throw RecordNotFound
  end.

(** [inventoryReservation.create] with [status: 'reserved']. *)
Definition inventoryReservation_create (storeId productId : string) (quantity : Z)
  (userId : option string) (orderId : option Id) (expiresAt : Z)
  : M InventoryReservation.t :=
  i ← freshId;
  let r := InventoryReservation.mk i storeId productId quantity userId orderId
             ReservationStatus.reserved expiresAt in
  write (set_inventoryReservation (fun rs => rs ++ [r]));;
  mret r.

Definition inventoryReservation_findUnique (reservationId : Id)
  : M (option InventoryReservation.t) :=
  query (fun d =>
    List.find (fun r => bool_decide (InventoryReservation.id r = reservationId))
      (inventoryReservation d)).

Definition inventoryReservation_findMany (where_ : InventoryReservation.t -> bool)
  : M (list InventoryReservation.t) :=
  query (fun d => List.filter where_ (inventoryReservation d)).

Definition set_status_orderId (status : ReservationStatus.t) (orderId : option Id)
  (r : InventoryReservation.t) : InventoryReservation.t :=
  InventoryReservation.mk (InventoryReservation.id r)
    (InventoryReservation.storeId r) (InventoryReservation.productId r)
    (InventoryReservation.quantity r) (InventoryReservation.userId r)
    orderId status (InventoryReservation.expiresAt r).

Definition set_status (status : ReservationStatus.t) (r : InventoryReservation.t)
  : InventoryReservation.t :=
  set_status_orderId status (InventoryReservation.orderId r) r.

(** [inventoryReservation.updateMany({ where, data })]. *)
Definition inventoryReservation_updateMany (where_ : InventoryReservation.t -> bool)
  (data : InventoryReservation.t -> InventoryReservation.t) : M unit :=
  write (set_inventoryReservation
           (List.map (fun r => if where_ r then data r else r))).

(** [inventoryReservation.update({ where: { id }, data })]: throws when the
    row is absent, returns the updated row. *)
Definition inventoryReservation_update (reservationId : Id)
  (data : InventoryReservation.t -> InventoryReservation.t)
  : M InventoryReservation.t :=
  r ← inventoryReservation_findUnique reservationId;
  match r with
  | Some r0 =>
      inventoryReservation_updateMany
        (fun x => bool_decide (InventoryReservation.id x = reservationId)) data;;
      mret (data r0)
  | None => throw RecordNotFound
  end.

End Prisma.

(** ** [ReservationService] *)

Module ReservationService.

Definition minute_ms : Z := 60000.

(** The first [await] of [createReservation]: read the inventory row, then
    (synchronously) the two guards. *)
Definition createReservation_check (data : CreateReservationData.t) : M unit :=
  inventory ← Prisma.storeInventory_findFirst_available
                 (CreateReservationData.storeId data)
                 (CreateReservationData.productId data);
  match inventory with
  | None => throw ProductNotAvailableInStore
  | Some inv =>
      let availableQuantity :=
        StoreInventory.quantityAvailable inv - StoreInventory.reservedQuantity inv in
      if availableQuantity <? CreateReservationData.quantity data
      then throw (OnlyItemsAvailable availableQuantity
                    (CreateReservationData.quantity data))
      else mret tt
  end.

(** The second [await]: insert the reservation row.  [ttlMinutes ||
    this.defaultTTLMinutes] takes the default when [ttlMinutes] is 0. *)
Definition createReservation_insert (env : Env) (data : CreateReservationData.t)
  : M InventoryReservation.t :=
  let ttl := if CreateReservationData.ttlMinutes data =? 0
             then defaultTTLMinutes env
             else CreateReservationData.ttlMinutes data in
  let expiresAt := now env + ttl * minute_ms in
  Prisma.inventoryReservation_create
    (CreateReservationData.storeId data) (CreateReservationData.productId data)
    (CreateReservationData.quantity data) (CreateReservationData.userId data)
    (CreateReservationData.orderId data) expiresAt.

(** The third [await]: add the quantity to the row's [reservedQuantity]. *)
Definition createReservation_increment (data : CreateReservationData.t) : M unit :=
  Prisma.storeInventory_increment_reserved
    (CreateReservationData.storeId data) (CreateReservationData.productId data)
    (CreateReservationData.quantity data).

Definition createReservation (env : Env) (data : CreateReservationData.t)
  : M InventoryReservation.t :=
  createReservation_check data;;
  reservation ← createReservation_insert env data;
  createReservation_increment data;;
  mret reservation.

Definition releaseReservedQuantity (storeId productId : string) (quantity : Z)
  : M unit :=
  Prisma.storeInventory_increment_reserved storeId productId (- quantity).

Definition updateReservation (reservationId : Id) (data : UpdateReservationData.t)
  : M InventoryReservation.t :=
  let status := UpdateReservationData.status data in
  reservation ← Prisma.inventoryReservation_findUnique reservationId;
  match reservation with
  | None => throw ReservationNotFound
  | Some r =>
      updatedReservation ←
        Prisma.inventoryReservation_update reservationId
          (Prisma.set_status_orderId status
             (match UpdateReservationData.orderId data with
              | Some o => Some o
              | None => InventoryReservation.orderId r
              end));
      (if bool_decide (status = ReservationStatus.used)
          || bool_decide (status = ReservationStatus.released)
          || bool_decide (status = ReservationStatus.expired)
       then releaseReservedQuantity (InventoryReservation.storeId r)
              (InventoryReservation.productId r) (InventoryReservation.quantity r)
       else mret tt);;
      mret updatedReservation
  end.

Definition cancelReservation (reservationId : Id) : M InventoryReservation.t :=
  reservation ← Prisma.inventoryReservation_findUnique reservationId;
  match reservation with
  | None => throw ReservationNotFound
  | Some r =>
      if bool_decide (InventoryReservation.status r ≠ ReservationStatus.reserved)
      then throw ReservationCannotBeCancelled
      else
        updatedReservation ←
          Prisma.inventoryReservation_update reservationId
            (Prisma.set_status ReservationStatus.cancelled);
        releaseReservedQuantity (InventoryReservation.storeId r)
          (InventoryReservation.productId r) (InventoryReservation.quantity r);;
        mret updatedReservation
  end.

(** [releaseExpiredReservations]: the sweep of rows still ['reserved'] whose
    [expiresAt] has passed. *)
Definition releaseExpiredReservations (env : Env) : M (list InventoryReservation.t) :=
  let due (r : InventoryReservation.t) :=
    bool_decide (InventoryReservation.status r = ReservationStatus.reserved)
    && (InventoryReservation.expiresAt r <=? now env) in
  expiredReservations ← Prisma.inventoryReservation_findMany due;
  match expiredReservations with
  | [] => mret []
  | _ =>
      Prisma.inventoryReservation_updateMany
        (fun r => bool_decide (InventoryReservation.id r ∈
                                 List.map InventoryReservation.id expiredReservations))
        (Prisma.set_status ReservationStatus.expired);;
      for_each expiredReservations (fun r =>
        releaseReservedQuantity (InventoryReservation.storeId r)
          (InventoryReservation.productId r) (InventoryReservation.quantity r));;
      mret expiredReservations
  end.

End ReservationService.

(** ** [CartService] *)

Module CartService.

(** [calculateCartTotals]: everything is computed on JS numbers. *)
Definition round2 (x : Number.t) : Number.t :=
  Number.div (Number.Math_round (Number.mul x (Number.ofZ 100))) (Number.ofZ 100).

Definition line_amount (item : CartItem.t) : Number.t :=
  Number.mul (Number.ofCents (CartItem.priceAtTime item))
    (Number.ofZ (CartItem.quantity item)).

Definition calculateCartTotals (items : list CartLine.t) : Totals.t :=
  let subtotal :=
    List.fold_left (fun sum line => Number.add sum (line_amount (CartLine.item line)))
      items (Number.ofZ 0) in
  let taxRate := Number.lit_0_085 in
  let tax := Number.mul subtotal taxRate in
  let deliveryFee :=
    if Number.ltb subtotal (Number.ofZ 25) then Number.ofCents 299 else Number.ofZ 0 in
  let discount := Number.ofZ 0 in
  let total := Number.sub (Number.add (Number.add subtotal tax) deliveryFee) discount in
  Totals.mk (round2 subtotal) (round2 tax) (round2 deliveryFee) (round2 discount)
    (round2 total).

Definition shoppingCart_findFirst (userId storeId : string) : M (option ShoppingCart.t) :=
  query (fun d =>
    List.find (fun c => bool_decide (ShoppingCart.userId c = userId)
                        && bool_decide (ShoppingCart.storeId c = storeId)
                        && ShoppingCart.isActive c)
      (shoppingCart d)).

Definition cartItem_of_cart (cartId : Id) : M (list CartItem.t) :=
  query (fun d =>
    List.filter (fun i => bool_decide (CartItem.cartId i = cartId)) (cartItem d)).

Definition getCartWithItems (env : Env) (userId storeId : string)
  : M (option CartWithItems.t) :=
  cart ← shoppingCart_findFirst userId storeId;
  match cart with
  | None => mret None
  | Some c =>
      items ← cartItem_of_cart (ShoppingCart.id c);
      let itemsWithProducts :=
        List.map (fun i => CartLine.mk i (getProductById env (CartItem.productId i)))
          items in
      mret (Some (CartWithItems.mk c itemsWithProducts
                    (calculateCartTotals itemsWithProducts)))
  end.

(** The body of the loop of [validateCartForCheckout]: what one cart line
    adds to [errors]. *)
Definition check_line (storeId : string) (item : CartItem.t) : M (list CartProblem) :=
  inventory ← Prisma.storeInventory_findFirst storeId (CartItem.productId item);
  mret (match inventory with
        | None => [NoLongerAvailable (CartItem.productId item)]
        | Some inv =>
            if negb (StoreInventory.isAvailable inv)
            then [CurrentlyUnavailable (CartItem.productId item)]
            else if StoreInventory.quantityAvailable inv <? CartItem.quantity item
            then [OnlyOf (StoreInventory.quantityAvailable inv)
                    (CartItem.productId item) (CartItem.quantity item)]
            else []
        end).

Module Validation.
Record t := mk {
    valid : bool;
    errors : list CartProblem;
}.
End Validation.

Definition validateCartForCheckout (env : Env) (userId storeId : string)
  : M Validation.t :=
  cart ← getCartWithItems env userId storeId;
  match cart with
  | None => mret (Validation.mk false [EmptyCart])
  | Some c =>
      match CartWithItems.items c with
      | [] => mret (Validation.mk false [EmptyCart])
      | items =>
          errs ← for_each items (fun line => check_line storeId (CartLine.item line));
          let errors := List.concat errs in
          mret (Validation.mk (Nat.eqb (List.length errors) 0) errors)
      end
  end.

End CartService.

(** ** [PaymentService] *)

Module PaymentService.

(** [processPayment] never throws: a provider error comes back as
    [success: false].  Each call is one charge request. *)
Definition processPayment (env : Env) (req : PaymentRequest.t) : M PaymentResult.t :=
  fun w => (Returned (processPayment env req),
            mkWorld (db w) (nextId w) (charges w ++ [req])).

End PaymentService.

(** ** [OrderService] *)

Module OrderService.

Definition idempotencyKey_findUnique (key userId : string)
  : M (option IdempotencyKey.t) :=
  query (fun d =>
    List.find (fun k => bool_decide (IdempotencyKey.key k = key)
                        && bool_decide (IdempotencyKey.userId k = userId))
      (idempotencyKey d)).

Definition idempotencyKey_has_id (i : Id) (k : IdempotencyKey.t) : bool :=
  bool_decide (IdempotencyKey.id k = i).

Definition idempotencyKey_delete (i : Id) : M unit :=
  found ← query (fun d => List.existsb (idempotencyKey_has_id i) (idempotencyKey d));
  if found : bool
  then write (set_idempotencyKey
                (List.filter (fun k => negb (idempotencyKey_has_id i k))))
  else throw RecordNotFound.

Definition idempotencyKey_create (key userId requestHash : string)
  : M IdempotencyKey.t :=
  existing ← idempotencyKey_findUnique key userId;
  match existing with
  | Some _ => throw UniqueConstraintFailed
  | None =>
      i ← freshId;
      let k := IdempotencyKey.mk i key userId IdempotencyStatus.in_progress
                 requestHash NullPayload in
      write (set_idempotencyKey (fun ks => ks ++ [k]));;
      mret k
  end.

Definition idempotencyKey_update (i : Id) (status : IdempotencyStatus.t)
  (response : Payload) : M unit :=
  found ← query (fun d => List.existsb (idempotencyKey_has_id i) (idempotencyKey d));
  if found : bool
  then write (set_idempotencyKey
                (List.map (fun k =>
                   if idempotencyKey_has_id i k
                   then IdempotencyKey.mk (IdempotencyKey.id k) (IdempotencyKey.key k)
                          (IdempotencyKey.userId k) status
                          (IdempotencyKey.requestHash k) response
                   else k)))
  else throw RecordNotFound.

Definition order_findUnique_orderNumber (orderNumber : string) : M (option Order.t) :=
  query (fun d =>
    List.find (fun o => bool_decide (Order.orderNumber o = orderNumber)) (order d)).

(** [generateOrderNumber]: a candidate is drawn from the clock and
    [Math.random], and redrawn while an order already carries it.  The
    draws of one run are [orderNumberCandidates env]. *)
Fixpoint generateOrderNumber_from (candidates : list string) : M string :=
  match candidates with
  | [] => throw NoFreeOrderNumber
  | orderNumber :: rest =>
      existing ← order_findUnique_orderNumber orderNumber;
      match existing with
      | Some _ => generateOrderNumber_from rest
      | None => mret orderNumber
      end
  end.

Definition generateOrderNumber (env : Env) : M string :=
  generateOrderNumber_from (orderNumberCandidates env).

Definition order_create (orderNumber userId storeId : string) (totals : Totals.t)
  (data : CreateOrderData.t) : M Order.t :=
  existing ← order_findUnique_orderNumber orderNumber;
  match existing with
  | Some _ => throw UniqueConstraintFailed
  | None =>
      i ← freshId;
      let o := Order.mk i orderNumber userId storeId OrderStatus.pending
                 (Totals.total totals) (Totals.tax totals)
                 (Totals.deliveryFee totals) (Totals.discount totals)
                 (Some (CreateOrderData.paymentMethod data)) PaymentStatus.pending
                 (Some (CreateOrderData.deliveryType data))
                 (CreateOrderData.deliveryAddress data)
                 (CreateOrderData.specialInstructions data) in
      write (set_order (fun os => os ++ [o]));;
      mret o
  end.

(** [item.product?.attributes?.name || `Product ${item.productId}`]. *)
Definition product_name (line : CartLine.t) : string :=
  match CartLine.productName line with
  | Some n => if bool_decide (n = "") then "Product " +:+ CartItem.productId (CartLine.item line)
              else n
  | None => "Product " +:+ CartItem.productId (CartLine.item line)
  end.

Definition orderItem_create (orderId : Id) (line : CartLine.t) : M OrderItem.t :=
  i ← freshId;
  let item := CartLine.item line in
  let oi := OrderItem.mk i orderId (CartItem.productId item) (product_name line)
              (CartItem.quantity item) (CartItem.priceAtTime item)
              (CartService.line_amount item) None in
  write (set_orderItem (fun ois => ois ++ [oi]));;
  mret oi.

Definition order_has_id (i : Id) (o : Order.t) : bool := bool_decide (Order.id o = i).

Definition set_payment (paymentStatus : PaymentStatus.t) (status : OrderStatus.t)
  (o : Order.t) : Order.t :=
  Order.mk (Order.id o) (Order.orderNumber o) (Order.userId o) (Order.storeId o)
    status (Order.totalAmount o) (Order.taxAmount o) (Order.deliveryFee o)
    (Order.discountAmount o) (Order.paymentMethod o) paymentStatus
    (Order.deliveryType o) (Order.deliveryAddress o) (Order.specialInstructions o).

Definition order_update_payment (i : Id) (paymentStatus : PaymentStatus.t)
  (status : OrderStatus.t) : M unit :=
  found ← query (fun d => List.existsb (order_has_id i) (order d));
  if found : bool
  then write (set_order (List.map (fun o =>
                if order_has_id i o then set_payment paymentStatus status o else o)))
  else throw RecordNotFound.

Definition cartItem_deleteMany (cartId : Id) : M unit :=
  write (set_cartItem
           (List.filter (fun i => negb (bool_decide (CartItem.cartId i = cartId))))).

Definition or_empty (s : option string) : string :=
  match s with Some x => x | None => "" end.

Definition getOrderById (orderId : Id) : M (option OrderWithItems.t) :=
  query (fun d =>
    match List.find (order_has_id orderId) (order d) with
    | None => None
    | Some o =>
        Some (OrderWithItems.mk o
                (List.filter (fun i => bool_decide (OrderItem.orderId i = orderId))
                   (orderItem d))
                (match store d !! Order.storeId o with
                 | Some s => Some (OrderWithItems.mkStore (Store.name s)
                                     (or_empty (Store.address s))
                                     (or_empty (Store.phone s)))
                 | None => None
                 end))
    end).

Definition releaseReservationsForFailedOrder (userId storeId : string) : M unit :=
  reservations ← Prisma.inventoryReservation_findMany (fun r =>
    bool_decide (InventoryReservation.userId r = Some userId)
    && bool_decide (InventoryReservation.storeId r = storeId)
    && bool_decide (InventoryReservation.status r = ReservationStatus.reserved)
    && bool_decide (InventoryReservation.orderId r = None));
  for_each reservations (fun r =>
    ReservationService.updateReservation (InventoryReservation.id r)
      (UpdateReservationData.mk ReservationStatus.released None));;
  mret tt.

(** One turn of the reservation loop inside the transaction. *)
Definition reserve_line (env : Env) (userId storeId : string) (line : CartLine.t)
  : M InventoryReservation.t :=
  let item := CartLine.item line in
  reservation ← Prisma.inventoryReservation_create storeId (CartItem.productId item)
                   (CartItem.quantity item) (Some userId) None
                   (now env + 15 * 60 * 1000);
  Prisma.storeInventory_increment_reserved storeId (CartItem.productId item)
    (CartItem.quantity item);;
  mret reservation.

(** The callback of [prisma.$transaction]. *)
Definition createOrder_tx (env : Env) (userId : string) (data : CreateOrderData.t)
  (cart : CartWithItems.t) : M (Order.t * list OrderItem.t) :=
  let storeId := CreateOrderData.storeId data in
  let paymentMethod := CreateOrderData.paymentMethod data in
  reservations ← for_each (CartWithItems.items cart) (reserve_line env userId storeId);
  orderNumber ← generateOrderNumber env;
  order ← order_create orderNumber userId storeId (CartWithItems.totals cart) data;
  orderItems ← for_each (CartWithItems.items cart) (orderItem_create (Order.id order));
  paymentResult ← PaymentService.processPayment env
    (PaymentRequest.mk (Totals.total (CartWithItems.totals cart)) paymentMethod
       (Order.id order) userId);
  if negb (PaymentResult.success paymentResult)
  then throw (PaymentFailed (PaymentResult.error paymentResult))
  else
    order_update_payment (Order.id order)
      (if PaymentResult.success paymentResult
       then PaymentStatus.paid else PaymentStatus.failed)
      (if PaymentResult.success paymentResult
       then OrderStatus.confirmed else OrderStatus.pending);;
    (if PaymentResult.success paymentResult
     then Prisma.inventoryReservation_updateMany
            (fun r => bool_decide (InventoryReservation.id r ∈
                                     List.map InventoryReservation.id reservations))
            (Prisma.set_status_orderId ReservationStatus.used (Some (Order.id order)))
     else mret tt);;
    cartItem_deleteMany (ShoppingCart.id (CartWithItems.cart cart));;
    mret (order, orderItems).

(** The [try] block of [createOrder]. *)
Definition createOrder_attempt (env : Env) (userId : string)
  (data : CreateOrderData.t) (idempotencyRecord : IdempotencyKey.t) : M Payload :=
  let storeId := CreateOrderData.storeId data in
  cartValidation ← CartService.validateCartForCheckout env userId storeId;
  if negb (CartService.Validation.valid cartValidation)
  then throw (CartValidationFailed (CartService.Validation.errors cartValidation))
  else
    cart ← CartService.getCartWithItems env userId storeId;
    match cart with
    | None => throw CartIsEmpty
    | Some c =>
        match CartWithItems.items c with
        | [] => throw CartIsEmpty
        | _ =>
            result ← transaction (createOrder_tx env userId data c);
            idempotencyKey_update (IdempotencyKey.id idempotencyRecord)
              IdempotencyStatus.completed
              (TxResultPayload (fst result) (snd result));;
            orderWithDetails ← getOrderById (Order.id (fst result));
            mret (match orderWithDetails with
                  | Some o => OrderPayload o
                  | None => NullPayload
                  end)
        end
    end.

(** The [catch] block of [createOrder]. *)
Definition createOrder_failed (userId storeId : string)
  (idempotencyRecord : IdempotencyKey.t) (error : Error) : M Payload :=
  idempotencyKey_update (IdempotencyKey.id idempotencyRecord)
    IdempotencyStatus.failed (ErrorPayload error);;
  releaseReservationsForFailedOrder userId storeId;;
  throw error.

(** What [createOrder] does once the key is free. *)
Definition createOrder_claimed (env : Env) (userId key : string)
  (data : CreateOrderData.t) : M Payload :=
  idempotencyRecord ← idempotencyKey_create key userId (sha256_of_json env data);
  try_catch (createOrder_attempt env userId data idempotencyRecord)
    (createOrder_failed userId (CreateOrderData.storeId data) idempotencyRecord).

(** [idempotencyKey || crypto.randomUUID()]: an absent or empty key is
    replaced by a random one. *)
Definition key_of (env : Env) (data : CreateOrderData.t) : string :=
  match CreateOrderData.idempotencyKey data with
  | Some k => if bool_decide (k = "") then randomUUID env else k
  | None => randomUUID env
  end.

Definition createOrder (env : Env) (userId : string) (data : CreateOrderData.t)
  : M Payload :=
  let key := key_of env data in
  existingKey ← idempotencyKey_findUnique key userId;
  match existingKey with
  | Some existing =>
      match IdempotencyKey.status existing with
      | IdempotencyStatus.completed => mret (IdempotencyKey.response existing)
      | IdempotencyStatus.in_progress => throw OrderAlreadyBeingProcessed
      | IdempotencyStatus.failed =>
          idempotencyKey_delete (IdempotencyKey.id existing);;
          createOrder_claimed env userId key data
      end
  | None => createOrder_claimed env userId key data
  end.

End OrderService.

(** ** Concurrent calls of [createReservation]

    Node runs one call until its next [await]; between two [await]s of one
    call any other call may run.  A call of [createReservation] is therefore
    a thread of three atomic steps, one per awaited Prisma operation, and a
    schedule says which thread takes the next step. *)

Module Concurrent.

Inductive Thread :=
| AtCheck (data : CreateReservationData.t)
| AtInsert (data : CreateReservationData.t)
| AtIncrement (data : CreateReservationData.t) (reservation : InventoryReservation.t)
| Finished (result : Outcome InventoryReservation.t).

Definition step (env : Env) (t : Thread) (w : World) : Thread * World :=
  match t with
  | AtCheck data =>
      match ReservationService.createReservation_check data w with
      | (Returned _, w') => (AtInsert data, w')
      | (Thrown e, w') => (Finished (Thrown e), w')
      end
  | AtInsert data =>
      match ReservationService.createReservation_insert env data w with
      | (Returned r, w') => (AtIncrement data r, w')
      | (Thrown e, w') => (Finished (Thrown e), w')
      end
  | AtIncrement data r =>
      match ReservationService.createReservation_increment data w with
      | (Returned _, w') => (Finished (Returned r), w')
      | (Thrown e, w') => (Finished (Thrown e), w')
      end
  | Finished r => (Finished r, w)
  end.

(** Thread [i] of the pool takes one step; an index outside the pool does
    nothing. *)
Definition step_pool (env : Env) (i : nat) (pool : list Thread) (w : World)
  : list Thread * World :=
  match pool !! i with
  | Some t => let '(t', w') := step env t w in (<[i := t']> pool, w')
  | None => (pool, w)
  end.

Fixpoint run (env : Env) (schedule : list nat) (pool : list Thread) (w : World)
  : list Thread * World :=
  match schedule with
  | [] => (pool, w)
  | i :: rest => let '(pool', w') := step_pool env i pool w in run env rest pool' w'
  end.

(** The quantities of the calls that returned a reservation. *)
Definition succeeded_quantity (t : Thread) : Z :=
  match t with
  | Finished (Returned r) => InventoryReservation.quantity r
  | _ => 0
  end.

Definition total_succeeded (pool : list Thread) : Z :=
  List.fold_right (fun t acc => succeeded_quantity t + acc) 0 pool.

End Concurrent.

(** ** The other entry points of the services

    The cart's own operations, the order's cancel and status update and the
    reservation queries reject with further messages and, for a cancelled
    paid order, ask the payment provider for a refund.  They run in a second
    monad over the same world: its errors extend [Error] and its state
    carries the refunds asked for. *)

Inductive ServiceError :=
| Core (e : Error)
| ProductNotFound
    (* 'Product not found' *)
| CartItemNotFound
    (* 'Cart item not found' *)
| Unauthorized
| ProductNoLongerAvailable
    (* 'Product no longer available' *)
| OnlyAvailable (quantityAvailable : Z)
    (* `Only ${quantityAvailable} items available` *)
| OnlyAvailableWithCart (quantityAvailable inCart : Z)
    (* `Only ${quantityAvailable} items available (${quantity} already in cart)` *)
| OrderNotFound
| CannotCancelCompletedOrder
| OrderAlreadyCancelled.

(** The argument of [PaymentService.processRefund]. *)
Module RefundRequest.
Record t := mk {
    orderId : Id;
    amount : Number.t;
    reason : option string;
}.
End RefundRequest.

Record Site := mkSite {
  world : World;
  refunds : list RefundRequest.t;
}.

Inductive Result (A : Type) :=
| Done (a : A)
| Failed (e : ServiceError).
Arguments Done {A} a.
Arguments Failed {A} e.

Definition Svc (A : Type) : Type := Site -> Result A * Site.

#[global] Instance Svc_ret : MRet Svc := fun A a s => (Done a, s).
#[global] Instance Svc_bind : MBind Svc := fun A B k m s =>
  match m s with
  | (Done a, s') => k a s'
  | (Failed e, s') => (Failed e, s')
  end.

Definition reject {A} (e : ServiceError) : Svc A := fun s => (Failed e, s).

(** A call of the checkout core inside the larger monad. *)
Definition lift {A} (m : M A) : Svc A := fun s =>
  match m (world s) with
  | (Returned a, w') => (Done a, mkSite w' (refunds s))
  | (Thrown e, w') => (Failed (Core e), mkSite w' (refunds s))
  end.

Definition set_shoppingCart (f : list ShoppingCart.t -> list ShoppingCart.t)
  (d : Database) : Database :=
  mkDatabase (storeInventory d) (inventoryReservation d) (idempotencyKey d)
    (order d) (orderItem d) (f (shoppingCart d)) (cartItem d) (store d).

(** *** [CartService]: the cart's own operations *)

Module Cart.

Definition shoppingCart_create (userId storeId : string) : M ShoppingCart.t :=
  i ← freshId;
  let c := ShoppingCart.mk i userId storeId true in
  write (set_shoppingCart (fun cs => cs ++ [c]));;
  mret c.

Definition getOrCreateCart (userId storeId : string) : Svc ShoppingCart.t :=
  cart ← lift (CartService.shoppingCart_findFirst userId storeId);
  match cart with
  | Some c => mret c
  | None => lift (shoppingCart_create userId storeId)
  end.

(** [cartItem.findFirst({ where: { cartId, productId } })]. *)
Definition cartItem_findFirst (cartId : Id) (productId : string)
  : M (option CartItem.t) :=
  query (fun d =>
    List.find (fun i => bool_decide (CartItem.cartId i = cartId)
                        && bool_decide (CartItem.productId i = productId))
      (cartItem d)).

Definition cartItem_has_id (itemId : Id) (i : CartItem.t) : bool :=
  bool_decide (CartItem.id i = itemId).

(** [cartItem.update({ where: { id }, data })]. *)
Definition cartItem_update (itemId : Id) (data : CartItem.t -> CartItem.t) : M unit :=
  found ← query (fun d => List.existsb (cartItem_has_id itemId) (cartItem d));
  if found : bool
  then write (set_cartItem
                (List.map (fun i => if cartItem_has_id itemId i then data i else i)))
  else throw RecordNotFound.

Definition cartItem_create (cartId : Id) (productId : string) (quantity price : Z)
  : M unit :=
  i ← freshId;
  write (set_cartItem (fun items => items ++ [CartItem.mk i cartId productId quantity price])).

(** [cartItem.delete({ where: { id } })]. *)
Definition cartItem_delete (itemId : Id) : M unit :=
  found ← query (fun d => List.existsb (cartItem_has_id itemId) (cartItem d));
  if found : bool
  then write (set_cartItem (List.filter (fun i => negb (cartItem_has_id itemId i))))
  else throw RecordNotFound.

Definition set_quantity (quantity : Z) (i : CartItem.t) : CartItem.t :=
  CartItem.mk (CartItem.id i) (CartItem.cartId i) (CartItem.productId i) quantity
    (CartItem.priceAtTime i).

Definition set_quantity_price (quantity price : Z) (i : CartItem.t) : CartItem.t :=
  CartItem.mk (CartItem.id i) (CartItem.cartId i) (CartItem.productId i) quantity price.

(** [addToCart].  [price] is the CMS's answer to [getProductById]: the
    product's price as the [priceAtTime] column stores it, in hundredths, or
    nothing when the lookup fails. *)
Definition addToCart (env : Env) (price : string -> option Z) (userId : string)
  (productId : string) (quantity : Z) (storeId : string)
  : Svc (option CartWithItems.t) :=
  match price productId with
  | None => reject ProductNotFound
  | Some productPrice =>
      inventory ← lift (Prisma.storeInventory_findFirst_available storeId productId);
      match inventory with
      | None => reject (Core ProductNotAvailableInStore)
      | Some inv =>
          if StoreInventory.quantityAvailable inv <? quantity
          then reject (OnlyAvailable (StoreInventory.quantityAvailable inv))
          else
            cart ← getOrCreateCart userId storeId;
            existingItem ← lift (cartItem_findFirst (ShoppingCart.id cart) productId);
            match existingItem with
            | Some existing =>
                let newQuantity := CartItem.quantity existing + quantity in
                if StoreInventory.quantityAvailable inv <? newQuantity
                then reject (OnlyAvailableWithCart (StoreInventory.quantityAvailable inv)
                             (CartItem.quantity existing))
                else lift (cartItem_update (CartItem.id existing)
                             (set_quantity_price newQuantity productPrice))
            | None =>
                lift (cartItem_create (ShoppingCart.id cart) productId quantity
                        productPrice)
            end;;
            lift (CartService.getCartWithItems env userId storeId)
      end
  end.

(** [cartItem.findFirst({ where: { id }, include: { cart: true } })]: the
    item with the cart its foreign key points to (the relation is required,
    so an item whose cart row is missing is not returned). *)
Definition cartItem_with_cart (itemId : Id) : M (option (CartItem.t * ShoppingCart.t)) :=
  query (fun d =>
    match List.find (cartItem_has_id itemId) (cartItem d) with
    | None => None
    | Some i =>
        match List.find (fun c => bool_decide (ShoppingCart.id c = CartItem.cartId i))
                (shoppingCart d) with
        | None => None
        | Some c => Some (i, c)
        end
    end).

Definition updateCartItem (env : Env) (userId : string) (itemId : Id) (quantity : Z)
  : Svc (option CartWithItems.t) :=
  cartItem ← lift (cartItem_with_cart itemId);
  match cartItem with
  | None => reject CartItemNotFound
  | Some (item, cart) =>
      if bool_decide (ShoppingCart.userId cart ≠ userId)
      then reject Unauthorized
      else
        inventory ← lift (Prisma.storeInventory_findFirst_available
                            (ShoppingCart.storeId cart) (CartItem.productId item));
        match inventory with
        | None => reject ProductNoLongerAvailable
        | Some inv =>
            if StoreInventory.quantityAvailable inv <? quantity
            then reject (OnlyAvailable (StoreInventory.quantityAvailable inv))
            else
              lift (cartItem_update itemId (set_quantity quantity));;
              lift (CartService.getCartWithItems env userId (ShoppingCart.storeId cart))
        end
  end.

Definition removeCartItem (env : Env) (userId : string) (itemId : Id)
  : Svc (option CartWithItems.t) :=
  cartItem ← lift (cartItem_with_cart itemId);
  match cartItem with
  | None => reject CartItemNotFound
  | Some (item, cart) =>
      if bool_decide (ShoppingCart.userId cart ≠ userId)
      then reject Unauthorized
      else
        lift (cartItem_delete itemId);;
        lift (CartService.getCartWithItems env userId (ShoppingCart.storeId cart))
  end.

Definition clearCart (userId storeId : string) : Svc unit :=
  cart ← lift (CartService.shoppingCart_findFirst userId storeId);
  match cart with
  | Some c => lift (OrderService.cartItem_deleteMany (ShoppingCart.id c))
  | None => mret tt
  end.

End Cart.

(** *** [ReservationService]: queries *)

Module Reservations.


End Reservations.

(** *** [OrderService]: cancel and status update *)

Module Orders.

Definition releaseReservationsForOrder (orderId : Id) : M unit :=
  reservations ← Prisma.inventoryReservation_findMany (fun r =>
    bool_decide (InventoryReservation.orderId r = Some orderId)
    && bool_decide (InventoryReservation.status r = ReservationStatus.used));
  for_each reservations (fun r =>
    ReservationService.updateReservation (InventoryReservation.id r)
      (UpdateReservationData.mk ReservationStatus.released None));;
  mret tt.

Definition set_status (status : OrderStatus.t) (o : Order.t) : Order.t :=
  OrderService.set_payment (Order.paymentStatus o) status o.

(** [order.update({ where: { id }, data: { status } })]. *)
Definition order_update_status (orderId : Id) (status : OrderStatus.t) : M unit :=
  found ← query (fun d => List.existsb (OrderService.order_has_id orderId) (order d));
  if found : bool
  then write (set_order (List.map (fun o =>
                if OrderService.order_has_id orderId o then set_status status o else o)))
  else throw RecordNotFound.

(** [PaymentService.processRefund]: it never throws and [cancelOrder]
    drops its result; what remains is that the refund was asked for. *)
Definition processRefund (req : RefundRequest.t) : Svc unit :=
  fun s => (Done tt, mkSite (world s) (refunds s ++ [req])).

Definition payload_of (o : option OrderWithItems.t) : Payload :=
  match o with
  | Some x => OrderPayload x
  | None => NullPayload
  end.

Definition cancelOrder (orderId : Id) (userId : string) : Svc Payload :=
  order ← lift (query (fun d =>
             List.find (OrderService.order_has_id orderId) (order d)));
  match order with
  | None => reject OrderNotFound
  | Some o =>
      if bool_decide (Order.userId o ≠ userId) then reject Unauthorized
      else if bool_decide (Order.status o = OrderStatus.completed)
      then reject CannotCancelCompletedOrder
      else if bool_decide (Order.status o = OrderStatus.cancelled)
      then reject OrderAlreadyCancelled
      else
        lift (order_update_status orderId OrderStatus.cancelled);;
        lift (releaseReservationsForOrder orderId);;
        (if bool_decide (Order.paymentStatus o = PaymentStatus.paid)
         then processRefund (RefundRequest.mk orderId (Order.totalAmount o)
                               (Some "Order cancelled by customer"))
         else mret tt);;
        found ← lift (OrderService.getOrderById orderId);
        mret (payload_of found)
  end.

Definition updateOrderStatus (orderId : Id) (status : OrderStatus.t) : Svc Payload :=
  lift (order_update_status orderId status);;
  found ← lift (OrderService.getOrderById orderId);
  mret (payload_of found).

End Orders.

(** *** [PaymentService]: methods, fees and the simulated provider *)

Module Payment.

Inductive Status := pending | completed | failed | refunded.

(** The interface [PaymentResult]. *)
Record Result := mkResult {
  success : bool;
  transactionId : option string;
  error : option string;
  amount : Number.t;
  currency : string;
  status : Status;
}.

(** The decimal literal [n/d], for integers that binary64 holds exactly:
    the binary64 nearest to the quotient. *)
Definition lit (n d : Z) : Number.t := Number.div (Number.ofZ n) (Number.ofZ d).

(** [ToBoolean] of a number: [0], [-0] and [NaN] are falsy. *)
Definition truthy (x : Number.t) : bool :=
  match x with
  | S754_zero _ | S754_nan => false
  | _ => true
  end.

(** The own properties of the object literal [feeRates]. *)
Definition feeRates (key : string) : option Number.t :=
  if bool_decide (key = "credit_card") then Some (lit 29 1000)
  else if bool_decide (key = "debit_card") then Some (lit 15 1000)
  else if bool_decide (key = "paypal") then Some (lit 34 1000)
  else if bool_decide (key = "apple_pay") then Some (lit 29 1000)
  else if bool_decide (key = "google_pay") then Some (lit 29 1000)
  else if bool_decide (key = "bank_transfer") then Some (lit 5 1000)
  else if bool_decide (key = "cash_on_delivery") then Some (Number.ofZ 0)
  else None.

(** The string keys an object literal inherits from [Object.prototype]:
    each of them is a function or an object, so it is truthy and
    multiplying by it gives [NaN]. *)
Definition inherited (key : string) : bool :=
  bool_decide (key ∈ ["constructor"; "__proto__"; "hasOwnProperty"; "isPrototypeOf";
                      "propertyIsEnumerable"; "toLocaleString"; "toString"; "valueOf";
                      "__defineGetter__"; "__defineSetter__"; "__lookupGetter__";
                      "__lookupSetter__"]).

Definition getSupportedPaymentMethods : list string :=
  ["credit_card"; "debit_card"; "paypal"; "apple_pay"; "google_pay"; "bank_transfer";
   "cash_on_delivery"].

Section Runtime.

(** [String.prototype.toLowerCase], the draws of [Math.random] in the order
    they are made, and [generateTransactionId] as a function of its draw
    (it also reads the clock). *)
Variable toLowerCase : string -> string.
Variable random : nat -> Number.t.
Variable generateTransactionId : Number.t -> string.

Definition validatePaymentMethod (paymentMethod : string) : bool :=
  let validMethods :=
    ["credit_card"; "debit_card"; "paypal"; "apple_pay"; "google_pay"; "bank_transfer";
     "cash_on_delivery"; "test_fail"] in
  bool_decide (toLowerCase paymentMethod ∈ validMethods).

(** [feeRates[paymentMethod.toLowerCase()] || 0.029], as the factor it is
    in [amount * rate]. *)
Definition rate_of (paymentMethod : string) : Number.t :=
  let key := toLowerCase paymentMethod in
  match feeRates key with
  | Some r => if truthy r then r else lit 29 1000
  | None => if inherited key then S754_nan else lit 29 1000
  end.

Definition calculateProcessingFee (amount : Number.t) (paymentMethod : string)
  : Number.t :=
  let rate := rate_of paymentMethod in
  let fee := Number.mul amount rate in
  let fixedFee := if Number.ltb amount (Number.ofZ 10) then lit 3 10 else Number.ofZ 0 in
  Number.div (Number.Math_round (Number.mul (Number.add fee fixedFee) (Number.ofZ 100)))
    (Number.ofZ 100).

(** One [case] of the [switch] in [simulatePayment]: [success =
    Math.random() > threshold; if (!success) error = message], with the
    draw numbered [n]. *)
Definition draw_above (n : nat) (threshold : Number.t) (message : string)
  : bool * option string * nat :=
  let ok := Number.ltb threshold (random n) in
  (ok, if ok then None else Some message, S n).

(** [simulatePayment].  Draw 0 is the one of the simulated network
    delay. *)
Definition simulatePayment (amount : Number.t) (paymentMethod : string) : Result :=
  let key := toLowerCase paymentMethod in
  let '(success, error, n) :=
    if bool_decide (key = "credit_card") then draw_above 1 (lit 5 100) "Card declined"
    else if bool_decide (key = "debit_card")
    then draw_above 1 (lit 1 10) "Insufficient funds"
    else if bool_decide (key = "paypal")
    then draw_above 1 (lit 2 100) "PayPal account error"
    else if bool_decide (key = "apple_pay")
    then draw_above 1 (lit 1 100) "Apple Pay authentication failed"
    else if bool_decide (key = "google_pay")
    then draw_above 1 (lit 1 100) "Google Pay authentication failed"
    else if bool_decide (key = "test_fail")
    then (false, Some "Test payment failure", 1%nat)
    else draw_above 1 (lit 15 100) "Payment method not supported" in
  let '(success, error, n) :=
    if Number.ltb (Number.ofZ 1000) amount
    then if Number.ltb (lit 7 10) (random n)
         then (false, Some "High-value transaction requires additional verification",
               S n)
         else (success, error, S n)
    else (success, error, n) in
  let transactionId :=
    if success then Some (generateTransactionId (random n)) else None in
  mkResult success transactionId error amount "USD"
    (if success then completed else failed).

End Runtime.

End Payment.

(** ** A small shop

    One store with one product, one user with an active cart: the concrete
    data the statements below are evaluated on. *)

Module Shop.

Definition storeId : string := "store-1".
Definition productId : string := "101".
Definition userId : string := "user-1".

(** An inventory with [quantityAvailable] and [reservedQuantity] as given. *)
Definition inventory (available reserved : Z) : gmap (string * string) StoreInventory.t :=
  {[ (storeId, productId) := StoreInventory.mk available reserved true ]}.

Definition stores : gmap string Store.t :=
  {[ storeId := Store.mk "Corner shop" (Some "1 Main St") None ]}.

(** The user's cart holds [quantity] items of the product at 10.00. *)
Definition database (available reserved quantity : Z)
  (reservations : list InventoryReservation.t) : Database :=
  mkDatabase (inventory available reserved) reservations [] [] []
    [ShoppingCart.mk 1%nat userId storeId true]
    [CartItem.mk 2%nat 1%nat productId quantity 1000]
    stores.

Definition world (available reserved quantity : Z)
  (reservations : list InventoryReservation.t) : World :=
  mkWorld (database available reserved quantity reservations) 10%nat [].

(** A hold of [quantity] items owned by [owner], in the given status. *)
Definition hold_of (owner : string) (i : Id) (quantity : Z)
  (status : ReservationStatus.t) : InventoryReservation.t :=
  InventoryReservation.mk i storeId productId quantity (Some owner) None status 900000.

Definition hold : Id -> Z -> ReservationStatus.t -> InventoryReservation.t :=
  hold_of userId.

Definition env (uuid orderNumber : string) (paid : bool) : Env :=
  mkEnv 0 15 uuid [orderNumber]
    (fun _ => if paid then PaymentResult.mk true None
              else PaymentResult.mk false (Some "Card declined"))
    (fun d => CreateOrderData.paymentMethod d)
    (fun _ => None).

Definition checkout (paymentMethod : string) (key : option string) : CreateOrderData.t :=
  CreateOrderData.mk storeId DeliveryType.pickup None None paymentMethod key.

Definition reserve (quantity : Z) : CreateReservationData.t :=
  CreateReservationData.mk storeId productId quantity None None 15.

(** The inventory row of the product in a world. *)
Definition row (w : World) : option StoreInventory.t :=
  storeInventory (db w) !! (storeId, productId).


End Shop.

(** * The specification's statements and the data they are tried on *)

(** What one cart line adds to the errors, read off the database. *)
Definition line_problems (storeId : string) (item : CartItem.t) (d : Database)
  : list CartProblem :=
  match storeInventory d !! (storeId, CartItem.productId item) with
  | None => [NoLongerAvailable (CartItem.productId item)]
  | Some inv =>
      if negb (StoreInventory.isAvailable inv)
      then [CurrentlyUnavailable (CartItem.productId item)]
      else if StoreInventory.quantityAvailable inv <? CartItem.quantity item
      then [OnlyOf (StoreInventory.quantityAvailable inv)
              (CartItem.productId item) (CartItem.quantity item)]
      else []
  end.

(** Orders, idempotency records and charges are untouched, and the key
    supply has only moved forward. *)
Definition same_books (w w' : World) : Prop :=
  order (db w') = order (db w)
  /\ idempotencyKey (db w') = idempotencyKey (db w)
  /\ charges w' = charges w
  /\ (nextId w <= nextId w')%nat.

(** Every order and every idempotency record carries a key that has
    already been drawn. *)
Definition ids_drawn (w : World) : Prop :=
  Forall (fun o => (Order.id o < nextId w)%nat) (order (db w))
  /\ Forall (fun k => (IdempotencyKey.id k < nextId w)%nat) (idempotencyKey (db w)).

(** The payload of a call that returned. *)
Definition returned_payload (r : Outcome Payload * World) : Payload :=
  match fst r with
  | Returned p => p
  | Thrown _ => NullPayload
  end.

(** The world after a paid checkout under key "k1". *)
Definition after_first_checkout : World :=
  snd (OrderService.createOrder (Shop.env "uuid-1" "ORD-1" true) Shop.userId
         (Shop.checkout "credit_card" (Some "k1")) (Shop.world 5 0 2 [])).

(** The idempotency record that checkout left. *)
Definition first_record : IdempotencyKey.t :=
  List.hd (IdempotencyKey.mk 0%nat "" "" IdempotencyStatus.failed "" NullPayload)
    (idempotencyKey (db after_first_checkout)).



(** The claim C6 as the specification words it: a transition from
    ['reserved'] to ['used'] leaves the row's [reservedQuantity] as it was. *)
Definition used_keeps_hold : Prop :=
  forall (reservationId : Id) (orderId : option Id) (w w' : World)
    (r u : InventoryReservation.t) (inv : StoreInventory.t),
    List.find (fun r => bool_decide (InventoryReservation.id r = reservationId))
      (inventoryReservation (db w)) = Some r ->
    InventoryReservation.status r = ReservationStatus.reserved ->
    storeInventory (db w)
      !! (InventoryReservation.storeId r, InventoryReservation.productId r) = Some inv ->
    ReservationService.updateReservation reservationId
      (UpdateReservationData.mk ReservationStatus.used orderId) w = (Returned u, w') ->
    exists inv',
      storeInventory (db w')
        !! (InventoryReservation.storeId r, InventoryReservation.productId r) = Some inv'
      /\ StoreInventory.reservedQuantity inv' = StoreInventory.reservedQuantity inv.

(** The claim C7 as the specification words it: a request whose fingerprint
    differs from the one stored under its key is refused. *)
Definition fingerprint_mismatch_rejected : Prop :=
  forall (env : Env) (userId : string) (data : CreateOrderData.t) (w : World)
    (existing : IdempotencyKey.t),
    List.find (fun k => bool_decide (IdempotencyKey.key k = OrderService.key_of env data)
                        && bool_decide (IdempotencyKey.userId k = userId))
      (idempotencyKey (db w)) = Some existing ->
    IdempotencyKey.requestHash existing <> sha256_of_json env data ->
    exists e w', OrderService.createOrder env userId data w = (Thrown e, w').

(** The claim C8 as the specification words it: a line whose quantity
    exceeds [quantityAvailable - reservedQuantity] makes the validation
    fail. *)
Definition validation_checks_availableToSell : Prop :=
  forall (env : Env) (userId storeId : string) (w w' : World)
    (cart : CartWithItems.t) (line : CartLine.t) (inv : StoreInventory.t)
    (v : CartService.Validation.t),
    CartService.getCartWithItems env userId storeId w = (Returned (Some cart), w) ->
    In line (CartWithItems.items cart) ->
    storeInventory (db w) !! (storeId, CartItem.productId (CartLine.item line))
    = Some inv ->
    StoreInventory.quantityAvailable inv - StoreInventory.reservedQuantity inv
    < CartItem.quantity (CartLine.item line) ->
    CartService.validateCartForCheckout env userId storeId w = (Returned v, w') ->
    CartService.Validation.valid v = false.


(** The rows [releaseExpiredReservations] selects: still ['reserved'] and
    past their expiry. *)
Definition due (env : Env) (r : InventoryReservation.t) : bool :=
  bool_decide (InventoryReservation.status r = ReservationStatus.reserved)
  && (InventoryReservation.expiresAt r <=? now env).

(** The inventory row a reservation holds stock on. *)
Definition row_key (r : InventoryReservation.t) : string * string :=
  (InventoryReservation.storeId r, InventoryReservation.productId r).

(** The quantity the reservations of a list hold on one row. *)
Definition held_on (k : string * string) (rs : list InventoryReservation.t) : Z :=
  List.fold_right
    (fun r acc => (if bool_decide (row_key r = k)
                   then InventoryReservation.quantity r else 0) + acc)
    0 rs.

(** A call leaves a part of the world as it was, however it ends. *)
Definition keeps {A X} (f : World -> X) (m : M A) : Prop :=
  forall w, f (snd (m w)) = f w.

(** Every reservation holds stock on an inventory row that exists. *)
Definition rows_exist (w : World) : Prop :=
  Forall (fun r => is_Some (storeInventory (db w) !! row_key r))
    (inventoryReservation (db w)).

(** The product of a cart line, with the cart it is in. *)
Definition line_key (i : CartItem.t) : Id * string :=
  (CartItem.cartId i, CartItem.productId i).

(** The holds [cancelOrder] releases: the reservations of the order that
    are ['used']. *)
Definition holds_of_order (orderId : Id) (d : Database) : list InventoryReservation.t :=
  List.filter (fun r => bool_decide (InventoryReservation.orderId r = Some orderId)
                        && bool_decide (InventoryReservation.status r
                                        = ReservationStatus.used))
    (inventoryReservation d).

(** The refunds [cancelOrder] asks for on an order. *)
Definition refunds_due (orderId : Id) (o : Order.t) : list RefundRequest.t :=
  if bool_decide (Order.paymentStatus o = PaymentStatus.paid)
  then [RefundRequest.mk orderId (Order.totalAmount o)
          (Some "Order cancelled by customer")]
  else [].

(** The books of a checkout: idempotency records, orders and charges. *)
Definition ledger (w : World)
  : list IdempotencyKey.t * list Order.t * list PaymentRequest.t :=
  (idempotencyKey (db w), order (db w), charges w).

(** The columns of the unique constraint on idempotency records. *)
Definition key_user (k : IdempotencyKey.t) : string * string :=
  (IdempotencyKey.key k, IdempotencyKey.userId k).

(** The record a user has under a key. *)
Definition record_of (key userId : string) (w : World) : option IdempotencyKey.t :=
  List.find (fun k => bool_decide (IdempotencyKey.key k = key)
                      && bool_decide (IdempotencyKey.userId k = userId))
    (idempotencyKey (db w)).

(** What a call has done at the payment provider: nothing, or one request
    with the given verdict. *)
Definition charged (env : Env) (verdict : bool) (before after : World) : Prop :=
  exists req, charges after = charges before ++ [req]
              /\ PaymentResult.success (processPayment env req) = verdict.

(** Stock, holds and charges. *)
Definition stock (w : World)
  : gmap (string * string) StoreInventory.t * list InventoryReservation.t
    * list PaymentRequest.t :=
  (storeInventory (db w), inventoryReservation (db w), charges w).

(** The active cart of a user at a store, and the line of a product in a
    cart. *)
Definition active_cart (userId storeId : string) (w : World) : option ShoppingCart.t :=
  List.find (fun c => bool_decide (ShoppingCart.userId c = userId)
                      && bool_decide (ShoppingCart.storeId c = storeId)
                      && ShoppingCart.isActive c)
    (shoppingCart (db w)).

Definition line_of (cartId : Id) (productId : string) (w : World) : option CartItem.t :=
  List.find (fun i => bool_decide (CartItem.cartId i = cartId)
                      && bool_decide (CartItem.productId i = productId))
    (cartItem (db w)).

(** Carts and their lines. *)
Definition carts (w : World) : list ShoppingCart.t * list CartItem.t :=
  (shoppingCart (db w), cartItem (db w)).

(** Primary keys are unique and were drawn from the supply, and a
    reservation's [orderId] refers to a key that was drawn. *)
Definition well_keyed (w : World) : Prop :=
  ids_drawn w
  /\ Forall (fun r => (InventoryReservation.id r < nextId w)%nat)
       (inventoryReservation (db w))
  /\ NoDup (List.map InventoryReservation.id (inventoryReservation (db w)))
  /\ Forall (fun r => forall i, InventoryReservation.orderId r = Some i ->
                                (i < nextId w)%nat)
       (inventoryReservation (db w)).

(** A cart line whose cart belongs to someone other than [userId]. *)
Definition foreign_line (userId : string) (d : Database) (i : CartItem.t) : Prop :=
  exists c, In c (shoppingCart d)
            /\ ShoppingCart.id c = CartItem.cartId i
            /\ ShoppingCart.userId c <> userId.

(** * Properties *)

(** ** Running the monad *)

Lemma bind_run {A B} (m : M A) (k : A -> M B) (w : World) :
  (m ≫= k) w =
  match m w with
  | (Returned a, w') => k a w'
  | (Thrown e, w') => (Thrown e, w')
  end.
Proof. reflexivity. Qed.

Lemma bind_returned {A B} (m : M A) (k : A -> M B) (w w' : World) (b : B) :
  (m ≫= k) w = (Returned b, w') ->
  exists a w1, m w = (Returned a, w1) /\ k a w1 = (Returned b, w').
Proof.
  rewrite bind_run. destruct (m w) as [[a|e] w1]; [eauto | discriminate].
Qed.

Lemma query_run {A} (f : Database -> A) (w : World) :
  query f w = (Returned (f (db w)), w).
Proof. reflexivity. Qed.

(** Unfold the monad's operations and compute. *)
Ltac run_monad :=
  cbv beta iota delta [mbind M_bind mret M_ret query write freshId throw]; cbn.

(** ** The inventory ledger: [createReservation] *)

Section Reserve.
Variable env : Env.
Variable data : CreateReservationData.t.

Let key : string * string :=
  (CreateReservationData.storeId data, CreateReservationData.productId data).
Let qty : Z := CreateReservationData.quantity data.

Lemma check_run (w : World) :
  ReservationService.createReservation_check data w =
  match storeInventory (db w) !! key with
  | Some inv =>
      if StoreInventory.isAvailable inv
      then
        if StoreInventory.quantityAvailable inv - StoreInventory.reservedQuantity inv <? qty
        then (Thrown (OnlyItemsAvailable
                (StoreInventory.quantityAvailable inv - StoreInventory.reservedQuantity inv)
                qty), w)
        else (Returned tt, w)
      else (Thrown ProductNotAvailableInStore, w)
  | None => (Thrown ProductNotAvailableInStore, w)
  end.
Proof.
  unfold ReservationService.createReservation_check,
    Prisma.storeInventory_findFirst_available, key, qty.
  rewrite bind_run, query_run.
  destruct (storeInventory (db w) !! _) as [inv|]; [|reflexivity].
  destruct (StoreInventory.isAvailable inv); [|reflexivity].
  by destruct (_ <? _).
Qed.

(** Once the guards have passed, the rest of the call cannot fail, and it
    adds [qty] to the row it read. *)
Lemma insert_increment_run (w : World) (inv : StoreInventory.t) :
  storeInventory (db w) !! key = Some inv ->
  exists r w',
    (reservation ← ReservationService.createReservation_insert env data;
     ReservationService.createReservation_increment data;;
     mret reservation) w = (Returned r, w')
    /\ storeInventory (db w') =
       <[key := Prisma.add_reserved qty inv]> (storeInventory (db w))
    /\ InventoryReservation.quantity r = qty
    /\ InventoryReservation.status r = ReservationStatus.reserved.
Proof.
  intros Hinv. do 2 eexists.
  unfold ReservationService.createReservation_insert,
    ReservationService.createReservation_increment,
    Prisma.inventoryReservation_create, Prisma.storeInventory_increment_reserved.
  run_monad. fold key. rewrite Hinv. cbn.
  split; [reflexivity|]. by repeat split.
Qed.

End Reserve.

(** C3.  For every inventory state and every requested quantity of at least
    1, [createReservation] succeeds if and only if the inventory row exists,
    is available and [quantityAvailable - reservedQuantity >= quantity]; a
    successful call adds exactly [quantity] to the row's [reservedQuantity]
    and leaves its other columns alone; a call that finds too little stock
    throws the error carrying [quantityAvailable - reservedQuantity] and
    changes nothing. *)
Theorem createReservation_reserves_iff_available
  (env : Env) (data : CreateReservationData.t) (w : World) :
  1 <= CreateReservationData.quantity data ->
  let key := (CreateReservationData.storeId data,
              CreateReservationData.productId data) in
  let qty := CreateReservationData.quantity data in
  ((exists r w', ReservationService.createReservation env data w = (Returned r, w'))
   <-> exists inv, storeInventory (db w) !! key = Some inv
                   /\ StoreInventory.isAvailable inv = true
                   /\ StoreInventory.quantityAvailable inv
                      - StoreInventory.reservedQuantity inv >= qty)
  /\ (forall r w',
        ReservationService.createReservation env data w = (Returned r, w') ->
        exists inv, storeInventory (db w) !! key = Some inv
          /\ storeInventory (db w') =
             <[key := StoreInventory.mk (StoreInventory.quantityAvailable inv)
                        (StoreInventory.reservedQuantity inv + qty)
                        (StoreInventory.isAvailable inv)]> (storeInventory (db w)))
  /\ (forall inv,
        storeInventory (db w) !! key = Some inv ->
        StoreInventory.isAvailable inv = true ->
        StoreInventory.quantityAvailable inv - StoreInventory.reservedQuantity inv < qty ->
        ReservationService.createReservation env data w =
        (Thrown (OnlyItemsAvailable
                   (StoreInventory.quantityAvailable inv
                    - StoreInventory.reservedQuantity inv) qty), w)).
Proof.
  intros _ key qty.
  unfold ReservationService.createReservation.
  assert (Hrun : forall k : unit -> M InventoryReservation.t,
    (ReservationService.createReservation_check data ≫= k) w =
    match ReservationService.createReservation_check data w with
    | (Returned a, w') => k a w'
    | (Thrown e, w') => (Thrown e, w')
    end) by (intros; apply bind_run).
  rewrite Hrun, check_run. fold key qty.
  destruct (storeInventory (db w) !! key) as [inv|] eqn:Hinv.
  - destruct (StoreInventory.isAvailable inv) eqn:Hav.
    + destruct (Z.ltb_spec (StoreInventory.quantityAvailable inv
                            - StoreInventory.reservedQuantity inv) qty) as [Hlt|Hge].
      * split; [split|split].
        -- intros (r & w' & H). discriminate.
        -- intros (inv' & Heq & _ & Hq). injection Heq as <-. lia.
        -- intros r w' H. discriminate.
        -- intros inv' Heq _ _. by injection Heq as <-.
      * destruct (insert_increment_run env data w inv Hinv)
          as (r & w' & Hrest & Hrow & _).
        fold key qty in Hrest, Hrow. rewrite Hrest.
        split; [split|split].
        -- intros _. exists inv. repeat split; [done | lia].
        -- intros _. eauto.
        -- intros r' w'' [= <- <-]. exists inv. split; [done|]. exact Hrow.
        -- intros inv' Heq _ Hlt. injection Heq as <-. lia.
    + split; [split|split].
      * intros (r & w' & H). discriminate.
      * intros (inv' & Heq & Hav' & _). injection Heq as <-. congruence.
      * intros r w' H. discriminate.
      * intros inv' Heq Hav' _. injection Heq as <-. congruence.
  - split; [split|split].
    + intros (r & w' & H). discriminate.
    + intros (inv' & Heq & _). discriminate.
    + intros r w' H. discriminate.
    + intros inv' Heq. discriminate.
Qed.

Lemma createReservation_reserves_iff_available_witness :
  1 <= CreateReservationData.quantity (Shop.reserve 3)
  /\ exists r w',
       ReservationService.createReservation (Shop.env "u" "ORD-1" true)
         (Shop.reserve 3) (Shop.world 5 0 1 []) = (Returned r, w').
Proof.
  assert (H : 1 <= CreateReservationData.quantity (Shop.reserve 3))
    by (vm_compute; discriminate).
  split; [exact H|].
  apply (proj1 (createReservation_reserves_iff_available
                  (Shop.env "u" "ORD-1" true) (Shop.reserve 3)
                  (Shop.world 5 0 1 []) H)).
  exists (StoreInventory.mk 5 0 true).
  split; [reflexivity|]. split; [reflexivity|]. vm_compute. discriminate.
Defined.

(** A call run alone keeps [reservedQuantity <= quantityAvailable] on the
    row it reserves: the guard and the increment see the same row. *)
Lemma createReservation_alone_keeps_invariant
  (env : Env) (data : CreateReservationData.t) (w : World) (inv : StoreInventory.t) :
  let key := (CreateReservationData.storeId data,
              CreateReservationData.productId data) in
  0 <= CreateReservationData.quantity data ->
  storeInventory (db w) !! key = Some inv ->
  StoreInventory.reservedQuantity inv <= StoreInventory.quantityAvailable inv ->
  exists inv',
    storeInventory (db (snd (ReservationService.createReservation env data w))) !! key
    = Some inv'
    /\ StoreInventory.reservedQuantity inv' <= StoreInventory.quantityAvailable inv'.
Proof.
  intros key Hq Hinv Hle.
  unfold ReservationService.createReservation.
  rewrite bind_run, check_run. fold key. rewrite Hinv.
  destruct (StoreInventory.isAvailable inv); [|by exists inv].
  destruct (Z.ltb_spec (StoreInventory.quantityAvailable inv
                        - StoreInventory.reservedQuantity inv)
              (CreateReservationData.quantity data)) as [Hlt|Hge]; [by exists inv|].
  destruct (insert_increment_run env data w inv Hinv) as (r & w' & Hrest & Hrow & _).
  rewrite Hrest. cbn. rewrite Hrow. fold key. rewrite lookup_insert_eq.
  eexists; split; [reflexivity|]. cbn. lia.
Qed.

(** A thread scheduled three times in a row is the call itself. *)
Lemma run_alone (env : Env) (data : CreateReservationData.t) (w : World) :
  Concurrent.run env [0%nat; 0%nat; 0%nat] [Concurrent.AtCheck data] w =
  let '(r, w') := ReservationService.createReservation env data w in
  ([Concurrent.Finished r], w').
Proof.
  unfold ReservationService.createReservation.
  cbn [Concurrent.run Concurrent.step_pool lookup list_lookup Concurrent.step].
  rewrite bind_run.
  destruct (ReservationService.createReservation_check data w) as [[[]|e] w1];
    [|reflexivity].
  cbn [insert list_insert lookup list_lookup Concurrent.step_pool Concurrent.step].
  rewrite bind_run.
  destruct (ReservationService.createReservation_insert env data w1) as [[r|e] w2];
    [|reflexivity].
  cbn [insert list_insert lookup list_lookup Concurrent.step_pool Concurrent.step].
  rewrite bind_run.
  destruct (ReservationService.createReservation_increment data w2) as [[[]|e] w3];
    reflexivity.
Qed.

(** The second and third step of a call, on their own. *)
Lemma insert_step_run (env : Env) (data : CreateReservationData.t) (w : World) :
  exists r w',
    ReservationService.createReservation_insert env data w = (Returned r, w')
    /\ InventoryReservation.quantity r = CreateReservationData.quantity data
    /\ storeInventory (db w') = storeInventory (db w).
Proof.
  do 2 eexists.
  unfold ReservationService.createReservation_insert,
    Prisma.inventoryReservation_create.
  run_monad. split; [reflexivity|]. by split.
Qed.

Lemma increment_step_run (data : CreateReservationData.t) (w : World)
  (inv : StoreInventory.t) :
  storeInventory (db w)
    !! (CreateReservationData.storeId data, CreateReservationData.productId data)
  = Some inv ->
  exists w',
    ReservationService.createReservation_increment data w = (Returned tt, w')
    /\ storeInventory (db w') =
       <[(CreateReservationData.storeId data, CreateReservationData.productId data) :=
           Prisma.add_reserved (CreateReservationData.quantity data) inv]>
         (storeInventory (db w)).
Proof.
  intros Hinv. eexists.
  unfold ReservationService.createReservation_increment,
    Prisma.storeInventory_increment_reserved.
  rewrite bind_run, query_run, Hinv. split; reflexivity.
Qed.

(** Two calls for the same row, each asking for no more than is free when
    both read the row before either writes it: both return a reservation
    and both quantities are added, whatever their sum. *)
Lemma interleaved_calls_both_reserve (env : Env) (data1 data2 : CreateReservationData.t)
  (w : World) (inv : StoreInventory.t) :
  let key := (CreateReservationData.storeId data1,
              CreateReservationData.productId data1) in
  let free := StoreInventory.quantityAvailable inv - StoreInventory.reservedQuantity inv in
  (CreateReservationData.storeId data2, CreateReservationData.productId data2) = key ->
  storeInventory (db w) !! key = Some inv ->
  StoreInventory.isAvailable inv = true ->
  CreateReservationData.quantity data1 <= free ->
  CreateReservationData.quantity data2 <= free ->
  exists r1 r2 w',
    Concurrent.run env [0; 1; 0; 0; 1; 1]%nat
      [Concurrent.AtCheck data1; Concurrent.AtCheck data2] w
    = ([Concurrent.Finished (Returned r1); Concurrent.Finished (Returned r2)], w')
    /\ InventoryReservation.quantity r1 = CreateReservationData.quantity data1
    /\ InventoryReservation.quantity r2 = CreateReservationData.quantity data2
    /\ storeInventory (db w') !! key
       = Some (StoreInventory.mk (StoreInventory.quantityAvailable inv)
                 (StoreInventory.reservedQuantity inv
                  + CreateReservationData.quantity data1
                  + CreateReservationData.quantity data2)
                 (StoreInventory.isAvailable inv)).
Proof.
  intros key free Hkey Hinv Hav Hq1 Hq2. subst key free.
  cbn [Concurrent.run Concurrent.step_pool lookup list_lookup Concurrent.step].
  rewrite (check_run data1). cbv zeta. rewrite Hinv, Hav.
  rewrite (proj2 (Z.ltb_ge _ _)) by lia.
  cbn [insert list_insert lookup list_lookup Concurrent.step_pool Concurrent.step].
  rewrite (check_run data2). cbv zeta. rewrite Hkey, Hinv, Hav.
  rewrite (proj2 (Z.ltb_ge _ _)) by lia.
  cbn [insert list_insert lookup list_lookup Concurrent.step_pool Concurrent.step].
  destruct (insert_step_run env data1 w) as (r1 & w1 & -> & Hr1 & Hw1).
  cbn [insert list_insert lookup list_lookup Concurrent.step_pool Concurrent.step].
  rewrite <- Hw1 in Hinv.
  destruct (increment_step_run data1 w1 inv Hinv) as (w2 & -> & Hw2).
  cbn [insert list_insert lookup list_lookup Concurrent.step_pool Concurrent.step].
  destruct (insert_step_run env data2 w2) as (r2 & w3 & -> & Hr2 & Hw3).
  cbn [insert list_insert lookup list_lookup Concurrent.step_pool Concurrent.step].
  assert (Hinv3 : storeInventory (db w3)
                    !! (CreateReservationData.storeId data2,
                        CreateReservationData.productId data2)
                  = Some (Prisma.add_reserved (CreateReservationData.quantity data1) inv)).
  { by rewrite Hw3, Hw2, Hkey, lookup_insert_eq. }
  destruct (increment_step_run data2 w3 _ Hinv3) as (w4 & -> & Hw4).
  cbn [insert list_insert lookup list_lookup Concurrent.step_pool Concurrent.step].
  exists r1, r2, w4. split; [reflexivity|]. split; [done|]. split; [done|].
  rewrite Hw4, Hkey, lookup_insert_eq. unfold Prisma.add_reserved. cbn.
  by rewrite Hav.
Qed.

(** C1.  Two calls for 3 items each against a row with 5 available and none
    reserved, interleaved so that both read the row before either writes
    it: both return a reservation, 6 items are reserved out of 5. *)
Theorem createReservation_interleaved_oversells :
  let env := Shop.env "u" "ORD-1" true in
  let pool := [Concurrent.AtCheck (Shop.reserve 3); Concurrent.AtCheck (Shop.reserve 3)] in
  let schedule := [0; 1; 0; 0; 1; 1]%nat in
  let '(pool', w') := Concurrent.run env schedule pool (Shop.world 5 0 1 []) in
  Concurrent.total_succeeded pool' = 6
  /\ Shop.row w' = Some (StoreInventory.mk 5 6 true)
  /\ List.map InventoryReservation.status (inventoryReservation (db w'))
     = [ReservationStatus.reserved; ReservationStatus.reserved].
Proof. vm_compute. repeat split. Qed.

(** ** The reservation state machine *)

Lemma findUnique_run (reservationId : Id) (w : World) :
  Prisma.inventoryReservation_findUnique reservationId w =
  (Returned (List.find (fun r => bool_decide (InventoryReservation.id r = reservationId))
               (inventoryReservation (db w))), w).
Proof. reflexivity. Qed.

(** [cancelReservation] looks at the status first: a reservation that is no
    longer ['reserved'] is refused and nothing is written. *)
Lemma cancelReservation_terminal_rejected
  (reservationId : Id) (w : World) (r : InventoryReservation.t) :
  List.find (fun r => bool_decide (InventoryReservation.id r = reservationId))
    (inventoryReservation (db w)) = Some r ->
  InventoryReservation.status r <> ReservationStatus.reserved ->
  ReservationService.cancelReservation reservationId w
  = (Thrown ReservationCannotBeCancelled, w).
Proof.
  intros Hfind Hst. unfold ReservationService.cancelReservation.
  rewrite bind_run, findUnique_run, Hfind.
  by rewrite bool_decide_eq_true_2.
Qed.

(** C4.  [updateReservation] does not look at the current status.  A hold
    of 2 that is already ['released'] is released again: the second call
    returns normally and the row's [reservedQuantity] goes from 0 to -2;
    and when another hold of 2 is still active (4 reserved of 5), releasing
    the first hold twice leaves 0 reserved, so the 2 items still held are
    offered to other reservers. *)
Theorem updateReservation_releases_twice :
  let release := UpdateReservationData.mk ReservationStatus.released None in
  let twice w :=
    snd (ReservationService.updateReservation 1%nat release
           (snd (ReservationService.updateReservation 1%nat release w))) in
  let w1 := Shop.world 5 2 1 [Shop.hold 1%nat 2 ReservationStatus.reserved] in
  let w2 := Shop.world 5 4 1 [Shop.hold 1%nat 2 ReservationStatus.reserved;
                              Shop.hold 2%nat 2 ReservationStatus.reserved] in
  (exists r w',
     ReservationService.updateReservation 1%nat release
       (snd (ReservationService.updateReservation 1%nat release w1))
     = (Returned r, w'))
  /\ Shop.row (twice w1) = Some (StoreInventory.mk 5 (-2) true)
  /\ Shop.row (twice w2) = Some (StoreInventory.mk 5 0 true)
  /\ List.map InventoryReservation.status (inventoryReservation (db (twice w2)))
     = [ReservationStatus.released; ReservationStatus.reserved].
Proof. vm_compute. split; [eauto | repeat split]. Qed.

(** Where [updateReservation] finds the reservation and its inventory row,
    it returns, and the row's [reservedQuantity] changes by the amount the
    target status asks for. *)
Lemma updateReservation_run (reservationId : Id) (data : UpdateReservationData.t)
  (w : World) (r : InventoryReservation.t) (inv : StoreInventory.t) :
  List.find (fun r => bool_decide (InventoryReservation.id r = reservationId))
    (inventoryReservation (db w)) = Some r ->
  storeInventory (db w)
    !! (InventoryReservation.storeId r, InventoryReservation.productId r) = Some inv ->
  let status := UpdateReservationData.status data in
  let releases :=
    bool_decide (status = ReservationStatus.used)
    || bool_decide (status = ReservationStatus.released)
    || bool_decide (status = ReservationStatus.expired) in
  exists u w',
    ReservationService.updateReservation reservationId data w = (Returned u, w')
    /\ InventoryReservation.status u = status
    /\ storeInventory (db w') =
       if releases
       then <[(InventoryReservation.storeId r, InventoryReservation.productId r) :=
                Prisma.add_reserved (- InventoryReservation.quantity r) inv]>
              (storeInventory (db w))
       else storeInventory (db w).
Proof.
  intros Hfind Hinv status releases.
  unfold ReservationService.updateReservation, Prisma.inventoryReservation_update.
  rewrite bind_run, findUnique_run, Hfind.
  rewrite bind_run, bind_run, findUnique_run, Hfind.
  fold status. fold releases.
  destruct releases.
  - unfold ReservationService.releaseReservedQuantity,
      Prisma.storeInventory_increment_reserved, Prisma.inventoryReservation_updateMany.
    run_monad. rewrite Hinv. cbn. do 2 eexists. split; [reflexivity|]. by split.
  - unfold Prisma.inventoryReservation_updateMany. run_monad.
    do 2 eexists. split; [reflexivity|]. by split.
Qed.

(** C6 (as the code has it).  A transition to ['used'] made through
    [updateReservation] takes the reservation's quantity off the row's
    [reservedQuantity], exactly as a transition to ['released'] or
    ['expired'] does. *)
Theorem updateReservation_used_decrements
  (reservationId : Id) (data : UpdateReservationData.t) (w : World)
  (r : InventoryReservation.t) (inv : StoreInventory.t) :
  List.find (fun r => bool_decide (InventoryReservation.id r = reservationId))
    (inventoryReservation (db w)) = Some r ->
  storeInventory (db w)
    !! (InventoryReservation.storeId r, InventoryReservation.productId r) = Some inv ->
  UpdateReservationData.status data = ReservationStatus.used
  \/ UpdateReservationData.status data = ReservationStatus.released
  \/ UpdateReservationData.status data = ReservationStatus.expired ->
  exists u w',
    ReservationService.updateReservation reservationId data w = (Returned u, w')
    /\ InventoryReservation.status u = UpdateReservationData.status data
    /\ storeInventory (db w')
         !! (InventoryReservation.storeId r, InventoryReservation.productId r)
       = Some (StoreInventory.mk (StoreInventory.quantityAvailable inv)
                 (StoreInventory.reservedQuantity inv - InventoryReservation.quantity r)
                 (StoreInventory.isAvailable inv)).
Proof.
  intros Hfind Hinv Hst.
  destruct (updateReservation_run reservationId data w r inv Hfind Hinv)
    as (u & w' & Hrun & Hu & Hrow).
  exists u, w'. split; [exact Hrun|]. split; [exact Hu|].
  rewrite Hrow.
  replace (bool_decide (UpdateReservationData.status data = ReservationStatus.used)
           || bool_decide (UpdateReservationData.status data = ReservationStatus.released)
           || bool_decide (UpdateReservationData.status data = ReservationStatus.expired))
    with true by (destruct Hst as [-> | [-> | ->]]; reflexivity).
  by rewrite lookup_insert_eq.
Qed.

Lemma updateReservation_used_decrements_witness :
  exists u w',
    ReservationService.updateReservation 1%nat
      (UpdateReservationData.mk ReservationStatus.used None)
      (Shop.world 5 2 1 [Shop.hold 1%nat 2 ReservationStatus.reserved])
    = (Returned u, w')
    /\ InventoryReservation.status u = ReservationStatus.used
    /\ Shop.row w' = Some (StoreInventory.mk 5 0 true).
Proof.
  apply (updateReservation_used_decrements 1%nat
           (UpdateReservationData.mk ReservationStatus.used None)
           (Shop.world 5 2 1 [Shop.hold 1%nat 2 ReservationStatus.reserved])
           (Shop.hold 1%nat 2 ReservationStatus.reserved)
           (StoreInventory.mk 5 2 true)).
  - reflexivity.
  - reflexivity.
  - left. reflexivity.
Defined.

(** A hold of 2 on a row with 2 reserved, moved to ['used']: 0 reserved. *)
Lemma used_keeps_hold_fails : ~ used_keeps_hold.
Proof.
  intros H.
  destruct (H 1%nat None
              (Shop.world 5 2 1 [Shop.hold 1%nat 2 ReservationStatus.reserved])
              (snd (ReservationService.updateReservation 1%nat
                      (UpdateReservationData.mk ReservationStatus.used None)
                      (Shop.world 5 2 1 [Shop.hold 1%nat 2 ReservationStatus.reserved])))
              (Shop.hold 1%nat 2 ReservationStatus.reserved)
              (Shop.hold 1%nat 2 ReservationStatus.used)
              (StoreInventory.mk 5 2 true))
    as (inv' & Hrow & Hq); try reflexivity.
  vm_compute in Hrow. injection Hrow as <-. discriminate Hq.
Qed.

(** ** The idempotency store *)

Lemma idempotencyKey_findUnique_run (key userId : string) (w : World) :
  OrderService.idempotencyKey_findUnique key userId w =
  (Returned (List.find (fun k => bool_decide (IdempotencyKey.key k = key)
                                 && bool_decide (IdempotencyKey.userId k = userId))
               (idempotencyKey (db w))), w).
Proof. reflexivity. Qed.

(** C7 (as the code has it).  Where the key already has a record for the
    user that is ['completed'] or ['in_progress'], the outcome of
    [createOrder] is the same for every request body sent under that key:
    the stored response is replayed, or the call is refused as already being
    processed.  The stored [requestHash] is never read. *)
Theorem createOrder_ignores_fingerprint
  (env : Env) (userId : string) (data data' : CreateOrderData.t) (w : World)
  (existing : IdempotencyKey.t) :
  OrderService.key_of env data' = OrderService.key_of env data ->
  List.find (fun k => bool_decide (IdempotencyKey.key k = OrderService.key_of env data)
                      && bool_decide (IdempotencyKey.userId k = userId))
    (idempotencyKey (db w)) = Some existing ->
  IdempotencyKey.status existing <> IdempotencyStatus.failed ->
  OrderService.createOrder env userId data' w = OrderService.createOrder env userId data w
  /\ (IdempotencyKey.status existing = IdempotencyStatus.completed ->
      OrderService.createOrder env userId data w
      = (Returned (IdempotencyKey.response existing), w))
  /\ (IdempotencyKey.status existing = IdempotencyStatus.in_progress ->
      OrderService.createOrder env userId data w
      = (Thrown OrderAlreadyBeingProcessed, w)).
Proof.
  intros Hkey Hfind Hst.
  unfold OrderService.createOrder. rewrite Hkey.
  rewrite !bind_run, idempotencyKey_findUnique_run, Hfind.
  destruct (IdempotencyKey.status existing); [by repeat split..|done].
Qed.

Lemma createOrder_ignores_fingerprint_witness :
  OrderService.createOrder (Shop.env "uuid-2" "ORD-2" true) Shop.userId
    (Shop.checkout "paypal" (Some "k1")) after_first_checkout
  = OrderService.createOrder (Shop.env "uuid-2" "ORD-2" true) Shop.userId
      (Shop.checkout "credit_card" (Some "k1")) after_first_checkout.
Proof.
  refine (proj1 (createOrder_ignores_fingerprint
                   (Shop.env "uuid-2" "ORD-2" true) Shop.userId
                   (Shop.checkout "credit_card" (Some "k1"))
                   (Shop.checkout "paypal" (Some "k1"))
                   after_first_checkout first_record _ _ _)).
  - reflexivity.
  - vm_compute. reflexivity.
  - vm_compute. discriminate.
Defined.

(** A paid checkout under "k1" by credit card, then a different request
    (paying by PayPal) under the same key: the second call is not refused,
    it returns the first request's stored response. *)
Lemma fingerprint_mismatch_rejected_fails : ~ fingerprint_mismatch_rejected.
Proof.
  intros H.
  destruct (H (Shop.env "uuid-2" "ORD-2" true) Shop.userId
              (Shop.checkout "paypal" (Some "k1")) after_first_checkout first_record)
    as (e & w' & Hrun).
  - vm_compute. reflexivity.
  - vm_compute. discriminate.
  - vm_compute in Hrun. discriminate Hrun.
Qed.

(** ** Cart validation *)

(** A loop whose body only reads the database reads the same database in
    every turn and leaves the world as it was. *)
Lemma for_each_reads {A B} (xs : list A) (body : A -> M B) (f : A -> Database -> B)
  (w : World) :
  (forall x w0, body x w0 = (Returned (f x (db w0)), w0)) ->
  for_each xs body w = (Returned (List.map (fun x => f x (db w)) xs), w).
Proof.
  intros Hbody. induction xs as [|x xs IH]; [reflexivity|].
  cbn [for_each]. rewrite bind_run, Hbody, bind_run, IH. reflexivity.
Qed.

Lemma check_line_run (storeId : string) (item : CartItem.t) (w : World) :
  CartService.check_line storeId item w
  = (Returned (line_problems storeId item (db w)), w).
Proof. reflexivity. Qed.

(** [getCartWithItems] only reads. *)
Lemma getCartWithItems_reads (env : Env) (userId storeId : string) (w : World) :
  exists c, CartService.getCartWithItems env userId storeId w = (Returned c, w).
Proof.
  unfold CartService.getCartWithItems, CartService.shoppingCart_findFirst,
    CartService.cartItem_of_cart.
  run_monad. destruct (List.find _ _); eauto.
Qed.

(** [validateCartForCheckout] always returns a verdict and only reads. *)
Lemma validateCartForCheckout_reads (env : Env) (userId storeId : string) (w : World) :
  exists v, CartService.validateCartForCheckout env userId storeId w = (Returned v, w).
Proof.
  destruct (getCartWithItems_reads env userId storeId w) as [c Hc].
  unfold CartService.validateCartForCheckout. rewrite bind_run, Hc.
  destruct c as [cart|]; [|by eexists].
  destruct (CartWithItems.items cart) as [|l ls] eqn:Hitems; [by eexists|].
  rewrite bind_run.
  rewrite (for_each_reads _ _
             (fun line d => line_problems storeId (CartLine.item line) d))
    by (intros; apply check_line_run).
  by eexists.
Qed.

(** The blocking condition of the loop of [validateCartForCheckout]. *)
Lemma line_problems_nil (storeId : string) (item : CartItem.t) (d : Database) :
  line_problems storeId item d <> [] <->
  match storeInventory d !! (storeId, CartItem.productId item) with
  | None => True
  | Some inv =>
      StoreInventory.isAvailable inv = false
      \/ StoreInventory.quantityAvailable inv < CartItem.quantity item
  end.
Proof.
  unfold line_problems.
  destruct (storeInventory d !! _) as [inv|]; [|done].
  destruct (StoreInventory.isAvailable inv); cbn.
  - destruct (Z.ltb_spec (StoreInventory.quantityAvailable inv) (CartItem.quantity item)).
    + split; [intros _; by right | done].
    + split; [done | intros [? | ?]; [done | lia]].
  - split; [intros _; by left | done].
Qed.

Lemma concat_nil_iff {A} (ls : list (list A)) :
  List.concat ls = [] <-> forall l, In l ls -> l = [].
Proof.
  induction ls as [|l ls IH]; cbn.
  - split; [intros _ l [] | done].
  - split.
    + intros H. apply app_eq_nil in H as [-> Hls].
      intros l' [<- | Hin]; [done | by apply IH].
    + intros H. rewrite (H l) by by left. cbn. apply IH. intros l' Hin.
      apply H. by right.
Qed.

(** C8 (as the code has it).  [validateCartForCheckout] always returns and
    writes nothing.  Its verdict is invalid exactly when there is no cart,
    the cart has no line, or some line's product has no inventory row at
    the store, is flagged unavailable, or has [quantityAvailable] below the
    line's quantity; [reservedQuantity] is not read.  An invalid verdict
    comes with at least one reason. *)
Theorem validateCartForCheckout_checks_raw_stock
  (env : Env) (userId storeId : string) (w : World) :
  exists c v,
    CartService.getCartWithItems env userId storeId w = (Returned c, w)
    /\ CartService.validateCartForCheckout env userId storeId w = (Returned v, w)
    /\ (CartService.Validation.valid v = false <->
        match c with
        | None => True
        | Some cart =>
            CartWithItems.items cart = []
            \/ exists line, In line (CartWithItems.items cart)
                 /\ match storeInventory (db w)
                            !! (storeId, CartItem.productId (CartLine.item line)) with
                    | None => True
                    | Some inv =>
                        StoreInventory.isAvailable inv = false
                        \/ StoreInventory.quantityAvailable inv
                           < CartItem.quantity (CartLine.item line)
                    end
        end)
    /\ (CartService.Validation.valid v = false ->
        CartService.Validation.errors v <> []).
Proof.
  destruct (getCartWithItems_reads env userId storeId w) as [c Hc].
  exists c. unfold CartService.validateCartForCheckout.
  rewrite bind_run, Hc.
  destruct c as [cart|]; [|eexists; repeat split; done].
  destruct (CartWithItems.items cart) as [|l ls] eqn:Hitems.
  { eexists. split; [done|]. split; [reflexivity|]. split; [|done].
    split; [by left | done]. }
  rewrite <- Hitems. set (items := CartWithItems.items cart) in *.
  rewrite bind_run.
  rewrite (for_each_reads items _
             (fun line d => line_problems storeId (CartLine.item line) d))
    by (intros; apply check_line_run).
  set (errs := List.map _ items).
  eexists. split; [done|]. split; [reflexivity|]. cbn.
  assert (Hnil : List.concat errs = [] <->
                 forall line, In line items ->
                   line_problems storeId (CartLine.item line) (db w) = []).
  { rewrite concat_nil_iff. subst errs. split.
    - intros H line Hin. apply H, in_map_iff. eauto.
    - intros H l0 Hin. apply in_map_iff in Hin as (line & <- & Hin). by apply H. }
  assert (Hvalid : Nat.eqb (length (List.concat errs)) 0 = false <->
                   List.concat errs <> []).
  { destruct (List.concat errs); cbn; split; done. }
  split; [|by rewrite Hvalid].
  rewrite Hvalid, Hnil. split.
  - intros Hne. right.
    assert (Hdec : forall line,
              {line_problems storeId (CartLine.item line) (db w) <> nil}
              + {~ line_problems storeId (CartLine.item line) (db w) <> nil}).
    { intros line. destruct (line_problems storeId (CartLine.item line) (db w));
        [right; intros H; by apply H | left; done]. }
    destruct (List.Exists_dec _ items Hdec) as [Hex | Hnex].
    + apply List.Exists_exists in Hex as (line & Hin & Hline).
      exists line. split; [exact Hin|]. by apply line_problems_nil.
    + exfalso. apply Hne. intros line Hin.
      destruct (line_problems storeId (CartLine.item line) (db w)) eqn:E; [done|].
      exfalso. apply Hnex, List.Exists_exists. exists line. split; [exact Hin|]. by rewrite E.
  - intros [Hempty | (line & Hin & Hline)] Hall.
    + congruence.
    + apply line_problems_nil in Hline. by apply Hline, Hall.
Qed.

(** 5 in stock, 4 of them held by another user, 3 in the cart: 1 can be
    sold, and the cart is valid. *)
Lemma validation_checks_availableToSell_fails : ~ validation_checks_availableToSell.
Proof.
  intros H.
  pose (line := CartLine.mk (CartItem.mk 2%nat 1%nat Shop.productId 3 1000) None).
  assert (Hv : CartService.Validation.valid (CartService.Validation.mk true []) = false);
    [|discriminate Hv].
  apply (H (Shop.env "uuid-1" "ORD-1" true) Shop.userId Shop.storeId
           (Shop.world 5 4 3 [Shop.hold_of "user-2" 1%nat 4 ReservationStatus.reserved])
           (Shop.world 5 4 3 [Shop.hold_of "user-2" 1%nat 4 ReservationStatus.reserved])
           (CartWithItems.mk (ShoppingCart.mk 1%nat Shop.userId Shop.storeId true)
              [line] (CartService.calculateCartTotals [line]))
           line (StoreInventory.mk 5 4 true)).
  - reflexivity.
  - by left.
  - reflexivity.
  - vm_compute. reflexivity.
  - reflexivity.
Qed.

(** ** Money *)

(** The delivery fee [2.99] as a JS number is 6732881442918892 * 2^-51,
    a little above 299/100. *)
Lemma number_2_99 : Number.ofCents 299 = S754_finite false 6732881442918892 (-51).
Proof. vm_compute. reflexivity. Qed.


(** A binary fraction is a decimal with two fractional digits only when it
    is a multiple of 1/4: of the hundred cent values of a unit, a JS number
    holds four exactly. *)
Lemma exact_decimal2_quarters (s : bool) (m : positive) (e : Z) :
  e < 0 ->
  Number.exact_decimal2 (S754_finite s m e) = true
  <-> (2 ^ (- e) | 4 * Z.pos m).
Proof.
  intros He. unfold Number.exact_decimal2.
  rewrite (proj2 (Z.leb_gt 0 e)) by lia.
  rewrite Z.eqb_eq, Z.mod_divide by (apply Z.pow_nonzero; lia).
  split.
  - intros H. replace (100 * Z.pos m) with (25 * (4 * Z.pos m)) in H by lia.
    apply (Z.gauss _ 25); [exact H|].
    apply Z.coprime_pow_l; [lia | reflexivity].
  - intros [q Hq]. exists (25 * q). lia.
Qed.





(** ** Checkout *)

(** *** What a successful checkout leaves behind *)

Lemma same_books_refl (w : World) : same_books w w.
Proof. by repeat split. Qed.

Lemma same_books_trans (w1 w2 w3 : World) :
  same_books w1 w2 -> same_books w2 w3 -> same_books w1 w3.
Proof.
  intros (Ho1 & Hk1 & Hc1 & Hn1) (Ho2 & Hk2 & Hc2 & Hn2).
  repeat split; [congruence.. | lia].
Qed.

Lemma for_each_same_books {A B} (xs : list A) (body : A -> M B) :
  (forall x w b w', body x w = (Returned b, w') -> same_books w w') ->
  forall w bs w', for_each xs body w = (Returned bs, w') -> same_books w w'.
Proof.
  intros Hbody. induction xs as [|x xs IH]; intros w bs w' Hrun.
  - injection Hrun as <- <-. apply same_books_refl.
  - cbn [for_each] in Hrun.
    apply bind_returned in Hrun as (b & w1 & Hb & Hrun).
    apply bind_returned in Hrun as (bs' & w2 & Hbs & Hrun).
    injection Hrun as <- <-.
    eapply same_books_trans; [by eapply Hbody | by eapply IH].
Qed.

Lemma reserve_line_same_books (env : Env) (userId storeId : string)
  (line : CartLine.t) (w : World) (r : InventoryReservation.t) (w' : World) :
  OrderService.reserve_line env userId storeId line w = (Returned r, w') ->
  same_books w w'.
Proof.
  unfold OrderService.reserve_line, Prisma.inventoryReservation_create,
    Prisma.storeInventory_increment_reserved.
  run_monad. destruct (_ !! _); [|discriminate].
  intros [= <- <-]. repeat split. cbn. lia.
Qed.

Lemma orderItem_create_same_books (orderId : Id) (line : CartLine.t)
  (w : World) (oi : OrderItem.t) (w' : World) :
  OrderService.orderItem_create orderId line w = (Returned oi, w') ->
  same_books w w'.
Proof.
  unfold OrderService.orderItem_create. run_monad.
  intros [= <- <-]. repeat split. cbn. lia.
Qed.

Lemma generateOrderNumber_from_reads (candidates : list string) (w : World) :
  snd (OrderService.generateOrderNumber_from candidates w) = w.
Proof.
  induction candidates as [|c cs IH]; [reflexivity|].
  cbn [OrderService.generateOrderNumber_from].
  unfold OrderService.order_findUnique_orderNumber. rewrite bind_run, query_run.
  destruct (List.find _ _); [exact IH | reflexivity].
Qed.

Lemma order_create_run (orderNumber userId storeId : string) (totals : Totals.t)
  (data : CreateOrderData.t) (w : World) (o : Order.t) (w' : World) :
  OrderService.order_create orderNumber userId storeId totals data w = (Returned o, w') ->
  Order.id o = nextId w
  /\ Order.status o = OrderStatus.pending
  /\ Order.paymentStatus o = PaymentStatus.pending
  /\ order (db w') = order (db w) ++ [o]
  /\ idempotencyKey (db w') = idempotencyKey (db w)
  /\ charges w' = charges w
  /\ nextId w' = S (nextId w).
Proof.
  unfold OrderService.order_create, OrderService.order_findUnique_orderNumber.
  run_monad. destruct (List.find _ _); [discriminate|].
  intros [= <- <-]. by repeat split.
Qed.

(** An update by primary key passes over rows whose keys are older. *)
Lemma map_older_rows {A} (key_of : A -> Id) (i : Id) (f : A -> A) (rows : list A) :
  Forall (fun x => (key_of x < i)%nat) rows ->
  List.map (fun x => if bool_decide (key_of x = i) then f x else x) rows = rows.
Proof.
  induction 1 as [|x xs Hx _ IH]; [reflexivity|].
  cbn. rewrite IH. rewrite bool_decide_eq_false_2 by lia. reflexivity.
Qed.

Lemma find_older_rows {A} (key_of : A -> Id) (i : Id) (rows : list A) (x : A) :
  Forall (fun x => (key_of x < i)%nat) rows ->
  key_of x = i ->
  List.find (fun y => bool_decide (key_of y = i)) (rows ++ [x]) = Some x.
Proof.
  intros Hrows Hx. induction Hrows as [|y ys Hy _ IH]; cbn.
  - by rewrite bool_decide_eq_true_2.
  - by rewrite bool_decide_eq_false_2 by lia.
Qed.

(** The transaction of a checkout that returns: one new order, inserted
    ['pending'] and then marked paid, and one charge. *)
Lemma createOrder_tx_run (env : Env) (userId : string) (data : CreateOrderData.t)
  (cart : CartWithItems.t) (w : World) (o : Order.t) (its : list OrderItem.t)
  (w' : World) :
  Forall (fun o => (Order.id o < nextId w)%nat) (order (db w)) ->
  OrderService.createOrder_tx env userId data cart w = (Returned (o, its), w') ->
  (nextId w <= Order.id o < nextId w')%nat
  /\ Order.status o = OrderStatus.pending
  /\ Order.paymentStatus o = PaymentStatus.pending
  /\ order (db w') =
     order (db w) ++ [OrderService.set_payment PaymentStatus.paid OrderStatus.confirmed o]
  /\ idempotencyKey (db w') = idempotencyKey (db w)
  /\ exists req, charges w' = charges w ++ [req]
                 /\ PaymentRequest.orderId req = Order.id o.
Proof.
  intros Hold Hrun. unfold OrderService.createOrder_tx in Hrun.
  apply bind_returned in Hrun as (rs & wa & Ha & Hrun).
  apply for_each_same_books in Ha as (Hoa & Hka & Hca & Hna);
    [|intros; by eapply reserve_line_same_books].
  apply bind_returned in Hrun as (n & wb & Hb & Hrun).
  assert (wb = wa) as ->.
  { pose proof (generateOrderNumber_from_reads (orderNumberCandidates env) wa) as Hr.
    unfold OrderService.generateOrderNumber in Hb. by rewrite Hb in Hr. }
  apply bind_returned in Hrun as (o0 & wc & Hc & Hrun).
  apply order_create_run in Hc as (Hid & Hst & Hpst & Hoc & Hkc & Hcc & Hnc).
  apply bind_returned in Hrun as (ois & wd & Hd & Hrun).
  apply for_each_same_books in Hd as (Hod & Hkd & Hcd & Hnd);
    [|intros; by eapply orderItem_create_same_books].
  apply bind_returned in Hrun as (pr & we & He & Hrun).
  unfold PaymentService.processPayment in He. injection He as <- <-.
  destruct (PaymentResult.success _); [|discriminate].
  cbn [negb] in Hrun.
  apply bind_returned in Hrun as ([] & wf & Hf & Hrun).
  apply bind_returned in Hrun as ([] & wg & Hg & Hrun).
  apply bind_returned in Hrun as ([] & wh & Hh & Hrun).
  injection Hrun as <- <- <-.
  unfold OrderService.cartItem_deleteMany, write in Hh. injection Hh as <-.
  unfold Prisma.inventoryReservation_updateMany, write in Hg. injection Hg as <-.
  unfold OrderService.order_update_payment in Hf.
  apply bind_returned in Hf as (found & wf0 & Hq & Hf).
  rewrite query_run in Hq. injection Hq as <- <-.
  destruct (existsb _ _); [|discriminate].
  unfold write in Hf. injection Hf as <-. cbn.
  rewrite Hod, Hoc, Hoa, Hkd, Hkc, Hka, Hcd, Hcc, Hca.
  split; [lia|]. split; [done|]. split; [done|].
  split; [|split; [done | eexists; split; [reflexivity | done]]].
  rewrite map_app. cbn. unfold OrderService.order_has_id.
  rewrite (map_older_rows Order.id).
  - by rewrite bool_decide_eq_true_2.
  - eapply Forall_impl; [exact Hold|]. cbn. intros; lia.
Qed.

Lemma createOrder_failed_throws (userId storeId : string)
  (idempotencyRecord : IdempotencyKey.t) (error : Error) (w : World)
  (p : Payload) (w' : World) :
  OrderService.createOrder_failed userId storeId idempotencyRecord error w
  <> (Returned p, w').
Proof.
  unfold OrderService.createOrder_failed. intros Hrun.
  apply bind_returned in Hrun as (? & ? & _ & Hrun).
  apply bind_returned in Hrun as (? & ? & _ & Hrun).
  discriminate Hrun.
Qed.

(** A checkout that claims its key and returns: the payload is the object
    of [getOrderById] for one new order, marked paid; the new idempotency
    record is ['completed'] and stores the transaction result, in which the
    order is as it was inserted; one charge was made. *)
Lemma createOrder_claimed_run (env : Env) (userId key : string)
  (data : CreateOrderData.t) (w : World) (p : Payload) (w' : World) :
  ids_drawn w ->
  OrderService.createOrder_claimed env userId key data w = (Returned p, w') ->
  exists o its ow,
    p = OrderPayload ow
    /\ OrderWithItems.order ow
       = OrderService.set_payment PaymentStatus.paid OrderStatus.confirmed o
    /\ (nextId w < Order.id o < nextId w')%nat
    /\ Order.status o = OrderStatus.pending
    /\ Order.paymentStatus o = PaymentStatus.pending
    /\ order (db w') =
       order (db w)
       ++ [OrderService.set_payment PaymentStatus.paid OrderStatus.confirmed o]
    /\ idempotencyKey (db w') =
       idempotencyKey (db w)
       ++ [IdempotencyKey.mk (nextId w) key userId IdempotencyStatus.completed
             (sha256_of_json env data) (TxResultPayload o its)]
    /\ exists req, charges w' = charges w ++ [req].
Proof.
  intros [Hold Hkeys] Hrun. unfold OrderService.createOrder_claimed in Hrun.
  apply bind_returned in Hrun as (record & w1 & Hcreate & Htry).
  (* the record is inserted *)
  unfold OrderService.idempotencyKey_create in Hcreate.
  rewrite bind_run, idempotencyKey_findUnique_run in Hcreate.
  destruct (List.find _ _); [discriminate|].
  revert Hcreate. run_monad. intros [= <- <-].
  (* the handler cannot return, so the attempt did *)
  unfold try_catch in Htry.
  destruct (OrderService.createOrder_attempt _ _ _ _ _) as [[a|e] w2] eqn:Hatt;
    [injection Htry as <- <- | by apply createOrder_failed_throws in Htry].
  unfold OrderService.createOrder_attempt in Hatt.
  match type of Hatt with _ ?w0 = _ => set (w1 := w0) in * end.
  destruct (validateCartForCheckout_reads env userId
              (CreateOrderData.storeId data) w1) as (v & Hv).
  destruct (getCartWithItems_reads env userId
              (CreateOrderData.storeId data) w1) as (c & Hc).
  rewrite bind_run, Hv in Hatt.
  destruct (CartService.Validation.valid v); [|discriminate]. cbn [negb] in Hatt.
  rewrite bind_run, Hc in Hatt.
  destruct c as [cart|]; [|discriminate].
  destruct (CartWithItems.items cart) eqn:Hitems; [discriminate|].
  apply bind_returned in Hatt as ([o its] & w3 & Htx & Hrest).
  unfold transaction in Htx.
  destruct (OrderService.createOrder_tx _ _ _ _ _) as [[res|e] wt] eqn:Etx;
    [injection Htx as -> -> | discriminate].
  apply createOrder_tx_run in Etx
    as (Hid & Hst & Hpst & Horders & Hrecords & req & Hcharges & _).
  2:{ eapply Forall_impl; [exact Hold|]. cbn. intros; lia. }
  cbn [fst snd] in Hrest.
  apply bind_returned in Hrest as ([] & w4 & Hupd & Hrest).
  apply bind_returned in Hrest as (found & w5 & Hget & Hret).
  unfold OrderService.getOrderById in Hget. rewrite query_run in Hget.
  injection Hget as <- <-. injection Hret as <- <-.
  unfold OrderService.idempotencyKey_update in Hupd.
  apply bind_returned in Hupd as (found & w6 & Hq & Hupd).
  rewrite query_run in Hq. injection Hq as <- <-.
  destruct (existsb _ _); [|discriminate].
  unfold write in Hupd. injection Hupd as <-.
  cbn in Horders, Hrecords, Hcharges, Hid |- *.
  rewrite Horders, Hrecords. unfold OrderService.order_has_id.
  rewrite (find_older_rows Order.id (Order.id o) (order (db w))
             (OrderService.set_payment PaymentStatus.paid OrderStatus.confirmed o)).
  2:{ eapply Forall_impl; [exact Hold|]. cbn. intros; lia. }
  2:{ reflexivity. }
  do 3 eexists. split; [reflexivity|]. split; [reflexivity|].
  split; [lia|]. split; [done|]. split; [done|]. split; [done|].
  split; [|eauto].
  rewrite map_app. cbn. unfold OrderService.idempotencyKey_has_id.
  rewrite (map_older_rows IdempotencyKey.id) by done.
  by rewrite bool_decide_eq_true_2.
Qed.



(** With a key no record carries yet, [createOrder] goes straight to the
    claim: neither the replay nor the conflict branch is taken. *)
Lemma createOrder_new_key (env : Env) (userId : string) (data : CreateOrderData.t)
  (w : World) :
  List.find (fun k => bool_decide (IdempotencyKey.key k = OrderService.key_of env data)
                      && bool_decide (IdempotencyKey.userId k = userId))
    (idempotencyKey (db w)) = None ->
  OrderService.createOrder env userId data w
  = OrderService.createOrder_claimed env userId (OrderService.key_of env data) data w.
Proof.
  intros Hfind. unfold OrderService.createOrder.
  by rewrite bind_run, idempotencyKey_findUnique_run, Hfind.
Qed.


(** *** The same request again *)

Lemma find_newest_row {A} (f : A -> bool) (rows : list A) (x : A) :
  List.find f rows = None -> f x = true -> List.find f (rows ++ [x]) = Some x.
Proof.
  intros Hnone Hx. induction rows as [|y ys IH]; cbn in *; [by rewrite Hx|].
  destruct (f y); [discriminate | by apply IH].
Qed.

(** Whenever a checkout under a new key returns, the same request sent
    again returns the stored transaction result, with the order as it was
    inserted, and changes nothing; the first call returned the object of
    [getOrderById], with the order marked paid. *)
Lemma createOrder_replay_run (env env' : Env) (userId : string)
  (data : CreateOrderData.t) (w : World) (p : Payload) (w' : World) :
  ids_drawn w ->
  OrderService.key_of env' data = OrderService.key_of env data ->
  List.find (fun k => bool_decide (IdempotencyKey.key k = OrderService.key_of env data)
                      && bool_decide (IdempotencyKey.userId k = userId))
    (idempotencyKey (db w)) = None ->
  OrderService.createOrder env userId data w = (Returned p, w') ->
  exists o its ow,
    p = OrderPayload ow
    /\ Order.status (OrderWithItems.order ow) = OrderStatus.confirmed
    /\ Order.paymentStatus (OrderWithItems.order ow) = PaymentStatus.paid
    /\ Order.id (OrderWithItems.order ow) = Order.id o
    /\ Order.status o = OrderStatus.pending
    /\ Order.paymentStatus o = PaymentStatus.pending
    /\ OrderService.createOrder env' userId data w'
       = (Returned (TxResultPayload o its), w').
Proof.
  intros Hw Hkey Hnew Hrun.
  rewrite createOrder_new_key in Hrun by done.
  destruct (createOrder_claimed_run _ _ _ _ _ _ _ Hw Hrun)
    as (o & its & ow & -> & Hrow & _ & Hst & Hpst & _ & Hrecords & _).
  exists o, its, ow. rewrite Hrow. do 6 (split; [done|]).
  unfold OrderService.createOrder.
  rewrite bind_run, idempotencyKey_findUnique_run, Hkey, Hrecords.
  rewrite (find_newest_row _ _ _ Hnew); [reflexivity|].
  cbn. by rewrite !bool_decide_eq_true_2.
Qed.

(** C5.  A paid checkout under key "k1", then the same request again.  One
    order and one charge exist after both calls, but the two calls do not
    return the same payload: the first returns the object of
    [getOrderById], with the order ['confirmed'] and ['paid']; the second
    returns the stored transaction result [{ order, items }], whose order
    is the row as it was inserted, ['pending'] and payment ['pending']. *)
Theorem createOrder_replay_returns_other_payload :
  let env := Shop.env "uuid-1" "ORD-1" true in
  let data := Shop.checkout "credit_card" (Some "k1") in
  let first := OrderService.createOrder env Shop.userId data (Shop.world 5 0 2 []) in
  let second := OrderService.createOrder env Shop.userId data (snd first) in
  (exists o order' items',
     fst first = Returned (OrderPayload o)
     /\ fst second = Returned (TxResultPayload order' items')
     /\ Order.id (OrderWithItems.order o) = Order.id order'
     /\ Order.status (OrderWithItems.order o) = OrderStatus.confirmed
     /\ Order.paymentStatus (OrderWithItems.order o) = PaymentStatus.paid
     /\ Order.status order' = OrderStatus.pending
     /\ Order.paymentStatus order' = PaymentStatus.pending)
  /\ fst second <> fst first
  /\ List.length (order (db (snd second))) = 1%nat
  /\ List.length (charges (snd second)) = 1%nat.
Proof.
  vm_compute. split; [|split; [discriminate | split; reflexivity]].
  do 3 eexists. repeat split.
Qed.

(** C2.  The user holds 1 item through [createReservation] (1 reserved of
    5) and then checks out 2 items; the payment is declined.  The
    transaction is rolled back, so the attempt's own reservation is gone
    and the idempotency record is ['failed']; but the [catch] block then
    releases the user's earlier hold, which no attempt of this checkout
    created, and [reservedQuantity] ends at 0 instead of the 1 it was
    before the attempt. *)
Theorem createOrder_payment_failure_releases_other_hold :
  let env := Shop.env "uuid-1" "ORD-1" false in
  let before :=
    snd (ReservationService.createReservation env
           (CreateReservationData.mk Shop.storeId Shop.productId 1
              (Some Shop.userId) None 15)
           (Shop.world 5 0 2 [])) in
  let attempt :=
    OrderService.createOrder env Shop.userId
      (Shop.checkout "credit_card" (Some "k1")) before in
  let after := snd attempt in
  fst attempt = Thrown (PaymentFailed (Some "Card declined"))
  /\ List.map InventoryReservation.status (inventoryReservation (db before))
     = [ReservationStatus.reserved]
  /\ Shop.row before = Some (StoreInventory.mk 5 1 true)
  /\ List.map InventoryReservation.id (inventoryReservation (db after))
     = List.map InventoryReservation.id (inventoryReservation (db before))
  /\ List.map InventoryReservation.status (inventoryReservation (db after))
     = [ReservationStatus.released]
  /\ Shop.row after = Some (StoreInventory.mk 5 0 true)
  /\ List.map IdempotencyKey.status (idempotencyKey (db after))
     = [IdempotencyStatus.failed].
Proof. vm_compute. repeat split. Qed.

(** *** Checkouts without a key *)



(** * Further properties *)

(** ** What a call leaves alone *)

Lemma keeps_ret {A X} (f : World -> X) (a : A) : keeps f (mret a).
Proof. by intros w. Qed.

Lemma keeps_throw {A X} (f : World -> X) (e : Error) : keeps f (throw e : M A).
Proof. by intros w. Qed.

Lemma keeps_query {A X} (f : World -> X) (g : Database -> A) : keeps f (query g).
Proof. by intros w. Qed.

Lemma keeps_bind {A B X} (f : World -> X) (m : M A) (k : A -> M B) :
  keeps f m -> (forall a, keeps f (k a)) -> keeps f (m ≫= k).
Proof.
  intros Hm Hk w. rewrite bind_run. specialize (Hm w).
  destruct (m w) as [[a|e] w1]; cbn in *; [|done].
  by rewrite Hk.
Qed.

Lemma keeps_for_each {A B X} (f : World -> X) (xs : list A) (body : A -> M B) :
  (forall x, keeps f (body x)) -> keeps f (for_each xs body).
Proof.
  intros Hbody. induction xs as [|x xs IH]; [apply keeps_ret|].
  cbn [for_each]. apply keeps_bind; [apply Hbody|]. intros b.
  apply keeps_bind; [exact IH|]. intros bs. apply keeps_ret.
Qed.

Lemma keeps_write {X} (f : World -> X) (g : Database -> Database) :
  (forall w, f (mkWorld (g (db w)) (nextId w) (charges w)) = f w) ->
  keeps f (write g).
Proof. intros H w. apply H. Qed.

Lemma keeps_if {A X} (f : World -> X) (b : bool) (m1 m2 : M A) :
  keeps f m1 -> keeps f m2 -> keeps f (if b then m1 else m2).
Proof. by destruct b. Qed.

(** [updateReservation] writes reservations and inventory only. *)
Lemma updateReservation_keeps {X} (f : World -> X) (reservationId : Id)
  (data : UpdateReservationData.t) :
  (forall w g, f (mkWorld (set_inventoryReservation g (db w)) (nextId w) (charges w)) = f w) ->
  (forall w g, f (mkWorld (set_storeInventory g (db w)) (nextId w) (charges w)) = f w) ->
  keeps f (ReservationService.updateReservation reservationId data).
Proof.
  intros Hres Hinv. unfold ReservationService.updateReservation.
  apply keeps_bind; [apply keeps_query|]. intros [r|]; [|apply keeps_throw].
  apply keeps_bind.
  { unfold Prisma.inventoryReservation_update.
    apply keeps_bind; [apply keeps_query|]. intros [r0|]; [|apply keeps_throw].
    apply keeps_bind; [|intros; apply keeps_ret].
    apply keeps_write. intros; apply Hres. }
  intros u. apply keeps_bind; [|intros; apply keeps_ret].
  apply keeps_if; [|apply keeps_ret].
  unfold ReservationService.releaseReservedQuantity,
    Prisma.storeInventory_increment_reserved.
  apply keeps_bind; [apply keeps_query|]. intros [i|]; [|apply keeps_throw].
  apply keeps_write. intros; apply Hinv.
Qed.

(** ** Running the larger monad *)

Lemma svc_bind_run {A B} (m : Svc A) (k : A -> Svc B) (s : Site) :
  (m ≫= k) s =
  match m s with
  | (Done a, s') => k a s'
  | (Failed e, s') => (Failed e, s')
  end.
Proof. reflexivity. Qed.

Lemma lift_query_run {A} (g : Database -> A) (s : Site) :
  lift (query g) s = (Done (g (db (world s))), s).
Proof. unfold lift. rewrite query_run. by destruct s. Qed.

(** ** Reservations: cancel, reserve and cancel, the sweep *)

(** An update that keeps the searched-for column finds the updated row. *)
Lemma find_map_update {A} (p : A -> bool) (g : A -> A) (l : list A) :
  (forall x, p (g x) = p x) ->
  List.find p (List.map (fun x => if p x then g x else x) l) = g <$> List.find p l.
Proof.
  intros Hp. induction l as [|x l IH]; [reflexivity|].
  cbn. destruct (p x) eqn:Hx.
  - by rewrite Hp, Hx.
  - by rewrite Hx.
Qed.

Lemma find_map_preserving {A} (p : A -> bool) (g : A -> A) (l : list A) :
  (forall x, p (g x) = p x) ->
  List.find p (List.map g l) = g <$> List.find p l.
Proof.
  intros Hp. induction l as [|x l IH]; [reflexivity|].
  cbn. rewrite Hp. by destruct (p x).
Qed.

Lemma add_reserved_back (q : Z) (inv : StoreInventory.t) :
  Prisma.add_reserved (- q) (Prisma.add_reserved q inv) = inv.
Proof.
  destruct inv as [a r b]. unfold Prisma.add_reserved. cbn. f_equal. lia.
Qed.

(** What [cancelReservation] writes on a hold that is still ['reserved']. *)
Lemma cancelReservation_run
  (reservationId : Id) (w : World) (r : InventoryReservation.t)
  (inv : StoreInventory.t) :
  List.find (fun r => bool_decide (InventoryReservation.id r = reservationId))
    (inventoryReservation (db w)) = Some r ->
  InventoryReservation.status r = ReservationStatus.reserved ->
  storeInventory (db w) !! row_key r = Some inv ->
  exists u w',
    ReservationService.cancelReservation reservationId w = (Returned u, w')
    /\ InventoryReservation.status u = ReservationStatus.cancelled
    /\ storeInventory (db w')
       = <[row_key r := Prisma.add_reserved (- InventoryReservation.quantity r) inv]>
           (storeInventory (db w))
    /\ inventoryReservation (db w')
       = List.map (fun x => if bool_decide (InventoryReservation.id x = reservationId)
                            then Prisma.set_status ReservationStatus.cancelled x else x)
           (inventoryReservation (db w)).
Proof.
  intros Hfind Hst Hinv.
  unfold ReservationService.cancelReservation.
  rewrite bind_run, findUnique_run, Hfind, Hst. cbn [bool_decide decide_rel].
  rewrite bool_decide_eq_false_2 by (intros H; by apply H).
  unfold Prisma.inventoryReservation_update.
  rewrite bind_run, bind_run, findUnique_run, Hfind.
  unfold ReservationService.releaseReservedQuantity,
    Prisma.storeInventory_increment_reserved, Prisma.inventoryReservation_updateMany.
  run_monad. unfold row_key in Hinv. rewrite Hinv. cbn.
  do 2 eexists. split; [reflexivity|]. by repeat split.
Qed.

(** [cancelReservation] on a hold that is still ['reserved']: the hold
    becomes ['cancelled'], its quantity comes off the row once, and the same
    call made again is refused and changes nothing. *)
Theorem cancelReservation_releases_once
  (reservationId : Id) (w : World) (r : InventoryReservation.t)
  (inv : StoreInventory.t) :
  List.find (fun r => bool_decide (InventoryReservation.id r = reservationId))
    (inventoryReservation (db w)) = Some r ->
  InventoryReservation.status r = ReservationStatus.reserved ->
  storeInventory (db w) !! row_key r = Some inv ->
  exists u w',
    ReservationService.cancelReservation reservationId w = (Returned u, w')
    /\ InventoryReservation.status u = ReservationStatus.cancelled
    /\ storeInventory (db w')
       = <[row_key r := Prisma.add_reserved (- InventoryReservation.quantity r) inv]>
           (storeInventory (db w))
    /\ ReservationService.cancelReservation reservationId w'
       = (Thrown ReservationCannotBeCancelled, w').
Proof.
  intros Hfind Hst Hinv.
  destruct (cancelReservation_run reservationId w r inv Hfind Hst Hinv)
    as (u & w' & Hrun & Hu & Hrow & Hrows).
  exists u, w'. split; [exact Hrun|]. split; [exact Hu|]. split; [exact Hrow|].
  unfold ReservationService.cancelReservation.
  rewrite bind_run, findUnique_run, Hrows.
  rewrite (find_map_update _ (Prisma.set_status ReservationStatus.cancelled))
    by reflexivity.
  rewrite Hfind. reflexivity.
Qed.

Lemma cancelReservation_releases_once_witness :
  exists u w',
    ReservationService.cancelReservation 1%nat
      (Shop.world 5 2 1 [Shop.hold 1%nat 2 ReservationStatus.reserved])
    = (Returned u, w')
    /\ Shop.row w' = Some (StoreInventory.mk 5 0 true)
    /\ ReservationService.cancelReservation 1%nat w'
       = (Thrown ReservationCannotBeCancelled, w').
Proof.
  destruct (cancelReservation_releases_once 1%nat
              (Shop.world 5 2 1 [Shop.hold 1%nat 2 ReservationStatus.reserved])
              (Shop.hold 1%nat 2 ReservationStatus.reserved)
              (StoreInventory.mk 5 2 true))
    as (u & w' & Hrun & _ & Hrow & Hagain); [reflexivity..|].
  exists u, w'. split; [exact Hrun|]. split; [|exact Hagain].
  unfold Shop.row. rewrite Hrow. vm_compute. reflexivity.
Defined.

Lemma cancelReservation_terminal_rejected_witness :
  ReservationService.cancelReservation 1%nat
    (Shop.world 5 0 1 [Shop.hold 1%nat 2 ReservationStatus.used])
  = (Thrown ReservationCannotBeCancelled,
     Shop.world 5 0 1 [Shop.hold 1%nat 2 ReservationStatus.used]).
Proof.
  apply (cancelReservation_terminal_rejected 1%nat
           (Shop.world 5 0 1 [Shop.hold 1%nat 2 ReservationStatus.used])
           (Shop.hold 1%nat 2 ReservationStatus.used)).
  - reflexivity.
  - discriminate.
Defined.

(** What a call of [createReservation] that returns has written. *)
Lemma createReservation_returned (env : Env) (data : CreateReservationData.t)
  (w : World) (r : InventoryReservation.t) (w' : World) :
  ReservationService.createReservation env data w = (Returned r, w') ->
  exists inv,
    storeInventory (db w)
      !! (CreateReservationData.storeId data, CreateReservationData.productId data)
    = Some inv
    /\ InventoryReservation.id r = nextId w
    /\ row_key r = (CreateReservationData.storeId data,
                    CreateReservationData.productId data)
    /\ InventoryReservation.quantity r = CreateReservationData.quantity data
    /\ InventoryReservation.status r = ReservationStatus.reserved
    /\ inventoryReservation (db w') = inventoryReservation (db w) ++ [r]
    /\ storeInventory (db w')
       = <[(CreateReservationData.storeId data, CreateReservationData.productId data) :=
             Prisma.add_reserved (CreateReservationData.quantity data) inv]>
           (storeInventory (db w)).
Proof.
  unfold ReservationService.createReservation.
  rewrite bind_run, check_run. cbv zeta.
  destruct (storeInventory (db w) !! _) as [inv|] eqn:Hinv; [|discriminate].
  destruct (StoreInventory.isAvailable inv); [|discriminate].
  destruct (_ <? _); [discriminate|].
  unfold ReservationService.createReservation_insert,
    ReservationService.createReservation_increment,
    Prisma.inventoryReservation_create, Prisma.storeInventory_increment_reserved.
  run_monad. rewrite Hinv. cbn. intros [= <- <-].
  exists inv. by repeat split.
Qed.

(** Reserve, then cancel the reservation: the inventory table is exactly
    what it was before the reservation. *)
Theorem reserve_then_cancel_restores_inventory
  (env : Env) (data : CreateReservationData.t) (w w1 : World)
  (r : InventoryReservation.t) :
  Forall (fun x => (InventoryReservation.id x < nextId w)%nat)
    (inventoryReservation (db w)) ->
  ReservationService.createReservation env data w = (Returned r, w1) ->
  exists u w2,
    ReservationService.cancelReservation (InventoryReservation.id r) w1
    = (Returned u, w2)
    /\ InventoryReservation.status u = ReservationStatus.cancelled
    /\ storeInventory (db w2) = storeInventory (db w).
Proof.
  intros Hids Hrun.
  destruct (createReservation_returned env data w r w1 Hrun)
    as (inv & Hinv & Hid & Hkey & Hq & Hst & Hrows & Hinv1).
  destruct (cancelReservation_run (InventoryReservation.id r) w1 r
              (Prisma.add_reserved (CreateReservationData.quantity data) inv))
    as (u & w2 & Hcancel & Hu & Hinv2 & _).
  - rewrite Hrows. apply (find_older_rows InventoryReservation.id); [|done].
    by rewrite Hid.
  - exact Hst.
  - by rewrite Hinv1, Hkey, lookup_insert_eq.
  - exists u, w2. split; [exact Hcancel|]. split; [exact Hu|].
    rewrite Hinv2, Hinv1, Hkey, Hq, add_reserved_back, insert_insert_eq.
    by apply insert_id.
Qed.

Lemma reserve_then_cancel_restores_inventory_witness :
  exists u w2,
    ReservationService.cancelReservation 10%nat
      (snd (ReservationService.createReservation (Shop.env "u" "ORD-1" true)
              (Shop.reserve 3) (Shop.world 5 0 1 [])))
    = (Returned u, w2)
    /\ Shop.row w2 = Some (StoreInventory.mk 5 0 true).
Proof.
  destruct (reserve_then_cancel_restores_inventory (Shop.env "u" "ORD-1" true)
              (Shop.reserve 3) (Shop.world 5 0 1 [])
              (snd (ReservationService.createReservation (Shop.env "u" "ORD-1" true)
                      (Shop.reserve 3) (Shop.world 5 0 1 [])))
              (InventoryReservation.mk 10%nat Shop.storeId Shop.productId 3 None None
                 ReservationStatus.reserved 900000))
    as (u & w2 & Hcancel & _ & Hinv).
  - constructor.
  - vm_compute. reflexivity.
  - exists u, w2. split; [exact Hcancel|]. unfold Shop.row. by rewrite Hinv.
Defined.

Lemma createReservation_alone_keeps_invariant_witness :
  exists inv',
    Shop.row (snd (ReservationService.createReservation (Shop.env "u" "ORD-1" true)
                     (Shop.reserve 3) (Shop.world 5 0 1 [])))
    = Some inv'
    /\ StoreInventory.reservedQuantity inv' <= StoreInventory.quantityAvailable inv'.
Proof.
  apply (createReservation_alone_keeps_invariant (Shop.env "u" "ORD-1" true)
           (Shop.reserve 3) (Shop.world 5 0 1 []) (StoreInventory.mk 5 0 true)).
  - vm_compute. discriminate.
  - reflexivity.
  - vm_compute. discriminate.
Defined.

Lemma interleaved_calls_both_reserve_witness :
  exists r1 r2 w',
    Concurrent.run (Shop.env "u" "ORD-1" true) [0; 1; 0; 0; 1; 1]%nat
      [Concurrent.AtCheck (Shop.reserve 3); Concurrent.AtCheck (Shop.reserve 4)]
      (Shop.world 5 0 1 [])
    = ([Concurrent.Finished (Returned r1); Concurrent.Finished (Returned r2)], w')
    /\ Shop.row w' = Some (StoreInventory.mk 5 7 true).
Proof.
  destruct (interleaved_calls_both_reserve (Shop.env "u" "ORD-1" true)
              (Shop.reserve 3) (Shop.reserve 4) (Shop.world 5 0 1 [])
              (StoreInventory.mk 5 0 true))
    as (r1 & r2 & w' & Hrun & _ & _ & Hrow).
  - reflexivity.
  - reflexivity.
  - reflexivity.
  - vm_compute. discriminate.
  - vm_compute. discriminate.
  - exists r1, r2, w'. split; [exact Hrun|]. exact Hrow.
Defined.

Lemma NoDup_map_inj_in {A B} (f : A -> B) (l : list A) (x y : A) :
  NoDup (List.map f l) -> In x l -> In y l -> f x = f y -> x = y.
Proof.
  induction l as [|a l IH]; cbn; [done|].
  intros Hnd Hx Hy Hf. apply NoDup_cons in Hnd as [Hnotin Hrest].
  destruct Hx as [-> | Hx], Hy as [-> | Hy].
  - reflexivity.
  - exfalso. apply Hnotin. apply list_elem_of_In. rewrite Hf. by apply in_map.
  - exfalso. apply Hnotin. apply list_elem_of_In. rewrite <- Hf. by apply in_map.
  - by apply IH.
Qed.

Lemma release_keeps_reservations (rs : list InventoryReservation.t) :
  keeps (fun w => inventoryReservation (db w))
    (for_each rs (fun r =>
       ReservationService.releaseReservedQuantity (InventoryReservation.storeId r)
         (InventoryReservation.productId r) (InventoryReservation.quantity r))).
Proof.
  apply keeps_for_each. intros r.
  unfold ReservationService.releaseReservedQuantity,
    Prisma.storeInventory_increment_reserved.
  apply keeps_bind; [apply keeps_query|]. intros [i|]; [|apply keeps_throw].
  by apply keeps_write.
Qed.

(** The reservation table after the sweep, however the sweep ends: the due
    holds are ['expired'], every other row is as it was. *)
Lemma sweep_rows (env : Env) (w : World) :
  NoDup (List.map InventoryReservation.id (inventoryReservation (db w))) ->
  inventoryReservation (db (snd (ReservationService.releaseExpiredReservations env w)))
  = List.map (fun r => if due env r
                       then Prisma.set_status ReservationStatus.expired r else r)
      (inventoryReservation (db w)).
Proof.
  intros Hnd. unfold ReservationService.releaseExpiredReservations. cbv zeta.
  unfold Prisma.inventoryReservation_findMany at 1. rewrite bind_run, query_run.
  fold (due env).
  set (rows := inventoryReservation (db w)) in *.
  destruct (List.filter (due env) rows) as [|d ds] eqn:Hdue.
  - cbn. symmetry. erewrite map_ext_in; [apply map_id|].
    intros r Hin. destruct (due env r) eqn:Hr; [|done].
    assert (In r (List.filter (due env) rows)) as Hf by (apply filter_In; done).
    by rewrite Hdue in Hf.
  - rewrite <- Hdue. clear Hdue d ds.
    rewrite bind_run. unfold Prisma.inventoryReservation_updateMany at 1.
    unfold write at 1. cbv beta iota.
    rewrite bind_run.
    match goal with |- context [for_each ?l ?b ?w0] =>
      pose proof (release_keeps_reservations l w0) as Hkeep;
      destruct (for_each l b w0) as [[bs|e] w1] eqn:Hloop
    end; cbn in Hkeep |- *; rewrite Hkeep; fold rows;
      apply map_ext_in; intros r Hin.
    all: destruct (due env r) eqn:Hr.
    all: try (rewrite bool_decide_eq_true_2; [done|];
              apply list_elem_of_In, in_map, filter_In; done).
    all: rewrite bool_decide_eq_false_2; [done|];
         intros Hmem; apply list_elem_of_In, in_map_iff in Hmem as (r' & Hid & Hin');
         apply filter_In in Hin' as [Hin' Hr'];
         assert (r' = r) as -> by (by apply (NoDup_map_inj_in InventoryReservation.id rows));
         congruence.
Qed.

Lemma sweep_no_overdue (env : Env) (w : World) :
  NoDup (List.map InventoryReservation.id (inventoryReservation (db w))) ->
  Forall (fun r => InventoryReservation.status r = ReservationStatus.reserved ->
                   now env < InventoryReservation.expiresAt r)
    (inventoryReservation
       (db (snd (ReservationService.releaseExpiredReservations env w)))).
Proof.
  intros Hnd. rewrite (sweep_rows env w Hnd).
  apply List.Forall_forall. intros x Hx.
  apply in_map_iff in Hx as (r & <- & Hin).
  destruct (due env r) eqn:Hr; [discriminate|].
  intros Hst. unfold due in Hr. rewrite Hst in Hr.
  rewrite bool_decide_eq_true_2 in Hr by done. cbn in Hr. lia.
Qed.

(** The sweep touches the due holds and nothing else: a hold that is
    ['used'], ['released'], ['cancelled'] or not yet due stays as it is, a
    due hold becomes ['expired'], and no ['reserved'] hold is left past its
    expiry. *)
Theorem releaseExpiredReservations_expires_due_only (env : Env) (w : World) :
  NoDup (List.map InventoryReservation.id (inventoryReservation (db w))) ->
  let after :=
    inventoryReservation (db (snd (ReservationService.releaseExpiredReservations env w))) in
  List.map InventoryReservation.id after
  = List.map InventoryReservation.id (inventoryReservation (db w))
  /\ (forall r, In r (inventoryReservation (db w)) -> due env r = false -> In r after)
  /\ (forall r, In r (inventoryReservation (db w)) -> due env r = true ->
        In (Prisma.set_status ReservationStatus.expired r) after)
  /\ Forall (fun r => InventoryReservation.status r = ReservationStatus.reserved ->
                      now env < InventoryReservation.expiresAt r) after.
Proof.
  intros Hnd after. subst after.
  split; [|split; [|split]]; [| | |by apply sweep_no_overdue].
  all: rewrite (sweep_rows env w Hnd).
  - rewrite map_map. apply map_ext. intros r. by destruct (due env r).
  - intros r Hin Hr. apply in_map_iff. exists r. by rewrite Hr.
  - intros r Hin Hr. apply in_map_iff. exists r. by rewrite Hr.
Qed.

Lemma releaseExpiredReservations_expires_due_only_witness :
  Forall (fun r => InventoryReservation.status r = ReservationStatus.reserved ->
                   now (Shop.env "u" "ORD-1" true) < InventoryReservation.expiresAt r)
    (inventoryReservation
       (db (snd (ReservationService.releaseExpiredReservations
                   (Shop.env "u" "ORD-1" true)
                   (Shop.world 5 4 1
                      [Shop.hold_of "user-2" 1%nat 2 ReservationStatus.used;
                       InventoryReservation.mk 2%nat Shop.storeId Shop.productId 2
                         (Some Shop.userId) None ReservationStatus.reserved (-1)]))))).
Proof.
  assert (Hnd : NoDup [1%nat; 2%nat]) by compute_done.
  pose proof (releaseExpiredReservations_expires_due_only
                (Shop.env "u" "ORD-1" true)
                (Shop.world 5 4 1
                   [Shop.hold_of "user-2" 1%nat 2 ReservationStatus.used;
                    InventoryReservation.mk 2%nat Shop.storeId Shop.productId 2
                      (Some Shop.userId) None ReservationStatus.reserved (-1)])
                Hnd) as H.
  cbv zeta in H. destruct H as (_ & _ & _ & H). exact H.
Defined.



Lemma add_reserved_add (a b : Z) (inv : StoreInventory.t) :
  Prisma.add_reserved a (Prisma.add_reserved b inv) = Prisma.add_reserved (b + a) inv.
Proof. unfold Prisma.add_reserved. cbn. f_equal. lia. Qed.

Lemma add_reserved_0 (inv : StoreInventory.t) : Prisma.add_reserved (- 0) inv = inv.
Proof. destruct inv. unfold Prisma.add_reserved. cbn. f_equal. lia. Qed.

(** Releasing the holds of a list, one after the other: when every row is
    there the loop runs through, and each row loses what the list held on
    it. *)
Lemma release_loop_run (rs : list InventoryReservation.t) (w : World) :
  Forall (fun r => is_Some (storeInventory (db w) !! row_key r)) rs ->
  exists bs w',
    for_each rs (fun r =>
      ReservationService.releaseReservedQuantity (InventoryReservation.storeId r)
        (InventoryReservation.productId r) (InventoryReservation.quantity r)) w
    = (Returned bs, w')
    /\ forall k, storeInventory (db w') !! k
                 = Prisma.add_reserved (- held_on k rs) <$> storeInventory (db w) !! k.
Proof.
  revert w. induction rs as [|r rs IH]; intros w Hall.
  - do 2 eexists. split; [reflexivity|]. intros k. cbn [held_on fold_right].
    destruct (storeInventory (db w) !! k); cbn; [|done]. by rewrite add_reserved_0.
  - apply Forall_cons in Hall as [[i Hi] Hrest].
    cbn [for_each]. rewrite bind_run.
    unfold ReservationService.releaseReservedQuantity at 1,
      Prisma.storeInventory_increment_reserved at 1.
    rewrite bind_run, query_run. unfold row_key in Hi. rewrite Hi.
    unfold write at 1. cbv beta iota. rewrite bind_run.
    match goal with |- context [for_each rs ?b ?w0] => set (w1 := w0) end.
    destruct (IH w1) as (bs & w' & Hloop & Hrows).
    { eapply Forall_impl; [exact Hrest|]. intros x [j Hj]. subst w1.
      cbn [db storeInventory set_storeInventory].
      apply lookup_insert_is_Some'. right. eauto. }
    rewrite Hloop. do 2 eexists. split; [reflexivity|].
    intros k. rewrite Hrows. cbn [held_on fold_right]. fold (held_on k rs).
    subst w1. cbn [db storeInventory set_storeInventory].
    destruct (bool_decide_reflect (row_key r = k)) as [<-|Hne].
    + unfold row_key. rewrite lookup_insert_eq, Hi. cbn.
      rewrite add_reserved_add. do 2 f_equal. lia.
    + unfold row_key in Hne. rewrite lookup_insert_ne by done.
      by replace (- (0 + held_on k rs)) with (- held_on k rs) by lia.
Qed.

(** The sweep and the ledger: when every due hold has its inventory row,
    the sweep returns the due holds, and each row's [reservedQuantity] goes
    down by what the due holds held on it; quantities in stock and
    availability flags stay. *)
Theorem releaseExpiredReservations_releases_due (env : Env) (w : World) :
  Forall (fun r => is_Some (storeInventory (db w) !! row_key r))
    (List.filter (due env) (inventoryReservation (db w))) ->
  exists w',
    ReservationService.releaseExpiredReservations env w
    = (Returned (List.filter (due env) (inventoryReservation (db w))), w')
    /\ forall k,
         storeInventory (db w') !! k
         = Prisma.add_reserved
             (- held_on k (List.filter (due env) (inventoryReservation (db w))))
           <$> storeInventory (db w) !! k.
Proof.
  intros Hall. unfold ReservationService.releaseExpiredReservations. cbv zeta.
  unfold Prisma.inventoryReservation_findMany at 1. rewrite bind_run, query_run.
  fold (due env).
  destruct (List.filter (due env) (inventoryReservation (db w))) as [|d ds] eqn:Hdue.
  - exists w. split; [reflexivity|]. intros k. cbn [held_on fold_right].
    destruct (storeInventory (db w) !! k); cbn; [|done]. by rewrite add_reserved_0.
  - rewrite bind_run. unfold Prisma.inventoryReservation_updateMany at 1.
    unfold write at 1. cbv beta iota. rewrite bind_run.
    match goal with |- context [for_each (d :: ds) ?b ?w0] =>
      destruct (release_loop_run (d :: ds) w0) as (bs & w' & Hloop & Hrows);
        [exact Hall|]
    end.
    rewrite Hloop. exists w'. split; [reflexivity|]. exact Hrows.
Qed.

Lemma releaseExpiredReservations_releases_due_witness :
  exists w',
    ReservationService.releaseExpiredReservations (Shop.env "u" "ORD-1" true)
      (Shop.world 5 4 1
         [Shop.hold 1%nat 2 ReservationStatus.reserved;
          InventoryReservation.mk 2%nat Shop.storeId Shop.productId 2
            (Some Shop.userId) None ReservationStatus.reserved (-1)])
    = (Returned [InventoryReservation.mk 2%nat Shop.storeId Shop.productId 2
                   (Some Shop.userId) None ReservationStatus.reserved (-1)], w')
    /\ Shop.row w' = Some (StoreInventory.mk 5 2 true).
Proof.
  destruct (releaseExpiredReservations_releases_due (Shop.env "u" "ORD-1" true)
              (Shop.world 5 4 1
                 [Shop.hold 1%nat 2 ReservationStatus.reserved;
                  InventoryReservation.mk 2%nat Shop.storeId Shop.productId 2
                    (Some Shop.userId) None ReservationStatus.reserved (-1)]))
    as (w' & Hrun & Hrows).
  - vm_compute. repeat constructor. eexists. reflexivity.
  - exists w'. split; [exact Hrun|]. unfold Shop.row. rewrite Hrows.
    vm_compute. reflexivity.
Defined.

(** ** The cart *)

Ltac run_svc :=
  cbv beta iota delta [mbind Svc_bind M_bind mret Svc_ret M_ret lift reject
                         query write freshId throw];
  cbn.

Lemma site_eta (s : Site) : mkSite (world s) (refunds s) = s.
Proof. by destruct s. Qed.

(** [getOrCreateCart] always returns the user's active cart at the store,
    and asking again returns the same cart and writes nothing: a user never
    gets a second active cart at a store this way. *)
Theorem getOrCreateCart_same_cart_again (userId storeId : string) (s : Site) :
  exists c s1,
    Cart.getOrCreateCart userId storeId s = (Done c, s1)
    /\ ShoppingCart.userId c = userId
    /\ ShoppingCart.storeId c = storeId
    /\ ShoppingCart.isActive c = true
    /\ Cart.getOrCreateCart userId storeId s1 = (Done c, s1).
Proof.
  unfold Cart.getOrCreateCart, CartService.shoppingCart_findFirst.
  rewrite svc_bind_run, lift_query_run.
  destruct (List.find _ (shoppingCart (db (world s)))) as [c|] eqn:Hfind.
  - exists c, s. apply find_some in Hfind as Hc. destruct Hc as [_ Hc].
    apply andb_prop in Hc as [Hc Hactive]. apply andb_prop in Hc as [Hu Hs].
    apply bool_decide_eq_true_1 in Hu, Hs.
    repeat (split; [done|]).
    by rewrite svc_bind_run, lift_query_run, Hfind.
  - unfold Cart.shoppingCart_create. run_svc.
    do 2 eexists. repeat (split; [reflexivity|]).
    cbn [world db shoppingCart set_shoppingCart].
    rewrite find_newest_row; [reflexivity | exact Hfind |].
    cbn. by rewrite !bool_decide_eq_true_2.
Qed.

(** [addToCart] stops at its first three guards without writing: a product
    the CMS does not know, a product with no available inventory row at the
    store, a quantity above the stock. *)
Theorem addToCart_refuses_without_writing (env : Env) (price : string -> option Z)
  (userId productId : string) (quantity : Z) (storeId : string) (s : Site) :
  price productId = None
  \/ (forall inv, storeInventory (db (world s)) !! (storeId, productId) = Some inv ->
        StoreInventory.isAvailable inv = false
        \/ StoreInventory.quantityAvailable inv < quantity) ->
  exists e,
    Cart.addToCart env price userId productId quantity storeId s = (Failed e, s)
    /\ (price productId = None -> e = ProductNotFound)
    /\ (forall p inv, price productId = Some p ->
          storeInventory (db (world s)) !! (storeId, productId) = Some inv ->
          StoreInventory.isAvailable inv = true ->
          e = OnlyAvailable (StoreInventory.quantityAvailable inv)).
Proof.
  intros Hguard. unfold Cart.addToCart.
  destruct (price productId) as [p|] eqn:Hp.
  2:{ exists ProductNotFound. split; [reflexivity|]. split; [done|]. intros; discriminate. }
  destruct Hguard as [Hnone | Hrow]; [discriminate|].
  unfold Prisma.storeInventory_findFirst_available.
  rewrite svc_bind_run, lift_query_run.
  destruct (storeInventory (db (world s)) !! (storeId, productId)) as [inv|] eqn:Hinv.
  2:{ eexists. split; [reflexivity|]. split; [discriminate|]. intros; discriminate. }
  destruct (Hrow inv eq_refl) as [Hav | Hlt].
  - rewrite Hav. eexists. split; [reflexivity|]. split; [discriminate|].
    intros p' inv' _ [= <-] Hav'. congruence.
  - destruct (StoreInventory.isAvailable inv) eqn:Hav.
    + rewrite (proj2 (Z.ltb_lt _ _) Hlt).
      eexists. split; [reflexivity|]. split; [discriminate|].
      by intros p' inv' _ [= <-] _.
    + eexists. split; [reflexivity|]. split; [discriminate|].
      intros p' inv' _ [= <-] Hav'. congruence.
Qed.

Lemma addToCart_refuses_without_writing_witness :
  exists e,
    Cart.addToCart (Shop.env "u" "ORD-1" true) (fun _ => Some 1000) Shop.userId
      Shop.productId 6 Shop.storeId (mkSite (Shop.world 5 0 1 []) [])
    = (Failed e, mkSite (Shop.world 5 0 1 []) [])
    /\ e = OnlyAvailable 5.
Proof.
  destruct (addToCart_refuses_without_writing (Shop.env "u" "ORD-1" true)
              (fun _ => Some 1000) Shop.userId Shop.productId 6 Shop.storeId
              (mkSite (Shop.world 5 0 1 []) []))
    as (e & Hrun & _ & He).
  - right. intros inv Hinv. vm_compute in Hinv. injection Hinv as <-.
    right. vm_compute. reflexivity.
  - exists e. split; [exact Hrun|].
    apply (He 1000 (StoreInventory.mk 5 0 true)); reflexivity.
Defined.

Lemma getOrCreateCart_run (userId storeId : string) (s : Site) :
  exists c s1,
    Cart.getOrCreateCart userId storeId s = (Done c, s1)
    /\ cartItem (db (world s1)) = cartItem (db (world s))
    /\ storeInventory (db (world s1)) = storeInventory (db (world s))
    /\ active_cart userId storeId (world s1) = Some c.
Proof.
  unfold Cart.getOrCreateCart, CartService.shoppingCart_findFirst, active_cart.
  rewrite svc_bind_run, lift_query_run.
  destruct (List.find _ _) as [c|] eqn:Hfind; [by exists c, s|].
  unfold Cart.shoppingCart_create. run_svc. do 2 eexists.
  do 3 (split; [reflexivity|]).
  cbn [world db shoppingCart set_shoppingCart].
  rewrite find_newest_row; [reflexivity | exact Hfind |].
  cbn. by rewrite !bool_decide_eq_true_2.
Qed.

Lemma lift_getCartWithItems_run (env : Env) (userId storeId : string) (s : Site) :
  exists c, lift (CartService.getCartWithItems env userId storeId) s = (Done c, s).
Proof.
  destruct (getCartWithItems_reads env userId storeId (world s)) as [c Hc].
  exists c. unfold lift. rewrite Hc. by rewrite site_eta.
Qed.

Lemma line_key_not_in (cartId : Id) (productId : string) (items : list CartItem.t) :
  List.find (fun i => bool_decide (CartItem.cartId i = cartId)
                      && bool_decide (CartItem.productId i = productId)) items = None ->
  ~ In (cartId, productId) (List.map line_key items).
Proof.
  intros Hnone Hin. apply in_map_iff in Hin as (i & Hkey & Hin).
  pose proof (find_none _ _ Hnone i Hin) as Hi. cbn in Hi.
  unfold line_key in Hkey. injection Hkey as Hc Hp.
  by rewrite !bool_decide_eq_true_2 in Hi.
Qed.

(** [addToCart] keeps a cart free of duplicate lines: when no two lines of
    the table are for the same product in the same cart, that is still so
    after the call, however it ends. *)
Theorem addToCart_keeps_one_line_per_product (env : Env) (price : string -> option Z)
  (userId productId : string) (quantity : Z) (storeId : string) (s : Site) :
  NoDup (List.map line_key (cartItem (db (world s)))) ->
  NoDup (List.map line_key
           (cartItem (db (world (snd (Cart.addToCart env price userId productId
                                        quantity storeId s)))))).
Proof.
  intros Hnd. unfold Cart.addToCart.
  destruct (price productId) as [p|]; [|exact Hnd].
  unfold Prisma.storeInventory_findFirst_available.
  rewrite svc_bind_run, lift_query_run.
  destruct (storeInventory (db (world s)) !! (storeId, productId)) as [inv|];
    [|exact Hnd].
  destruct (StoreInventory.isAvailable inv); [|exact Hnd].
  destruct (_ <? quantity); [exact Hnd|].
  rewrite svc_bind_run.
  destruct (getOrCreateCart_run userId storeId s) as (c & s1 & -> & Hitems & _).
  rewrite <- Hitems in Hnd. clear Hitems.
  rewrite svc_bind_run. unfold Cart.cartItem_findFirst at 1.
  rewrite lift_query_run, svc_bind_run.
  destruct (List.find _ (cartItem (db (world s1)))) as [existing|] eqn:Hfind.
  - destruct (_ <? _); [exact Hnd|].
    unfold Cart.cartItem_update, lift.
    rewrite bind_run, query_run.
    destruct (existsb _ _); [|exact Hnd].
    unfold write. cbv beta iota. cbn [world refunds].
    match goal with |- context [CartService.getCartWithItems env userId storeId ?w0] =>
      destruct (getCartWithItems_reads env userId storeId w0) as [r ->]
    end.
    cbn. rewrite map_map.
    erewrite map_ext; [exact Hnd|]. intros i. cbn.
    by destruct (Cart.cartItem_has_id _ i).
  - unfold Cart.cartItem_create, lift. run_monad.
    match goal with |- context [CartService.getCartWithItems env userId storeId ?w0] =>
      destruct (getCartWithItems_reads env userId storeId w0) as [r ->]
    end.
    cbn. rewrite map_app. cbn. apply NoDup_app. split; [exact Hnd|].
    split; [|apply NoDup_singleton].
    intros k Hk [= ->]%list_elem_of_singleton.
    apply list_elem_of_In in Hk. by apply line_key_not_in in Hfind.
Qed.

Lemma addToCart_keeps_one_line_per_product_witness :
  NoDup (List.map line_key
           (cartItem (db (world (snd (Cart.addToCart (Shop.env "u" "ORD-1" true)
                                        (fun _ => Some 1000) Shop.userId Shop.productId
                                        2 Shop.storeId
                                        (mkSite (Shop.world 5 0 1 []) []))))))).
Proof.
  apply (addToCart_keeps_one_line_per_product (Shop.env "u" "ORD-1" true)
           (fun _ => Some 1000) Shop.userId Shop.productId 2 Shop.storeId
           (mkSite (Shop.world 5 0 1 []) [])).
  compute_done.
Defined.

(** A line that [addToCart] has written never asks for more than is in
    stock.  When the call returns, the user's active cart at the store has
    a line for the product whose quantity is at most the row's
    [quantityAvailable] as the call read it, and whose price is the
    product's current price. *)
Theorem addToCart_line_within_stock (env : Env) (price : string -> option Z)
  (userId productId : string) (quantity : Z) (storeId : string) (s : Site)
  (r : option CartWithItems.t) (s' : Site) :
  Cart.addToCart env price userId productId quantity storeId s = (Done r, s') ->
  exists p inv c line,
    price productId = Some p
    /\ storeInventory (db (world s)) !! (storeId, productId) = Some inv
    /\ active_cart userId storeId (world s') = Some c
    /\ line_of (ShoppingCart.id c) productId (world s') = Some line
    /\ CartItem.quantity line <= StoreInventory.quantityAvailable inv
    /\ CartItem.priceAtTime line = p.
Proof.
  intros Hrun. unfold Cart.addToCart in Hrun.
  destruct (price productId) as [p|] eqn:Hp; [|discriminate].
  unfold Prisma.storeInventory_findFirst_available in Hrun.
  rewrite svc_bind_run, lift_query_run in Hrun.
  destruct (storeInventory (db (world s)) !! (storeId, productId)) as [inv|] eqn:Hinv;
    [|discriminate].
  destruct (StoreInventory.isAvailable inv); [|discriminate].
  destruct (Z.ltb_spec (StoreInventory.quantityAvailable inv) quantity) as [|Hq];
    [discriminate|].
  rewrite svc_bind_run in Hrun.
  destruct (getOrCreateCart_run userId storeId s) as (c & s1 & Hc & _ & _ & Hactive).
  rewrite Hc in Hrun.
  rewrite svc_bind_run in Hrun. unfold Cart.cartItem_findFirst at 1 in Hrun.
  rewrite lift_query_run, svc_bind_run in Hrun.
  destruct (List.find _ (cartItem (db (world s1)))) as [existing|] eqn:Hfind.
  - destruct (Z.ltb_spec (StoreInventory.quantityAvailable inv)
                (CartItem.quantity existing + quantity)) as [|Hle]; [discriminate|].
    unfold Cart.cartItem_update, lift at 1 in Hrun.
    rewrite bind_run, query_run in Hrun.
    destruct (existsb _ _); [|discriminate].
    unfold write in Hrun. cbv beta iota in Hrun.
    match type of Hrun with
    | context [lift ?m ?s0] =>
        destruct (lift_getCartWithItems_run env userId storeId s0) as [r' Hr'];
        rewrite Hr' in Hrun
    end.
    injection Hrun as <- <-.
    exists p, inv, c,
      (Cart.set_quantity_price (CartItem.quantity existing + quantity) p existing).
    split; [done|]. split; [done|]. split; [exact Hactive|].
    split; [|by split].
    unfold line_of. cbn. rewrite find_map_preserving.
    2:{ intros x. by destruct (Cart.cartItem_has_id _ x). }
    rewrite Hfind. cbn. unfold Cart.cartItem_has_id.
    by rewrite bool_decide_eq_true_2.
  - unfold Cart.cartItem_create, lift at 1 in Hrun.
    rewrite bind_run in Hrun. unfold freshId at 1, write at 1 in Hrun.
    cbv beta iota in Hrun.
    match type of Hrun with
    | context [lift ?m ?s0] =>
        destruct (lift_getCartWithItems_run env userId storeId s0) as [r' Hr'];
        rewrite Hr' in Hrun
    end.
    injection Hrun as <- <-.
    exists p, inv, c, (CartItem.mk (nextId (world s1)) (ShoppingCart.id c) productId
                         quantity p).
    split; [done|]. split; [done|]. split; [exact Hactive|].
    split; [|by split].
    unfold line_of. cbn. rewrite (find_newest_row _ _ _ Hfind); [reflexivity|].
    cbn. by rewrite !bool_decide_eq_true_2.
Qed.

Lemma addToCart_line_within_stock_witness :
  exists line,
    line_of 1%nat Shop.productId
      (world (snd (Cart.addToCart (Shop.env "u" "ORD-1" true) (fun _ => Some 1200)
                     Shop.userId Shop.productId 2 Shop.storeId
                     (mkSite (Shop.world 5 0 1 []) []))))
    = Some line
    /\ CartItem.quantity line <= 5
    /\ CartItem.priceAtTime line = 1200.
Proof.
  destruct (Cart.addToCart (Shop.env "u" "ORD-1" true) (fun _ => Some 1200)
              Shop.userId Shop.productId 2 Shop.storeId
              (mkSite (Shop.world 5 0 1 []) [])) as [[r|e] s'] eqn:Hrun;
    [|vm_compute in Hrun; discriminate].
  destruct (addToCart_line_within_stock _ _ _ _ _ _ _ _ _ Hrun)
    as (p & inv & c & line & Hp & Hinv & Hc & Hline & Hle & Hprice).
  injection Hp as <-. vm_compute in Hinv. injection Hinv as <-.
  assert (c = ShoppingCart.mk 1%nat Shop.userId Shop.storeId true) as ->.
  { vm_compute in Hrun. injection Hrun as _ <-. vm_compute in Hc. by injection Hc. }
  exists line. cbn [snd]. by repeat split.
Defined.

(** *** Whose lines a call may touch *)

Lemma cartItem_with_cart_found (itemId : Id) (d : Database)
  (item : CartItem.t) (cart : ShoppingCart.t) :
  match List.find (Cart.cartItem_has_id itemId) (cartItem d) with
  | None => None
  | Some i =>
      match List.find (fun c => bool_decide (ShoppingCart.id c = CartItem.cartId i))
              (shoppingCart d) with
      | None => None
      | Some c => Some (i, c)
      end
  end = Some (item, cart) ->
  In item (cartItem d) /\ CartItem.id item = itemId
  /\ In cart (shoppingCart d) /\ ShoppingCart.id cart = CartItem.cartId item.
Proof.
  destruct (List.find _ (cartItem d)) as [i|] eqn:Hi; [|discriminate].
  destruct (List.find _ (shoppingCart d)) as [c|] eqn:Hc; [|discriminate].
  intros [= <- <-].
  apply find_some in Hi as [Hi Hid]. apply find_some in Hc as [Hc Hcid].
  apply bool_decide_eq_true_1 in Hid, Hcid. done.
Qed.

(** With primary keys on both tables, the line a user may change is not a
    line of somebody else's cart. *)
Lemma foreign_line_not_target (userId : string) (itemId : Id) (d : Database)
  (item : CartItem.t) (cart : ShoppingCart.t) (i : CartItem.t) :
  NoDup (List.map CartItem.id (cartItem d)) ->
  NoDup (List.map ShoppingCart.id (shoppingCart d)) ->
  In item (cartItem d) -> CartItem.id item = itemId ->
  In cart (shoppingCart d) -> ShoppingCart.id cart = CartItem.cartId item ->
  ShoppingCart.userId cart = userId ->
  In i (cartItem d) -> foreign_line userId d i ->
  Cart.cartItem_has_id itemId i = false.
Proof.
  intros Hitems Hcarts Hitem Hid Hcart Hcid Howner Hi (c & Hc & Hci & Hother).
  apply bool_decide_eq_false_2. intros Heq.
  assert (i = item) as ->.
  { apply (NoDup_map_inj_in CartItem.id (cartItem d)); congruence. }
  assert (c = cart) as ->.
  { apply (NoDup_map_inj_in ShoppingCart.id (shoppingCart d)); congruence. }
  done.
Qed.

(** [updateCartItem] changes only lines of the caller's own carts: a line
    of a cart that belongs to another user is in the table afterwards as it
    was before, whatever item id the caller names and however the call
    ends. *)
Theorem updateCartItem_leaves_foreign_lines (env : Env) (userId : string)
  (itemId : Id) (quantity : Z) (s : Site) (i : CartItem.t) :
  NoDup (List.map CartItem.id (cartItem (db (world s)))) ->
  NoDup (List.map ShoppingCart.id (shoppingCart (db (world s)))) ->
  In i (cartItem (db (world s))) ->
  foreign_line userId (db (world s)) i ->
  In i (cartItem (db (world (snd (Cart.updateCartItem env userId itemId quantity s))))).
Proof.
  intros Hitems Hcarts Hi Hforeign. unfold Cart.updateCartItem, Cart.cartItem_with_cart.
  rewrite svc_bind_run, lift_query_run.
  match goal with |- context [match ?f with Some _ => _ | None => _ end s] =>
    destruct f as [[item cart]|] eqn:Hfound end; [|exact Hi].
  apply cartItem_with_cart_found in Hfound as (Hitem & Hid & Hcart & Hcid).
  destruct (bool_decide_reflect (ShoppingCart.userId cart ≠ userId)) as [|Howner];
    [exact Hi|].
  apply dec_stable in Howner.
  pose proof (foreign_line_not_target userId itemId (db (world s)) item cart i
                Hitems Hcarts Hitem Hid Hcart Hcid Howner Hi Hforeign) as Hnot.
  unfold Prisma.storeInventory_findFirst_available.
  rewrite svc_bind_run, lift_query_run.
  destruct (storeInventory (db (world s)) !! _) as [inv|]; [|exact Hi].
  destruct (StoreInventory.isAvailable inv); [|exact Hi].
  destruct (_ <? quantity); [exact Hi|].
  rewrite svc_bind_run. unfold Cart.cartItem_update, lift at 1.
  rewrite bind_run, query_run.
  destruct (existsb _ _); [|exact Hi].
  unfold write. cbv beta iota.
  match goal with |- context [lift ?m ?s0] =>
    destruct (lift_getCartWithItems_run env userId (ShoppingCart.storeId cart) s0)
      as [r ->]
  end.
  cbn. apply in_map_iff. exists i. by rewrite Hnot.
Qed.

Lemma updateCartItem_leaves_foreign_lines_witness :
  In (CartItem.mk 2%nat 1%nat Shop.productId 1 1000)
    (cartItem (db (world (snd (Cart.updateCartItem (Shop.env "u" "ORD-1" true)
                                 "user-2" 2%nat 5
                                 (mkSite (Shop.world 5 0 1 []) []))))))
  /\ In (CartItem.mk 2%nat 1%nat Shop.productId 5 1000)
       (cartItem (db (world (snd (Cart.updateCartItem (Shop.env "u" "ORD-1" true)
                                    Shop.userId 2%nat 5
                                    (mkSite (Shop.world 5 0 1 []) [])))))).
Proof.
  split.
  - apply (updateCartItem_leaves_foreign_lines (Shop.env "u" "ORD-1" true)
             "user-2" 2%nat 5 (mkSite (Shop.world 5 0 1 []) [])).
    + compute_done.
    + compute_done.
    + left. reflexivity.
    + exists (ShoppingCart.mk 1%nat Shop.userId Shop.storeId true).
      split; [left; reflexivity|]. split; [reflexivity|]. discriminate.
  - vm_compute. left. reflexivity.
Defined.

(** [removeCartItem] deletes only lines of the caller's own carts. *)
Theorem removeCartItem_leaves_foreign_lines (env : Env) (userId : string)
  (itemId : Id) (s : Site) (i : CartItem.t) :
  NoDup (List.map CartItem.id (cartItem (db (world s)))) ->
  NoDup (List.map ShoppingCart.id (shoppingCart (db (world s)))) ->
  In i (cartItem (db (world s))) ->
  foreign_line userId (db (world s)) i ->
  In i (cartItem (db (world (snd (Cart.removeCartItem env userId itemId s))))).
Proof.
  intros Hitems Hcarts Hi Hforeign. unfold Cart.removeCartItem, Cart.cartItem_with_cart.
  rewrite svc_bind_run, lift_query_run.
  match goal with |- context [match ?f with Some _ => _ | None => _ end s] =>
    destruct f as [[item cart]|] eqn:Hfound end; [|exact Hi].
  apply cartItem_with_cart_found in Hfound as (Hitem & Hid & Hcart & Hcid).
  destruct (bool_decide_reflect (ShoppingCart.userId cart ≠ userId)) as [|Howner];
    [exact Hi|].
  apply dec_stable in Howner.
  pose proof (foreign_line_not_target userId itemId (db (world s)) item cart i
                Hitems Hcarts Hitem Hid Hcart Hcid Howner Hi Hforeign) as Hnot.
  rewrite svc_bind_run. unfold Cart.cartItem_delete, lift at 1.
  rewrite bind_run, query_run.
  destruct (existsb _ _); [|exact Hi].
  unfold write. cbv beta iota.
  match goal with |- context [lift ?m ?s0] =>
    destruct (lift_getCartWithItems_run env userId (ShoppingCart.storeId cart) s0)
      as [r ->]
  end.
  cbn. apply filter_In. by rewrite Hnot.
Qed.

Lemma removeCartItem_leaves_foreign_lines_witness :
  In (CartItem.mk 2%nat 1%nat Shop.productId 1 1000)
    (cartItem (db (world (snd (Cart.removeCartItem (Shop.env "u" "ORD-1" true)
                                 "user-2" 2%nat
                                 (mkSite (Shop.world 5 0 1 []) []))))))
  /\ cartItem (db (world (snd (Cart.removeCartItem (Shop.env "u" "ORD-1" true)
                                 Shop.userId 2%nat
                                 (mkSite (Shop.world 5 0 1 []) []))))) = [].
Proof.
  split.
  - apply (removeCartItem_leaves_foreign_lines (Shop.env "u" "ORD-1" true)
             "user-2" 2%nat (mkSite (Shop.world 5 0 1 []) [])).
    + compute_done.
    + compute_done.
    + left. reflexivity.
    + exists (ShoppingCart.mk 1%nat Shop.userId Shop.storeId true).
      split; [left; reflexivity|]. split; [reflexivity|]. discriminate.
  - vm_compute. reflexivity.
Defined.

Lemma filter_filter_negb {A} (f : A -> bool) (l : list A) :
  List.filter f (List.filter (fun x => negb (f x)) l) = [].
Proof.
  induction l as [|x l IH]; [reflexivity|].
  cbn. destruct (f x) eqn:Hx; cbn; [exact IH|]. by rewrite Hx.
Qed.

(** A cart that [clearCart] has emptied does not pass the checkout
    validation: the call always returns, and the validation that follows
    reports ['Cart is empty'] and nothing else. *)
Theorem clearCart_then_validation_fails (env : Env) (userId storeId : string)
  (s : Site) :
  exists s',
    Cart.clearCart userId storeId s = (Done tt, s')
    /\ CartService.validateCartForCheckout env userId storeId (world s')
       = (Returned (CartService.Validation.mk false [EmptyCart]), world s').
Proof.
  unfold Cart.clearCart, CartService.shoppingCart_findFirst.
  rewrite svc_bind_run, lift_query_run.
  destruct (List.find _ (shoppingCart (db (world s)))) as [c|] eqn:Hfind.
  - unfold OrderService.cartItem_deleteMany. run_svc.
    eexists. split; [reflexivity|]. cbn [world].
    unfold CartService.validateCartForCheckout, CartService.getCartWithItems,
      CartService.shoppingCart_findFirst, CartService.cartItem_of_cart.
    run_monad. rewrite Hfind. cbn.
    by rewrite (filter_filter_negb
                  (fun i => bool_decide (CartItem.cartId i = ShoppingCart.id c))).
  - exists s. split; [reflexivity|].
    unfold CartService.validateCartForCheckout, CartService.getCartWithItems,
      CartService.shoppingCart_findFirst.
    run_monad. by rewrite Hfind.
Qed.

(** ** Orders: cancel and status update *)

Lemma find_by_key {A} (key : A -> Id) (l : list A) (x : A) :
  NoDup (List.map key l) -> In x l ->
  List.find (fun y => bool_decide (key y = key x)) l = Some x.
Proof.
  induction l as [|a l IH]; cbn; [done|].
  intros Hnd Hx. apply NoDup_cons in Hnd as [Hnotin Hrest].
  destruct (bool_decide_reflect (key a = key x)) as [Heq|Hne].
  - destruct Hx as [->|Hx]; [done|].
    exfalso. apply Hnotin. rewrite Heq. apply list_elem_of_In. by apply in_map.
  - destruct Hx as [->|Hx]; [done|]. by apply IH.
Qed.

Lemma find_existsb {A} (p : A -> bool) (l : list A) (x : A) :
  List.find p l = Some x -> List.existsb p l = true.
Proof.
  intros Hfind. apply find_some in Hfind as [Hin Hp].
  apply existsb_exists. eauto.
Qed.

(** One turn of the release loop, on a hold that is in the table. *)
Lemma updateReservation_released_run (w : World) (r : InventoryReservation.t)
  (inv : StoreInventory.t) :
  NoDup (List.map InventoryReservation.id (inventoryReservation (db w))) ->
  In r (inventoryReservation (db w)) ->
  storeInventory (db w) !! row_key r = Some inv ->
  ReservationService.updateReservation (InventoryReservation.id r)
    (UpdateReservationData.mk ReservationStatus.released None) w
  = (Returned (Prisma.set_status ReservationStatus.released r),
     mkWorld
       (set_storeInventory
          (insert (row_key r)
             (Prisma.add_reserved (- InventoryReservation.quantity r) inv))
          (set_inventoryReservation
             (List.map (fun x =>
                if bool_decide (InventoryReservation.id x = InventoryReservation.id r)
                then Prisma.set_status ReservationStatus.released x else x))
             (db w)))
       (nextId w) (charges w)).
Proof.
  intros Hnd Hin Hinv.
  pose proof (find_by_key InventoryReservation.id _ r Hnd Hin) as Hfind.
  unfold ReservationService.updateReservation, Prisma.inventoryReservation_update.
  rewrite bind_run, findUnique_run, Hfind.
  rewrite bind_run, bind_run, findUnique_run, Hfind.
  unfold ReservationService.releaseReservedQuantity,
    Prisma.storeInventory_increment_reserved, Prisma.inventoryReservation_updateMany.
  run_monad.
  change (bool_decide (ReservationStatus.released = ReservationStatus.used)
          || bool_decide (ReservationStatus.released = ReservationStatus.released)
          || bool_decide (ReservationStatus.released = ReservationStatus.expired))
    with true.
  cbn. unfold row_key in Hinv. rewrite Hinv. cbn.
  unfold row_key, set_storeInventory, set_inventoryReservation. cbn.
  do 3 f_equal. apply map_ext_in. intros x Hx.
  destruct (bool_decide_reflect (InventoryReservation.id x = InventoryReservation.id r))
    as [Heq|]; [|reflexivity].
  by rewrite (NoDup_map_inj_in InventoryReservation.id _ x r Hnd Hx Hin Heq).
Qed.

(** The release loop of [releaseReservationsForOrder] over holds of the
    table: it runs through, each row loses what the holds held on it, and
    the holds are ['released']. *)
Lemma release_holds_run (rs : list InventoryReservation.t) (w : World) :
  NoDup (List.map InventoryReservation.id (inventoryReservation (db w))) ->
  NoDup (List.map InventoryReservation.id rs) ->
  (forall r, In r rs -> In r (inventoryReservation (db w))) ->
  Forall (fun r => is_Some (storeInventory (db w) !! row_key r)) rs ->
  exists us w',
    for_each rs (fun r =>
      ReservationService.updateReservation (InventoryReservation.id r)
        (UpdateReservationData.mk ReservationStatus.released None)) w
    = (Returned us, w')
    /\ (forall k, storeInventory (db w') !! k
                  = Prisma.add_reserved (- held_on k rs) <$> storeInventory (db w) !! k)
    /\ inventoryReservation (db w')
       = List.map (fun x =>
           if bool_decide (InventoryReservation.id x ∈ List.map InventoryReservation.id rs)
           then Prisma.set_status ReservationStatus.released x else x)
           (inventoryReservation (db w)).
Proof.
  revert w. induction rs as [|r rs IH]; intros w Hnd Hrs Hincl Hall.
  - do 2 eexists. split; [reflexivity|]. split.
    + intros k. cbn [held_on fold_right].
      destruct (storeInventory (db w) !! k); cbn; [|done]. by rewrite add_reserved_0.
    + cbn. symmetry. erewrite map_ext; [apply map_id|]. intros x.
      rewrite bool_decide_eq_false_2; [done|]. apply not_elem_of_nil.
  - apply Forall_cons in Hall as [[inv Hinv] Hrest].
    cbn [List.map] in Hrs. apply NoDup_cons in Hrs as [Hfresh Hrs].
    cbn [for_each]. rewrite bind_run.
    rewrite (updateReservation_released_run w r inv Hnd (Hincl r (or_introl eq_refl)) Hinv).
    rewrite bind_run.
    match goal with |- context [for_each rs ?b ?w0] => set (w1 := w0) end.
    destruct (IH w1) as (us & w' & Hloop & Hrows & Htable).
    { subst w1. cbn. rewrite map_map. erewrite map_ext; [exact Hnd|].
      intros x. cbn. by destruct (bool_decide _). }
    { exact Hrs. }
    { intros x Hx. subst w1. cbn. apply in_map_iff. exists x.
      split; [|by apply Hincl; right].
      rewrite bool_decide_eq_false_2; [done|].
      intros Heq. apply Hfresh. rewrite <- Heq. apply list_elem_of_In. by apply in_map. }
    { eapply Forall_impl; [exact Hrest|]. intros x [j Hj]. subst w1. cbn.
      apply lookup_insert_is_Some'. right. eauto. }
    rewrite Hloop. do 2 eexists. split; [reflexivity|]. split.
    + intros k. rewrite Hrows. cbn [held_on fold_right]. fold (held_on k rs).
      subst w1. cbn [db storeInventory set_storeInventory].
      destruct (bool_decide_reflect (row_key r = k)) as [<-|Hne].
      * rewrite lookup_insert_eq, Hinv. cbn.
        rewrite add_reserved_add. do 2 f_equal. lia.
      * rewrite lookup_insert_ne by done.
        by replace (- (0 + held_on k rs)) with (- held_on k rs) by lia.
    + rewrite Htable. subst w1. cbn. rewrite map_map. apply map_ext. intros x.
      destruct (bool_decide_reflect (InventoryReservation.id x = InventoryReservation.id r))
        as [Heq|Hne].
      * cbn. rewrite bool_decide_eq_false_2 by (by rewrite Heq).
        rewrite bool_decide_eq_true_2; [done|]. rewrite Heq. apply list_elem_of_here.
      * destruct (bool_decide_reflect
                    (InventoryReservation.id x ∈ List.map InventoryReservation.id rs))
          as [Hx|Hx].
        -- rewrite bool_decide_eq_true_2; [done|]. by apply list_elem_of_further.
        -- rewrite bool_decide_eq_false_2; [done|].
           intros [?|?]%elem_of_cons; done.
Qed.

Lemma NoDup_map_filter {A B} (f : A -> B) (p : A -> bool) (l : list A) :
  NoDup (List.map f l) -> NoDup (List.map f (List.filter p l)).
Proof.
  induction l as [|a l IH]; cbn; [done|].
  intros Hnd. apply NoDup_cons in Hnd as [Hnotin Hrest].
  destruct (p a); cbn; [|by apply IH].
  apply NoDup_cons. split; [|by apply IH].
  intros Hin. apply Hnotin. apply list_elem_of_In.
  apply list_elem_of_In, in_map_iff in Hin as (x & Hx & Hin).
  apply filter_In in Hin as [Hin _]. rewrite <- Hx. by apply in_map.
Qed.

(** [releaseReservationsForOrder] where every hold of the order has its
    inventory row: it returns, and writes reservations and inventory
    only. *)
Lemma releaseReservationsForOrder_run (orderId : Id) (w : World) :
  NoDup (List.map InventoryReservation.id (inventoryReservation (db w))) ->
  Forall (fun r => is_Some (storeInventory (db w) !! row_key r))
    (holds_of_order orderId (db w)) ->
  exists w',
    Orders.releaseReservationsForOrder orderId w = (Returned tt, w')
    /\ (forall k, storeInventory (db w') !! k
                  = Prisma.add_reserved (- held_on k (holds_of_order orderId (db w)))
                    <$> storeInventory (db w) !! k)
    /\ inventoryReservation (db w')
       = List.map (fun x =>
           if bool_decide (InventoryReservation.id x
                           ∈ List.map InventoryReservation.id
                               (holds_of_order orderId (db w)))
           then Prisma.set_status ReservationStatus.released x else x)
           (inventoryReservation (db w))
    /\ order (db w') = order (db w)
    /\ orderItem (db w') = orderItem (db w)
    /\ store (db w') = store (db w)
    /\ charges w' = charges w.
Proof.
  intros Hnd Hall. unfold Orders.releaseReservationsForOrder.
  unfold Prisma.inventoryReservation_findMany at 1. rewrite bind_run, query_run.
  fold (holds_of_order orderId (db w)). rewrite bind_run.
  destruct (release_holds_run (holds_of_order orderId (db w)) w)
    as (us & w' & Hloop & Hrows & Htable).
  { exact Hnd. }
  { by apply NoDup_map_filter. }
  { intros r Hr. by apply filter_In in Hr as [Hr _]. }
  { exact Hall. }
  pose proof (keeps_for_each
                (fun w => (order (db w), orderItem (db w), store (db w), charges w))
                (holds_of_order orderId (db w))
                (fun r => ReservationService.updateReservation (InventoryReservation.id r)
                            (UpdateReservationData.mk ReservationStatus.released None)))
    as Hframe.
  assert (Hbody : forall r : InventoryReservation.t,
             keeps (fun w => (order (db w), orderItem (db w), store (db w), charges w))
               (ReservationService.updateReservation (InventoryReservation.id r)
                  (UpdateReservationData.mk ReservationStatus.released None))).
  { intros r. by apply updateReservation_keeps. }
  specialize (Hframe Hbody w).
  rewrite Hloop in Hframe |- *. cbn [snd] in Hframe.
  injection Hframe as Ho Hoi Hs Hc.
  exists w'. by repeat split.
Qed.

Lemma order_update_status_run (orderId : Id) (status : OrderStatus.t) (w : World)
  (o : Order.t) :
  List.find (OrderService.order_has_id orderId) (order (db w)) = Some o ->
  Orders.order_update_status orderId status w
  = (Returned tt,
     mkWorld (set_order (List.map (fun x =>
                if OrderService.order_has_id orderId x
                then Orders.set_status status x else x)) (db w))
       (nextId w) (charges w)).
Proof.
  intros Hfind. unfold Orders.order_update_status.
  by rewrite bind_run, query_run, (find_existsb _ _ _ Hfind).
Qed.

Lemma find_order_updated (orderId : Id) (status : OrderStatus.t) (os : list Order.t) :
  List.find (OrderService.order_has_id orderId)
    (List.map (fun x => if OrderService.order_has_id orderId x
                        then Orders.set_status status x else x) os)
  = Orders.set_status status <$> List.find (OrderService.order_has_id orderId) os.
Proof. by apply find_map_update. Qed.

(** What [cancelOrder] does to an order of the caller that is neither
    ['completed'] nor ['cancelled']. *)
Lemma cancelOrder_run (orderId : Id) (userId : string) (s : Site) (o : Order.t) :
  List.find (OrderService.order_has_id orderId) (order (db (world s))) = Some o ->
  Order.userId o = userId ->
  Order.status o <> OrderStatus.completed ->
  Order.status o <> OrderStatus.cancelled ->
  NoDup (List.map InventoryReservation.id (inventoryReservation (db (world s)))) ->
  Forall (fun r => is_Some (storeInventory (db (world s)) !! row_key r))
    (holds_of_order orderId (db (world s))) ->
  exists ow w',
    Orders.cancelOrder orderId userId s
    = (Done (OrderPayload ow), mkSite w' (refunds s ++ refunds_due orderId o))
    /\ OrderWithItems.order ow = Orders.set_status OrderStatus.cancelled o
    /\ List.find (OrderService.order_has_id orderId) (order (db w'))
       = Some (Orders.set_status OrderStatus.cancelled o)
    /\ (forall k, storeInventory (db w') !! k
                  = Prisma.add_reserved
                      (- held_on k (holds_of_order orderId (db (world s))))
                    <$> storeInventory (db (world s)) !! k)
    /\ inventoryReservation (db w')
       = List.map (fun x =>
           if bool_decide (InventoryReservation.id x
                           ∈ List.map InventoryReservation.id
                               (holds_of_order orderId (db (world s))))
           then Prisma.set_status ReservationStatus.released x else x)
           (inventoryReservation (db (world s)))
    /\ charges w' = charges (world s).
Proof.
  intros Hfind Howner Hnc Hncl Hnd Hall. unfold Orders.cancelOrder.
  rewrite svc_bind_run, lift_query_run, Hfind.
  rewrite (bool_decide_eq_false_2 (Order.userId o ≠ userId)) by (intros H; by apply H).
  rewrite (bool_decide_eq_false_2 _ Hnc), (bool_decide_eq_false_2 _ Hncl).
  rewrite svc_bind_run. unfold lift at 1.
  rewrite (order_update_status_run orderId OrderStatus.cancelled (world s) o Hfind).
  rewrite svc_bind_run. unfold lift at 1. cbn [world].
  match goal with |- context [Orders.releaseReservationsForOrder orderId ?w0] =>
    destruct (releaseReservationsForOrder_run orderId w0)
      as (w2 & -> & Hrows & Htable & Horders & Hitems & Hstore & Hcharges);
      [exact Hnd | exact Hall |]
  end.
  cbn [db storeInventory inventoryReservation set_order order charges refunds
       holds_of_order] in *.
  fold (holds_of_order orderId (db (world s))) in *.
  rewrite svc_bind_run.
  assert (Hfound : List.find (OrderService.order_has_id orderId) (order (db w2))
                   = Some (Orders.set_status OrderStatus.cancelled o)).
  { by rewrite Horders, find_order_updated, Hfind. }
  unfold refunds_due.
  destruct (bool_decide (Order.paymentStatus o = PaymentStatus.paid)).
  - unfold Orders.processRefund at 1. cbn [world refunds].
    rewrite svc_bind_run. unfold OrderService.getOrderById.
    rewrite lift_query_run. cbn [world]. rewrite Hfound.
    do 2 eexists. split; [reflexivity|]. by repeat split.
  - unfold mret at 1, Svc_ret at 1.
    rewrite svc_bind_run. unfold OrderService.getOrderById.
    rewrite lift_query_run. cbn [world]. rewrite Hfound.
    rewrite app_nil_r. do 2 eexists. split; [reflexivity|]. by repeat split.
Qed.

(** [cancelOrder] on an order of the caller that is neither ['completed']
    nor ['cancelled']: the call returns the order, now ['cancelled']; a
    refund of the order's total is asked for exactly when the order was
    paid, and no charge is made; the same call made again is refused with
    'Order is already cancelled' and changes nothing, so no second refund
    is asked for. *)
Theorem cancelOrder_cancels_and_refunds_once
  (orderId : Id) (userId : string) (s : Site) (o : Order.t) :
  List.find (OrderService.order_has_id orderId) (order (db (world s))) = Some o ->
  Order.userId o = userId ->
  Order.status o <> OrderStatus.completed ->
  Order.status o <> OrderStatus.cancelled ->
  NoDup (List.map InventoryReservation.id (inventoryReservation (db (world s)))) ->
  Forall (fun r => is_Some (storeInventory (db (world s)) !! row_key r))
    (holds_of_order orderId (db (world s))) ->
  exists ow s',
    Orders.cancelOrder orderId userId s = (Done (OrderPayload ow), s')
    /\ OrderWithItems.order ow = Orders.set_status OrderStatus.cancelled o
    /\ refunds s' = refunds s ++ refunds_due orderId o
    /\ charges (world s') = charges (world s)
    /\ Orders.cancelOrder orderId userId s' = (Failed OrderAlreadyCancelled, s').
Proof.
  intros Hfind Howner Hnc Hncl Hnd Hall.
  destruct (cancelOrder_run orderId userId s o Hfind Howner Hnc Hncl Hnd Hall)
    as (ow & w' & Hrun & Hrow & Hfound & _ & _ & Hcharges).
  exists ow. eexists. split; [exact Hrun|]. split; [exact Hrow|].
  split; [reflexivity|]. split; [exact Hcharges|].
  unfold Orders.cancelOrder.
  rewrite svc_bind_run, lift_query_run. cbn [world]. rewrite Hfound. cbn.
  rewrite (bool_decide_eq_false_2 (Order.userId o ≠ userId)) by (intros H; by apply H).
  reflexivity.
Qed.

Lemma cancelOrder_cancels_and_refunds_once_witness :
  exists ow s',
    Orders.cancelOrder 12%nat Shop.userId (mkSite after_first_checkout [])
    = (Done (OrderPayload ow), s')
    /\ Order.status (OrderWithItems.order ow) = OrderStatus.cancelled
    /\ List.map RefundRequest.orderId (refunds s') = [12%nat]
    /\ Orders.cancelOrder 12%nat Shop.userId s' = (Failed OrderAlreadyCancelled, s').
Proof.
  destruct (List.find (OrderService.order_has_id 12%nat)
              (order (db after_first_checkout))) as [o|] eqn:Hfind;
    [|vm_compute in Hfind; discriminate].
  pose proof Hfind as Ho. vm_compute in Ho. injection Ho as Ho.
  destruct (cancelOrder_cancels_and_refunds_once 12%nat Shop.userId
              (mkSite after_first_checkout []) o)
    as (ow & s' & Hrun & Hrow & Hrefunds & _ & Hagain).
  - exact Hfind.
  - by rewrite <- Ho.
  - by rewrite <- Ho.
  - by rewrite <- Ho.
  - vm_compute. apply NoDup_singleton.
  - vm_compute. repeat constructor. eexists. reflexivity.
  - exists ow, s'. split; [exact Hrun|]. split; [by rewrite Hrow|].
    split; [|exact Hagain].
    rewrite Hrefunds, <- Ho. reflexivity.
Defined.

(** [cancelOrder] gives the order's stock back: under the same conditions
    each inventory row's [reservedQuantity] goes down by what the order's
    ['used'] holds held on it, quantities in stock and availability flags
    stay, and those holds, and no others, become ['released']. *)
Theorem cancelOrder_gives_stock_back
  (orderId : Id) (userId : string) (s : Site) (o : Order.t) :
  List.find (OrderService.order_has_id orderId) (order (db (world s))) = Some o ->
  Order.userId o = userId ->
  Order.status o <> OrderStatus.completed ->
  Order.status o <> OrderStatus.cancelled ->
  NoDup (List.map InventoryReservation.id (inventoryReservation (db (world s)))) ->
  Forall (fun r => is_Some (storeInventory (db (world s)) !! row_key r))
    (holds_of_order orderId (db (world s))) ->
  exists p s',
    Orders.cancelOrder orderId userId s = (Done p, s')
    /\ (forall k, storeInventory (db (world s')) !! k
                  = Prisma.add_reserved
                      (- held_on k (holds_of_order orderId (db (world s))))
                    <$> storeInventory (db (world s)) !! k)
    /\ inventoryReservation (db (world s'))
       = List.map (fun x =>
           if bool_decide (InventoryReservation.id x
                           ∈ List.map InventoryReservation.id
                               (holds_of_order orderId (db (world s))))
           then Prisma.set_status ReservationStatus.released x else x)
           (inventoryReservation (db (world s))).
Proof.
  intros Hfind Howner Hnc Hncl Hnd Hall.
  destruct (cancelOrder_run orderId userId s o Hfind Howner Hnc Hncl Hnd Hall)
    as (ow & w' & Hrun & _ & _ & Hrows & Htable & _).
  do 2 eexists. split; [exact Hrun|]. by split.
Qed.

Lemma cancelOrder_gives_stock_back_witness :
  Shop.row after_first_checkout = Some (StoreInventory.mk 5 2 true)
  /\ exists p s',
       Orders.cancelOrder 12%nat Shop.userId (mkSite after_first_checkout [])
       = (Done p, s')
       /\ Shop.row (world s') = Some (StoreInventory.mk 5 0 true)
       /\ List.map InventoryReservation.status (inventoryReservation (db (world s')))
          = [ReservationStatus.released].
Proof.
  split; [vm_compute; reflexivity|].
  destruct (List.find (OrderService.order_has_id 12%nat)
              (order (db after_first_checkout))) as [o|] eqn:Hfind;
    [|vm_compute in Hfind; discriminate].
  pose proof Hfind as Ho. vm_compute in Ho. injection Ho as Ho.
  destruct (cancelOrder_gives_stock_back 12%nat Shop.userId
              (mkSite after_first_checkout []) o)
    as (p & s' & Hrun & Hrows & Htable).
  - exact Hfind.
  - by rewrite <- Ho.
  - by rewrite <- Ho.
  - by rewrite <- Ho.
  - vm_compute. apply NoDup_singleton.
  - vm_compute. repeat constructor. eexists. reflexivity.
  - exists p, s'. split; [exact Hrun|]. split.
    + unfold Shop.row. rewrite Hrows. vm_compute. reflexivity.
    + rewrite Htable. vm_compute. reflexivity.
Defined.

(** [cancelOrder] refuses without writing and without asking for a refund:
    when there is no such order, when the order belongs to another user,
    and when it is ['completed'] or already ['cancelled']. *)
Theorem cancelOrder_refuses_without_writing (orderId : Id) (userId : string) (s : Site) :
  (forall o, List.find (OrderService.order_has_id orderId) (order (db (world s)))
             = Some o ->
             Order.userId o <> userId
             \/ Order.status o = OrderStatus.completed
             \/ Order.status o = OrderStatus.cancelled) ->
  exists e,
    Orders.cancelOrder orderId userId s = (Failed e, s)
    /\ (List.find (OrderService.order_has_id orderId) (order (db (world s))) = None ->
        e = OrderNotFound)
    /\ (forall o, List.find (OrderService.order_has_id orderId) (order (db (world s)))
                  = Some o ->
                  Order.userId o <> userId -> e = Unauthorized).
Proof.
  intros Hguard. unfold Orders.cancelOrder.
  rewrite svc_bind_run, lift_query_run.
  destruct (List.find _ (order (db (world s)))) as [o|] eqn:Hfind.
  2:{ eexists. split; [reflexivity|]. split; [done|]. intros; discriminate. }
  destruct (bool_decide_reflect (Order.userId o ≠ userId)) as [Hother|Howner].
  { eexists. split; [reflexivity|]. split; [discriminate|]. done. }
  destruct (Hguard o eq_refl) as [Hother | [Hst | Hst]]; [done|..]; rewrite Hst; cbn.
  - eexists. split; [reflexivity|]. split; [discriminate|].
    intros o' [= <-] Hother. done.
  - eexists. split; [reflexivity|]. split; [discriminate|].
    intros o' [= <-] Hother. done.
Qed.

Lemma cancelOrder_refuses_without_writing_witness :
  Orders.cancelOrder 12%nat "user-2" (mkSite after_first_checkout [])
  = (Failed Unauthorized, mkSite after_first_checkout []).
Proof.
  destruct (cancelOrder_refuses_without_writing 12%nat "user-2"
              (mkSite after_first_checkout [])) as (e & Hrun & _ & He).
  - intros o Ho. vm_compute in Ho. injection Ho as <-. left. discriminate.
  - rewrite Hrun. f_equal. f_equal.
    destruct (List.find (OrderService.order_has_id 12%nat)
                (order (db (world (mkSite after_first_checkout []))))) as [o|] eqn:Hfind;
      [|vm_compute in Hfind; discriminate].
    apply (He o eq_refl).
    vm_compute in Hfind. injection Hfind as <-. discriminate.
Defined.

(** [updateOrderStatus] sets the status it is given on an existing order,
    whatever the order's current status, and writes nothing else: stock,
    holds, charges and refunds stay as they were, also when the new status
    is ['cancelled']. *)
Theorem updateOrderStatus_sets_status_only (orderId : Id) (status : OrderStatus.t)
  (s : Site) (o : Order.t) :
  List.find (OrderService.order_has_id orderId) (order (db (world s))) = Some o ->
  exists ow s',
    Orders.updateOrderStatus orderId status s = (Done (OrderPayload ow), s')
    /\ OrderWithItems.order ow = Orders.set_status status o
    /\ storeInventory (db (world s')) = storeInventory (db (world s))
    /\ inventoryReservation (db (world s')) = inventoryReservation (db (world s))
    /\ refunds s' = refunds s
    /\ charges (world s') = charges (world s).
Proof.
  intros Hfind. unfold Orders.updateOrderStatus.
  rewrite svc_bind_run. unfold lift at 1.
  rewrite (order_update_status_run orderId status (world s) o Hfind).
  rewrite svc_bind_run. unfold OrderService.getOrderById.
  rewrite lift_query_run. cbn [world db order set_order].
  rewrite find_order_updated, Hfind. cbn.
  do 2 eexists. split; [reflexivity|]. by repeat split.
Qed.

Lemma updateOrderStatus_sets_status_only_witness :
  exists ow s',
    Orders.updateOrderStatus 12%nat OrderStatus.cancelled
      (mkSite after_first_checkout [])
    = (Done (OrderPayload ow), s')
    /\ Order.status (OrderWithItems.order ow) = OrderStatus.cancelled
    /\ Shop.row (world s') = Some (StoreInventory.mk 5 2 true)
    /\ refunds s' = [].
Proof.
  destruct (List.find (OrderService.order_has_id 12%nat)
              (order (db after_first_checkout))) as [o|] eqn:Hfind;
    [|vm_compute in Hfind; discriminate].
  destruct (updateOrderStatus_sets_status_only 12%nat OrderStatus.cancelled
              (mkSite after_first_checkout []) o Hfind)
    as (ow & s' & Hrun & Hrow & Hinv & _ & Hrefunds & _).
  exists ow, s'. split; [exact Hrun|]. split; [by rewrite Hrow|].
  split; [|exact Hrefunds].
  unfold Shop.row. rewrite Hinv. vm_compute. reflexivity.
Defined.

(** ** Checkout: what a failed attempt leaves, and what a charge implies *)

Lemma keeps_run {A X} (f : World -> X) (m : M A) (w : World) (out : Outcome A)
  (w' : World) :
  keeps f m -> m w = (out, w') -> f w' = f w.
Proof. intros H E. specialize (H w). by rewrite E in H. Qed.

Lemma reserve_line_keeps (env : Env) (userId storeId : string) (line : CartLine.t) :
  keeps ledger (OrderService.reserve_line env userId storeId line).
Proof.
  intros w. unfold OrderService.reserve_line, Prisma.inventoryReservation_create,
    Prisma.storeInventory_increment_reserved.
  run_monad. by destruct (_ !! _).
Qed.

Lemma orderItem_create_keeps (orderId : Id) (line : CartLine.t) :
  keeps ledger (OrderService.orderItem_create orderId line).
Proof. by intros w. Qed.

Lemma order_create_forward (orderNumber userId storeId : string) (totals : Totals.t)
  (data : CreateOrderData.t) (w : World) :
  (exists e, OrderService.order_create orderNumber userId storeId totals data w
             = (Thrown e, w))
  \/ exists o,
       OrderService.order_create orderNumber userId storeId totals data w
       = (Returned o,
          mkWorld (set_order (fun os => os ++ [o]) (db w)) (S (nextId w)) (charges w))
       /\ Order.id o = nextId w
       /\ Order.userId o = userId
       /\ Order.totalAmount o = Totals.total totals.
Proof.
  unfold OrderService.order_create, OrderService.order_findUnique_orderNumber.
  rewrite bind_run, query_run.
  destruct (List.find _ _); [left; by eexists|].
  right. eexists. split; [reflexivity|]. by repeat split.
Qed.

(** The transaction of a checkout, whichever way it ends: idempotency
    records are not written; it throws before asking for a charge, or it
    asks for one charge and then returns exactly when the provider
    accepted. *)
Lemma createOrder_tx_charges (env : Env) (userId : string) (data : CreateOrderData.t)
  (cart : CartWithItems.t) (w : World) :
  let r := OrderService.createOrder_tx env userId data cart w in
  idempotencyKey (db (snd r)) = idempotencyKey (db w)
  /\ ((charges (snd r) = charges w /\ exists e, fst r = Thrown e)
      \/ exists req,
           charges (snd r) = charges w ++ [req]
           /\ if PaymentResult.success (processPayment env req)
              then (exists res, fst r = Returned res)
                   /\ List.length (order (db (snd r))) = S (List.length (order (db w)))
              else exists e, fst r = Thrown e).
Proof.
  cbv zeta.
  destruct (OrderService.createOrder_tx env userId data cart w) as [out w'] eqn:Htx.
  cbn [fst snd]. unfold OrderService.createOrder_tx in Htx.
  rewrite bind_run in Htx.
  destruct (for_each (CartWithItems.items cart) _ w) as [[rs|e] wa] eqn:Ha.
  2:{ pose proof (keeps_run ledger _ _ _ _
                    (keeps_for_each ledger _ _
                       (reserve_line_keeps env userId (CreateOrderData.storeId data)))
                    Ha) as [= Hk _ Hc].
      injection Htx as <- <-. split; [done|]. left. eauto. }
  pose proof (keeps_run ledger _ _ _ _
                (keeps_for_each ledger _ _
                   (reserve_line_keeps env userId (CreateOrderData.storeId data)))
                Ha) as [= Hka Hoa Hca].
  rewrite bind_run in Htx. unfold OrderService.generateOrderNumber in Htx.
  pose proof (generateOrderNumber_from_reads (orderNumberCandidates env) wa) as Hgen.
  destruct (OrderService.generateOrderNumber_from _ wa) as [[n|e] wb];
    cbn in Hgen; subst wb.
  2:{ injection Htx as <- <-. split; [done|]. left. eauto. }
  rewrite bind_run in Htx.
  destruct (order_create_forward n userId (CreateOrderData.storeId data)
              (CartWithItems.totals cart) data wa) as [[e He] | (o & Ho & Hid & _)];
    rewrite ?He, ?Ho in Htx.
  { injection Htx as <- <-. split; [done|]. left. eauto. }
  rewrite bind_run in Htx.
  match type of Htx with context [for_each _ (OrderService.orderItem_create _) ?w0] =>
    set (wc := w0) in Htx end.
  destruct (for_each (CartWithItems.items cart) _ wc) as [[ois|e] wd] eqn:Hd.
  2:{ pose proof (keeps_run ledger _ _ _ _
                    (keeps_for_each ledger _ _ (orderItem_create_keeps (Order.id o)))
                    Hd) as [= Hk _ Hc].
      injection Htx as <- <-. rewrite Hk, Hc. split; [done|]. left. eauto. }
  pose proof (keeps_run ledger _ _ _ _
                (keeps_for_each ledger _ _ (orderItem_create_keeps (Order.id o)))
                Hd) as [= Hkd Hod Hcd].
  subst wc. cbn in Hkd, Hod, Hcd.
  rewrite bind_run in Htx. unfold PaymentService.processPayment at 1 in Htx.
  cbv beta iota in Htx.
  match type of Htx with context [processPayment env ?q] => set (req := q) in Htx end.
  destruct (PaymentResult.success (processPayment env req)) eqn:Hpay; cbn [negb] in Htx.
  - rewrite bind_run in Htx. unfold OrderService.order_update_payment in Htx.
    rewrite bind_run, query_run in Htx. cbn [db] in Htx. rewrite Hod in Htx.
    rewrite existsb_app in Htx. cbn [existsb] in Htx.
    unfold OrderService.order_has_id at 2 in Htx.
    rewrite bool_decide_eq_true_2 in Htx by reflexivity.
    cbn [orb] in Htx. rewrite orb_true_r in Htx.
    unfold Prisma.inventoryReservation_updateMany, OrderService.cartItem_deleteMany
      in Htx.
    revert Htx. run_monad. intros [= <- <-]. cbn. rewrite Hkd, Hka, Hcd, Hca.
    split; [done|]. right. exists req. split; [done|]. rewrite Hpay.
    split; [eauto|]. rewrite length_map, Hod, Hoa, length_app. cbn. lia.
  - injection Htx as <- <-. cbn. rewrite Hkd, Hka, Hcd, Hca. split; [done|].
    right. exists req. split; [done|]. rewrite Hpay. eauto.
Qed.

(** The [try] block of a checkout whose idempotency record is in the
    table.  When it throws, the database is as it was before the attempt
    and no charge was accepted; when it returns, one charge was accepted,
    one order was added and the record is ['completed']. *)
Lemma createOrder_attempt_run (env : Env) (userId : string) (data : CreateOrderData.t)
  (record : IdempotencyKey.t) (w : World) :
  List.existsb (OrderService.idempotencyKey_has_id (IdempotencyKey.id record))
    (idempotencyKey (db w)) = true ->
  let r := OrderService.createOrder_attempt env userId data record w in
  match fst r with
  | Thrown _ =>
      db (snd r) = db w
      /\ (charges (snd r) = charges w \/ charged env false w (snd r))
  | Returned _ =>
      charged env true w (snd r)
      /\ List.length (order (db (snd r))) = S (List.length (order (db w)))
      /\ exists response,
           idempotencyKey (db (snd r))
           = List.map (fun k =>
               if OrderService.idempotencyKey_has_id (IdempotencyKey.id record) k
               then IdempotencyKey.mk (IdempotencyKey.id k) (IdempotencyKey.key k)
                      (IdempotencyKey.userId k) IdempotencyStatus.completed
                      (IdempotencyKey.requestHash k) response
               else k)
               (idempotencyKey (db w))
  end.
Proof.
  intros Hfound. cbv zeta.
  destruct (OrderService.createOrder_attempt env userId data record w)
    as [out w'] eqn:Hatt.
  cbn [fst snd]. unfold OrderService.createOrder_attempt in Hatt.
  destruct (validateCartForCheckout_reads env userId (CreateOrderData.storeId data) w)
    as (v & Hv).
  rewrite bind_run, Hv in Hatt.
  destruct (CartService.Validation.valid v); cbn [negb] in Hatt;
    [|injection Hatt as <- <-; auto].
  destruct (getCartWithItems_reads env userId (CreateOrderData.storeId data) w)
    as (c & Hc).
  rewrite bind_run, Hc in Hatt.
  destruct c as [cart|]; [|injection Hatt as <- <-; auto].
  destruct (CartWithItems.items cart) eqn:Hitems; [injection Hatt as <- <-; auto|].
  rewrite bind_run in Hatt. unfold transaction in Hatt.
  pose proof (createOrder_tx_charges env userId data cart w) as Htx. cbv zeta in Htx.
  destruct (OrderService.createOrder_tx env userId data cart w) as [[res|e] wt];
    cbn [fst snd] in Htx; destruct Htx as [Hkeys Hch].
  - destruct Hch as [[_ [e He]] | (req & Hcharge & Hout)]; [discriminate|].
    destruct (PaymentResult.success (processPayment env req)) eqn:Hpay;
      [|destruct Hout; discriminate].
    destruct Hout as [_ Horders].
    rewrite bind_run in Hatt. unfold OrderService.idempotencyKey_update in Hatt.
    rewrite bind_run, query_run, Hkeys, Hfound in Hatt.
    unfold write at 1 in Hatt. cbv beta iota in Hatt.
    rewrite bind_run in Hatt. unfold OrderService.getOrderById in Hatt.
    rewrite query_run in Hatt. injection Hatt as <- <-. cbn.
    split; [by exists req|]. split; [exact Horders|].
    eexists. rewrite Hkeys. reflexivity.
  - injection Hatt as <- <-. cbn. split; [done|].
    destruct Hch as [[Hcharge _] | (req & Hcharge & Hout)]; [by left|].
    right. exists req. split; [done|].
    destruct (PaymentResult.success (processPayment env req)); [|done].
    by destruct Hout as [[? ?] _].
Qed.

Lemma releaseReservationsForFailedOrder_keeps (userId storeId : string) :
  keeps ledger (OrderService.releaseReservationsForFailedOrder userId storeId).
Proof.
  unfold OrderService.releaseReservationsForFailedOrder,
    Prisma.inventoryReservation_findMany.
  apply keeps_bind; [apply keeps_query|]. intros rs.
  apply keeps_bind; [|intros; apply keeps_ret].
  apply keeps_for_each. intros r. by apply updateReservation_keeps.
Qed.

(** The [catch] block of a checkout whose idempotency record is in the
    table: it throws, the record is ['failed'], and orders and charges are
    not written. *)
Lemma createOrder_failed_run (userId storeId : string) (record : IdempotencyKey.t)
  (error : Error) (w : World) :
  List.existsb (OrderService.idempotencyKey_has_id (IdempotencyKey.id record))
    (idempotencyKey (db w)) = true ->
  let r := OrderService.createOrder_failed userId storeId record error w in
  (exists e, fst r = Thrown e)
  /\ order (db (snd r)) = order (db w)
  /\ charges (snd r) = charges w
  /\ idempotencyKey (db (snd r))
     = List.map (fun k =>
         if OrderService.idempotencyKey_has_id (IdempotencyKey.id record) k
         then IdempotencyKey.mk (IdempotencyKey.id k) (IdempotencyKey.key k)
                (IdempotencyKey.userId k) IdempotencyStatus.failed
                (IdempotencyKey.requestHash k) (ErrorPayload error)
         else k)
         (idempotencyKey (db w)).
Proof.
  intros Hfound. cbv zeta.
  destruct (OrderService.createOrder_failed userId storeId record error w)
    as [out w'] eqn:Hrun.
  cbn [fst snd]. unfold OrderService.createOrder_failed in Hrun.
  rewrite bind_run in Hrun. unfold OrderService.idempotencyKey_update in Hrun.
  rewrite bind_run, query_run, Hfound in Hrun.
  unfold write at 1 in Hrun. cbv beta iota in Hrun. rewrite bind_run in Hrun.
  match type of Hrun with
  | context [OrderService.releaseReservationsForFailedOrder userId storeId ?w0] =>
      pose proof (releaseReservationsForFailedOrder_keeps userId storeId w0) as Hk;
      destruct (OrderService.releaseReservationsForFailedOrder userId storeId w0)
        as [[[]|e] w2]
  end; cbn in Hk; injection Hk as Hkeys Horders Hcharges;
    injection Hrun as <- <-; (split; [eauto|]); by repeat split.
Qed.

Lemma idempotencyKey_create_run (key userId requestHash : string) (w : World) :
  record_of key userId w = None ->
  let k := IdempotencyKey.mk (nextId w) key userId IdempotencyStatus.in_progress
             requestHash NullPayload in
  OrderService.idempotencyKey_create key userId requestHash w
  = (Returned k,
     mkWorld (set_idempotencyKey (fun ks => ks ++ [k]) (db w)) (S (nextId w))
       (charges w)).
Proof.
  intros Hnew. unfold OrderService.idempotencyKey_create.
  rewrite bind_run, idempotencyKey_findUnique_run.
  unfold record_of in Hnew. by rewrite Hnew.
Qed.

(** A checkout that claims a free key, whichever way it ends. *)
Lemma createOrder_claimed_settles (env : Env) (userId key : string)
  (data : CreateOrderData.t) (w : World) :
  record_of key userId w = None ->
  let r := OrderService.createOrder_claimed env userId key data w in
  match fst r with
  | Returned _ =>
      charged env true w (snd r)
      /\ List.length (order (db (snd r))) = S (List.length (order (db w)))
      /\ exists k, record_of key userId (snd r) = Some k
                   /\ IdempotencyKey.status k = IdempotencyStatus.completed
  | Thrown _ =>
      order (db (snd r)) = order (db w)
      /\ (charges (snd r) = charges w \/ charged env false w (snd r))
      /\ exists k, record_of key userId (snd r) = Some k
                   /\ IdempotencyKey.status k = IdempotencyStatus.failed
  end.
Proof.
  intros Hnew. cbv zeta.
  destruct (OrderService.createOrder_claimed env userId key data w)
    as [out w'] eqn:Hrun.
  cbn [fst snd]. unfold OrderService.createOrder_claimed in Hrun.
  rewrite bind_run in Hrun.
  rewrite (idempotencyKey_create_run key userId (sha256_of_json env data) w Hnew)
    in Hrun.
  cbv zeta in Hrun. unfold try_catch in Hrun.
  match type of Hrun with
  | context [OrderService.createOrder_attempt env userId data ?k0 _] =>
      set (record := k0) in *
  end.
  match type of Hrun with
  | context [OrderService.createOrder_attempt env userId data record ?w0] =>
      set (w1 := w0) in *
  end.
  assert (Hfound : List.existsb
                     (OrderService.idempotencyKey_has_id (IdempotencyKey.id record))
                     (idempotencyKey (db w1)) = true).
  { subst w1 record. cbn. rewrite existsb_app. cbn.
    unfold OrderService.idempotencyKey_has_id at 2. cbn.
    rewrite bool_decide_eq_true_2 by reflexivity. by rewrite orb_true_r. }
  assert (Hrecord : forall st resp,
            List.find (fun k => bool_decide (IdempotencyKey.key k = key)
                                && bool_decide (IdempotencyKey.userId k = userId))
              (List.map (fun k =>
                 if OrderService.idempotencyKey_has_id (IdempotencyKey.id record) k
                 then IdempotencyKey.mk (IdempotencyKey.id k) (IdempotencyKey.key k)
                        (IdempotencyKey.userId k) st
                        (IdempotencyKey.requestHash k) resp
                 else k) (idempotencyKey (db w1)))
            = Some (IdempotencyKey.mk (nextId w) key userId st
                      (sha256_of_json env data) resp)).
  { intros st resp. rewrite find_map_preserving.
    2:{ intros x. by destruct (OrderService.idempotencyKey_has_id _ x). }
    subst w1. cbn [db idempotencyKey set_idempotencyKey]. unfold record_of in Hnew.
    rewrite (find_newest_row _ _ _ Hnew).
    2:{ subst record. cbn. by rewrite !bool_decide_eq_true_2. }
    subst record. cbn. unfold OrderService.idempotencyKey_has_id. cbn.
    by rewrite bool_decide_eq_true_2. }
  pose proof (createOrder_attempt_run env userId data record w1 Hfound) as Hatt.
  cbv zeta in Hatt.
  destruct (OrderService.createOrder_attempt env userId data record w1)
    as [[p|e] w2]; cbn [fst snd] in Hatt; cbv beta iota in Hrun.
  - injection Hrun as <- <-. destruct Hatt as (Hcharge & Horders & resp & Hkeys).
    split; [exact Hcharge|]. split; [exact Horders|].
    eexists. unfold record_of. rewrite Hkeys, Hrecord. by split.
  - destruct Hatt as [Hdb Hcharge].
    pose proof (createOrder_failed_run userId (CreateOrderData.storeId data)
                  record e w2) as Hfail.
    cbv zeta in Hfail. rewrite Hdb in Hfail. specialize (Hfail Hfound).
    rewrite Hrun in Hfail. cbn [fst snd] in Hfail.
    destruct Hfail as ([e' ->] & Horders & Hcharges & Hkeys).
    split; [exact Horders|]. split.
    + destruct Hcharge as [Hc | (req & Hc & Hv)];
        [left; rewrite Hcharges; exact Hc|].
      right. exists req. split; [rewrite Hcharges; exact Hc | done].
    + eexists. unfold record_of. rewrite Hkeys, Hrecord. by split.
Qed.

Lemma createOrder_claimed_books (env : Env) (userId key : string)
  (data : CreateOrderData.t) (w : World) :
  let r := OrderService.createOrder_claimed env userId key data w in
  match fst r with
  | Returned _ =>
      List.length (order (db (snd r))) = S (List.length (order (db w)))
      /\ charged env true w (snd r)
  | Thrown _ =>
      order (db (snd r)) = order (db w)
      /\ (charges (snd r) = charges w \/ charged env false w (snd r))
  end.
Proof.
  cbv zeta. destruct (record_of key userId w) as [k|] eqn:Hrec.
  - unfold OrderService.createOrder_claimed, OrderService.idempotencyKey_create.
    rewrite !bind_run, idempotencyKey_findUnique_run.
    unfold record_of in Hrec. rewrite Hrec. cbn. auto.
  - pose proof (createOrder_claimed_settles env userId key data w Hrec) as H.
    cbv zeta in H.
    destruct (fst (OrderService.createOrder_claimed env userId key data w));
      [destruct H as (? & ? & _) | destruct H as (? & ? & _)]; by split.
Qed.

(** Deleting a user's record under a key frees the key, the pair (key,
    userId) being unique. *)
Lemma record_deleted (key userId : string) (keys : list IdempotencyKey.t)
  (existing : IdempotencyKey.t) :
  NoDup (List.map key_user keys) ->
  List.find (fun k => bool_decide (IdempotencyKey.key k = key)
                      && bool_decide (IdempotencyKey.userId k = userId)) keys
  = Some existing ->
  List.find (fun k => bool_decide (IdempotencyKey.key k = key)
                      && bool_decide (IdempotencyKey.userId k = userId))
    (List.filter (fun k => negb (OrderService.idempotencyKey_has_id
                                   (IdempotencyKey.id existing) k)) keys)
  = None.
Proof.
  intros Hnd Hfind.
  destruct (List.find _ (List.filter _ keys)) as [x|] eqn:Hx; [|reflexivity].
  exfalso. apply find_some in Hx as [Hin Hp]. apply filter_In in Hin as [Hin Hid].
  apply find_some in Hfind as [Hin' Hp'].
  apply andb_prop in Hp as [Hk Hu]. apply andb_prop in Hp' as [Hk' Hu'].
  apply bool_decide_eq_true_1 in Hk, Hu, Hk', Hu'.
  assert (x = existing) as ->.
  { apply (NoDup_map_inj_in key_user keys); [done..|]. unfold key_user. congruence. }
  unfold OrderService.idempotencyKey_has_id in Hid.
  by rewrite bool_decide_eq_true_2 in Hid.
Qed.

(** A checkout takes money exactly when it leaves an order.  A call that
    throws leaves the order table as it was, and the payment provider was
    either not asked or asked once and declined.  A call that returns
    either replayed a stored response, writing no order and asking for no
    charge, or added one order and asked for one charge, which the provider
    accepted. *)
Theorem createOrder_charges_exactly_when_it_orders (env : Env) (userId : string)
  (data : CreateOrderData.t) (w : World) :
  let r := OrderService.createOrder env userId data w in
  match fst r with
  | Thrown _ =>
      order (db (snd r)) = order (db w)
      /\ (charges (snd r) = charges w \/ charged env false w (snd r))
  | Returned _ =>
      (order (db (snd r)) = order (db w) /\ charges (snd r) = charges w)
      \/ (List.length (order (db (snd r))) = S (List.length (order (db w)))
          /\ charged env true w (snd r))
  end.
Proof.
  cbv zeta.
  destruct (OrderService.createOrder env userId data w) as [out w'] eqn:Hrun.
  cbn [fst snd]. unfold OrderService.createOrder in Hrun. cbv zeta in Hrun.
  rewrite bind_run, idempotencyKey_findUnique_run in Hrun.
  destruct (List.find _ (idempotencyKey (db w))) as [existing|] eqn:Hfind.
  - destruct (IdempotencyKey.status existing).
    + injection Hrun as <- <-. auto.
    + injection Hrun as <- <-. auto.
    + rewrite bind_run in Hrun. unfold OrderService.idempotencyKey_delete in Hrun.
      rewrite bind_run, query_run in Hrun.
      destruct (existsb _ _); [|injection Hrun as <- <-; auto].
      unfold write at 1 in Hrun. cbv beta iota in Hrun.
      match type of Hrun with
      | OrderService.createOrder_claimed env userId ?k data ?w0 = _ =>
          pose proof (createOrder_claimed_books env userId k data w0) as H
      end.
      cbv zeta in H. rewrite Hrun in H. cbn [fst snd] in H.
      destruct out; [right|]; exact H.
  - pose proof (createOrder_claimed_books env userId (OrderService.key_of env data)
                  data w) as H.
    cbv zeta in H. rewrite Hrun in H. cbn [fst snd] in H.
    destruct out; [right|]; exact H.
Qed.

(** A checkout never leaves its key ['in_progress'].  With the pair (key,
    userId) unique and no record of the call's key ['in_progress'] when the
    call starts, the user has a record under the key when the call ends,
    ['completed'] when the call returned and ['failed'] when it threw. *)
Theorem createOrder_settles_its_key (env : Env) (userId : string)
  (data : CreateOrderData.t) (w : World) :
  NoDup (List.map key_user (idempotencyKey (db w))) ->
  (forall k, record_of (OrderService.key_of env data) userId w = Some k ->
             IdempotencyKey.status k <> IdempotencyStatus.in_progress) ->
  let r := OrderService.createOrder env userId data w in
  exists k,
    record_of (OrderService.key_of env data) userId (snd r) = Some k
    /\ IdempotencyKey.status k
       = match fst r with
         | Returned _ => IdempotencyStatus.completed
         | Thrown _ => IdempotencyStatus.failed
         end.
Proof.
  intros Hnd Hfree. cbv zeta.
  destruct (OrderService.createOrder env userId data w) as [out w'] eqn:Hrun.
  cbn [fst snd]. unfold OrderService.createOrder in Hrun. cbv zeta in Hrun.
  rewrite bind_run, idempotencyKey_findUnique_run in Hrun.
  unfold record_of in Hfree.
  destruct (List.find _ (idempotencyKey (db w))) as [existing|] eqn:Hfind.
  - specialize (Hfree existing eq_refl).
    destruct (IdempotencyKey.status existing) eqn:Hst; [done| |].
    { injection Hrun as <- <-. exists existing. by split. }
    rewrite bind_run in Hrun. unfold OrderService.idempotencyKey_delete in Hrun.
    rewrite bind_run, query_run in Hrun.
    rewrite (proj2 (existsb_exists _ _)) in Hrun.
    2:{ exists existing. apply find_some in Hfind as [Hin _]. split; [exact Hin|].
        unfold OrderService.idempotencyKey_has_id. by rewrite bool_decide_eq_true_2. }
    unfold write at 1 in Hrun. cbv beta iota in Hrun.
    match type of Hrun with
    | OrderService.createOrder_claimed env userId ?k data ?w0 = _ =>
        pose proof (createOrder_claimed_settles env userId k data w0) as H
    end.
    cbv zeta in H. unfold record_of at 1 in H.
    cbn [db idempotencyKey set_idempotencyKey] in H.
    specialize (H (record_deleted _ _ _ _ Hnd Hfind)).
    rewrite Hrun in H. cbn [fst snd] in H.
    destruct out; destruct H as (_ & _ & k & Hk & Hs); eauto.
  - pose proof (createOrder_claimed_settles env userId (OrderService.key_of env data)
                  data w Hfind) as H.
    cbv zeta in H. rewrite Hrun in H. cbn [fst snd] in H.
    destruct out; destruct H as (_ & _ & k & Hk & Hs); eauto.
Qed.

Lemma createOrder_settles_its_key_witness :
  exists k,
    record_of "k1" Shop.userId
      (snd (OrderService.createOrder (Shop.env "uuid-1" "ORD-1" false) Shop.userId
              (Shop.checkout "credit_card" (Some "k1")) (Shop.world 5 0 2 [])))
    = Some k
    /\ IdempotencyKey.status k = IdempotencyStatus.failed.
Proof.
  pose proof (createOrder_settles_its_key (Shop.env "uuid-1" "ORD-1" false)
                Shop.userId (Shop.checkout "credit_card" (Some "k1"))
                (Shop.world 5 0 2 [])) as H.
  cbv zeta in H. destruct H as (k & Hk & Hst).
  - vm_compute. apply NoDup_nil_2.
  - intros k Hk. vm_compute in Hk. discriminate.
  - exists k. split; [exact Hk|]. rewrite Hst. vm_compute. reflexivity.
Defined.

(** ** Checkout and cancel: the stock comes back *)

Lemma reserve_line_run (env : Env) (userId storeId : string) (line : CartLine.t)
  (w : World) (r : InventoryReservation.t) (w' : World) :
  OrderService.reserve_line env userId storeId line w = (Returned r, w') ->
  exists inv,
    storeInventory (db w) !! (storeId, CartItem.productId (CartLine.item line)) = Some inv
    /\ r = InventoryReservation.mk (nextId w) storeId
             (CartItem.productId (CartLine.item line))
             (CartItem.quantity (CartLine.item line)) (Some userId) None
             ReservationStatus.reserved (now env + 15 * 60 * 1000)
    /\ w' = mkWorld
              (set_storeInventory
                 (insert (storeId, CartItem.productId (CartLine.item line))
                    (Prisma.add_reserved (CartItem.quantity (CartLine.item line)) inv))
                 (set_inventoryReservation (fun rs => rs ++ [r]) (db w)))
              (S (nextId w)) (charges w).
Proof.
  unfold OrderService.reserve_line, Prisma.inventoryReservation_create,
    Prisma.storeInventory_increment_reserved.
  run_monad. destruct (_ !! _) as [inv|] eqn:Hinv; [|discriminate].
  intros [= <- <-]. by exists inv.
Qed.

(** The reservation loop of a checkout that runs through: one new hold per
    cart line, with new keys, and each row gains what the new holds hold on
    it. *)
Lemma reserve_loop_run (env : Env) (userId storeId : string) (lines : list CartLine.t)
  (w : World) (rs : list InventoryReservation.t) (w' : World) :
  for_each lines (OrderService.reserve_line env userId storeId) w = (Returned rs, w') ->
  inventoryReservation (db w') = inventoryReservation (db w) ++ rs
  /\ Forall (fun r => (nextId w <= InventoryReservation.id r)%nat) rs
  /\ NoDup (List.map InventoryReservation.id rs)
  /\ Forall (fun r => is_Some (storeInventory (db w) !! row_key r)) rs
  /\ (forall k, storeInventory (db w') !! k
                = Prisma.add_reserved (held_on k rs) <$> storeInventory (db w) !! k)
  /\ (nextId w <= nextId w')%nat.
Proof.
  revert w rs w'. induction lines as [|line lines IH]; intros w rs w' Hrun.
  - injection Hrun as <- <-. split; [by rewrite app_nil_r|].
    split; [constructor|]. split; [constructor|]. split; [constructor|].
    split; [|lia]. intros k. cbn [held_on fold_right].
    destruct (storeInventory (db w) !! k); cbn; [|done].
    f_equal. symmetry. apply (add_reserved_0 t).
  - cbn [for_each] in Hrun.
    apply bind_returned in Hrun as (r & w1 & Hr & Hrun).
    apply bind_returned in Hrun as (rs' & w2 & Hrs & Hrun).
    injection Hrun as <- <-.
    apply reserve_line_run in Hr as (inv & Hinv & -> & ->).
    apply IH in Hrs as (Htable & Hids & Hnd & Hrows & Hlook & Hnext). clear IH.
    cbn in Htable, Hids, Hrows, Hlook, Hnext.
    split; [by rewrite Htable, <- app_assoc|].
    split.
    { constructor; [cbn; lia|]. eapply Forall_impl; [exact Hids|]. cbn. intros; lia. }
    split.
    { cbn [List.map]. apply NoDup_cons. split; [|exact Hnd].
      intros Hin. apply list_elem_of_In, in_map_iff in Hin as (x & Hx & Hin).
      rewrite Forall_forall in Hids. apply list_elem_of_In, Hids in Hin.
      cbn in Hx. lia. }
    split.
    { constructor; [by eexists|].
      eapply Forall_impl; [exact Hrows|]. intros x Hx.
      apply lookup_insert_is_Some in Hx as [<- | [_ Hx]]; [by eexists | exact Hx]. }
    split; [|lia].
    intros k. rewrite Hlook. cbn [held_on fold_right]. fold (held_on k rs').
    unfold row_key at 1. cbn [InventoryReservation.storeId InventoryReservation.productId
                               InventoryReservation.quantity].
    destruct (bool_decide_reflect
                ((storeId, CartItem.productId (CartLine.item line)) = k)) as [<-|Hne].
    + rewrite lookup_insert_eq, Hinv. cbn. f_equal.
      unfold Prisma.add_reserved. cbn. f_equal.
      rewrite bool_decide_eq_true_2 by reflexivity. lia.
    + rewrite lookup_insert_ne by done.
      rewrite bool_decide_eq_false_2 by done.
      by replace (0 + held_on k rs') with (held_on k rs') by lia.
Qed.

Lemma orderItem_create_keeps_stock (orderId : Id) (line : CartLine.t) :
  keeps stock (OrderService.orderItem_create orderId line).
Proof. by intros w. Qed.

(** The transaction of a checkout that returns, seen from the stock: the
    new holds are ['used'] and carry the order's id, each row has gained
    what they hold on it, and the one charge is for the order's total. *)
Lemma createOrder_tx_stock (env : Env) (userId : string) (data : CreateOrderData.t)
  (cart : CartWithItems.t) (w : World) (o : Order.t) (its : list OrderItem.t)
  (w' : World) :
  OrderService.createOrder_tx env userId data cart w = (Returned (o, its), w') ->
  exists rs,
    Forall (fun r => (nextId w <= InventoryReservation.id r)%nat) rs
    /\ NoDup (List.map InventoryReservation.id rs)
    /\ Forall (fun r => is_Some (storeInventory (db w) !! row_key r)) rs
    /\ (forall k, storeInventory (db w') !! k
                  = Prisma.add_reserved (held_on k rs) <$> storeInventory (db w) !! k)
    /\ inventoryReservation (db w')
       = List.map (fun r =>
           if bool_decide (InventoryReservation.id r ∈ List.map InventoryReservation.id rs)
           then Prisma.set_status_orderId ReservationStatus.used (Some (Order.id o)) r
           else r)
           (inventoryReservation (db w) ++ rs)
    /\ Order.userId o = userId
    /\ (nextId w <= Order.id o)%nat
    /\ charges w'
       = charges w ++ [PaymentRequest.mk (Order.totalAmount o)
                         (CreateOrderData.paymentMethod data) (Order.id o) userId].
Proof.
  intros Hrun. unfold OrderService.createOrder_tx in Hrun.
  apply bind_returned in Hrun as (rs & wa & Ha & Hrun).
  pose proof (keeps_run ledger _ _ _ _
                (keeps_for_each ledger _ _
                   (reserve_line_keeps env userId (CreateOrderData.storeId data)))
                Ha) as [= _ _ Hca].
  apply reserve_loop_run in Ha as (Htable & Hids & Hnd & Hrows & Hlook & Hnext).
  apply bind_returned in Hrun as (n & wb & Hb & Hrun).
  assert (wb = wa) as ->.
  { pose proof (generateOrderNumber_from_reads (orderNumberCandidates env) wa) as Hr.
    unfold OrderService.generateOrderNumber in Hb. by rewrite Hb in Hr. }
  apply bind_returned in Hrun as (o0 & wc & Hc & Hrun).
  destruct (order_create_forward n userId (CreateOrderData.storeId data)
              (CartWithItems.totals cart) data wa)
    as [[e He] | (o' & Ho & Hid & Huser & Htotal)];
    rewrite ?He, ?Ho in Hc; [discriminate|].
  injection Hc as <- <-.
  apply bind_returned in Hrun as (ois & wd & Hd & Hrun).
  pose proof (keeps_run stock _ _ _ _
                (keeps_for_each stock _ _ (orderItem_create_keeps_stock (Order.id o')))
                Hd) as [= Hsd Hrd Hcd].
  cbn in Hsd, Hrd, Hcd.
  apply bind_returned in Hrun as (pr & we & He & Hrun).
  unfold PaymentService.processPayment in He. injection He as <- <-.
  destruct (PaymentResult.success _); [|discriminate].
  cbn [negb] in Hrun.
  apply bind_returned in Hrun as ([] & wf & Hf & Hrun).
  apply bind_returned in Hrun as ([] & wg & Hg & Hrun).
  apply bind_returned in Hrun as ([] & wh & Hh & Hrun).
  injection Hrun as <- <- <-.
  unfold OrderService.cartItem_deleteMany, write in Hh. injection Hh as <-.
  unfold Prisma.inventoryReservation_updateMany, write in Hg. injection Hg as <-.
  unfold OrderService.order_update_payment in Hf.
  apply bind_returned in Hf as (found & wf0 & Hq & Hf).
  rewrite query_run in Hq. injection Hq as <- <-.
  destruct (existsb _ _); [|discriminate].
  unfold write in Hf. injection Hf as <-. cbn.
  rewrite Hsd, Hrd, Hcd, Hca, Htable, Htotal, Hid.
  exists rs. do 3 (split; [done|]). split; [exact Hlook|].
  split; [reflexivity|]. split; [exact Huser|]. split; [exact Hnext|]. reflexivity.
Qed.

(** A checkout that claims its key and returns has run its transaction to
    the end; afterwards only the idempotency record is written. *)
Lemma createOrder_claimed_inv (env : Env) (userId key : string)
  (data : CreateOrderData.t) (w : World) (p : Payload) (w' : World) :
  OrderService.createOrder_claimed env userId key data w = (Returned p, w') ->
  exists cart o its wt,
    OrderService.createOrder_tx env userId data cart
      (mkWorld
         (set_idempotencyKey
            (fun ks => ks ++ [IdempotencyKey.mk (nextId w) key userId
                                IdempotencyStatus.in_progress
                                (sha256_of_json env data) NullPayload])
            (db w))
         (S (nextId w)) (charges w))
    = (Returned (o, its), wt)
    /\ CartService.getCartWithItems env userId (CreateOrderData.storeId data) w
       = (Returned (Some cart), w)
    /\ stock w' = stock wt
    /\ carts w' = carts wt
    /\ order (db w') = order (db wt)
    /\ exists found,
         OrderService.getOrderById (Order.id o) w' = (Returned found, w')
         /\ p = Orders.payload_of found.
Proof.
  intros Hrun. unfold OrderService.createOrder_claimed in Hrun.
  apply bind_returned in Hrun as (record & w1 & Hcreate & Htry).
  unfold OrderService.idempotencyKey_create in Hcreate.
  rewrite bind_run, idempotencyKey_findUnique_run in Hcreate.
  destruct (List.find _ _); [discriminate|].
  revert Hcreate. run_monad. intros [= <- <-].
  unfold try_catch in Htry.
  destruct (OrderService.createOrder_attempt _ _ _ _ _) as [[a|e] w2] eqn:Hatt;
    [injection Htry as <- <- | by apply createOrder_failed_throws in Htry].
  unfold OrderService.createOrder_attempt in Hatt.
  match type of Hatt with _ ?w0 = _ => set (w1 := w0) in * end.
  destruct (validateCartForCheckout_reads env userId
              (CreateOrderData.storeId data) w1) as (v & Hv).
  destruct (getCartWithItems_reads env userId
              (CreateOrderData.storeId data) w1) as (c & Hc).
  rewrite bind_run, Hv in Hatt.
  destruct (CartService.Validation.valid v); [|discriminate]. cbn [negb] in Hatt.
  rewrite bind_run, Hc in Hatt.
  destruct c as [cart|]; [|discriminate].
  destruct (CartWithItems.items cart) eqn:Hitems; [discriminate|].
  apply bind_returned in Hatt as ([o its] & w3 & Htx & Hrest).
  unfold transaction in Htx.
  destruct (OrderService.createOrder_tx _ _ _ _ _) as [[res|e] wt] eqn:Etx;
    [injection Htx as -> -> | discriminate].
  cbn [fst snd] in Hrest.
  apply bind_returned in Hrest as ([] & w4 & Hupd & Hrest).
  apply bind_returned in Hrest as (found & w5 & Hget & Hret).
  unfold OrderService.getOrderById in Hget. rewrite query_run in Hget.
  injection Hget as <- <-. injection Hret as <- <-.
  unfold OrderService.idempotencyKey_update in Hupd.
  apply bind_returned in Hupd as (found & w6 & Hq & Hupd).
  rewrite query_run in Hq. injection Hq as <- <-.
  destruct (existsb _ _); [|discriminate].
  unfold write in Hupd. injection Hupd as <-.
  exists cart, o, its, w3. split; [exact Etx|].
  split.
  { destruct (getCartWithItems_reads env userId (CreateOrderData.storeId data) w)
      as (c' & Hc').
    rewrite Hc'. do 2 f_equal.
    unfold CartService.getCartWithItems, CartService.shoppingCart_findFirst,
      CartService.cartItem_of_cart in Hc, Hc'.
    revert Hc Hc'. run_monad. subst w1. cbn.
    destruct (List.find _ _); intros [= <-] [= <-]; reflexivity. }
  split; [reflexivity|]. split; [reflexivity|].
  split; [reflexivity|]. eexists. split; reflexivity.
Qed.

Lemma filter_all_false {A} (p : A -> bool) (l : list A) :
  (forall x, In x l -> p x = false) -> List.filter p l = [].
Proof.
  induction l as [|a l IH]; cbn; [done|]. intros H.
  rewrite (H a (or_introl eq_refl)). apply IH. intros x Hx. apply H. by right.
Qed.

Lemma filter_all_true {A} (p : A -> bool) (l : list A) :
  (forall x, In x l -> p x = true) -> List.filter p l = l.
Proof.
  induction l as [|a l IH]; cbn; [done|]. intros H.
  rewrite (H a (or_introl eq_refl)). f_equal. apply IH. intros x Hx. apply H. by right.
Qed.

Lemma map_unmarked {A} (c : A -> bool) (g : A -> A) (l : list A) :
  (forall x, In x l -> c x = false) ->
  List.map (fun x => if c x then g x else x) l = l.
Proof.
  intros H. rewrite <- (map_id l) at 2. apply map_ext_in. intros x Hx.
  by rewrite (H x Hx).
Qed.

Lemma map_marked {A} (c : A -> bool) (g : A -> A) (l : list A) :
  (forall x, In x l -> c x = true) ->
  List.map (fun x => if c x then g x else x) l = List.map g l.
Proof. intros H. apply map_ext_in. intros x Hx. by rewrite (H x Hx). Qed.

Lemma held_on_marked (k : string * string) (status : ReservationStatus.t)
  (orderId : option Id) (rs : list InventoryReservation.t) :
  held_on k (List.map (Prisma.set_status_orderId status orderId) rs) = held_on k rs.
Proof.
  induction rs as [|r rs IH]; [reflexivity|].
  cbn [List.map held_on fold_right]. fold (held_on k rs).
  fold (held_on k (List.map (Prisma.set_status_orderId status orderId) rs)).
  by rewrite IH.
Qed.

(** Checkout and cancel.  When a checkout under a new key returns an order
    and the user then cancels that order, every inventory row is back to
    what it was before the checkout: the cancel releases exactly the holds
    the checkout made.  The checkout made one charge, and the cancel asks
    for one refund, of the charged amount, and makes no charge. *)
Theorem checkout_then_cancel_restores_stock
  (env : Env) (userId : string) (data : CreateOrderData.t) (w w1 : World)
  (p : Payload) (asked : list RefundRequest.t) :
  well_keyed w ->
  record_of (OrderService.key_of env data) userId w = None ->
  OrderService.createOrder env userId data w = (Returned p, w1) ->
  exists ow req q s2,
    p = OrderPayload ow
    /\ charges w1 = charges w ++ [req]
    /\ Orders.cancelOrder (Order.id (OrderWithItems.order ow)) userId (mkSite w1 asked)
       = (Done q, s2)
    /\ storeInventory (db (world s2)) = storeInventory (db w)
    /\ refunds s2
       = asked ++ [RefundRequest.mk (Order.id (OrderWithItems.order ow))
                     (PaymentRequest.amount req) (Some "Order cancelled by customer")]
    /\ charges (world s2) = charges w1.
Proof.
  intros ([Hold Hkeys] & Hrids & Hrnd & Hfk) Hnew Hrun.
  unfold record_of in Hnew.
  rewrite createOrder_new_key in Hrun by exact Hnew.
  destruct (createOrder_claimed_inv _ _ _ _ _ _ _ Hrun)
    as (cart & o & its & wt & Htx & _ & Hstock & _ & Horders1 & found & Hget & ->).
  injection Hstock as Hs1 Hr1 Hc1.
  match type of Htx with
  | OrderService.createOrder_tx _ _ _ _ ?w0 = _ => set (wk := w0) in *
  end.
  destruct (createOrder_tx_run env userId data cart wk o its wt)
    as (Hid & _ & _ & Horders & _).
  { eapply Forall_impl; [exact Hold|]. cbn. intros; lia. }
  { exact Htx. }
  destruct (createOrder_tx_stock env userId data cart wk o its wt Htx)
    as (rs & Hids & Hnd & Hrows & Hlook & Htable & Huser & _ & Hcharges).
  set (o2 := OrderService.set_payment PaymentStatus.paid OrderStatus.confirmed o) in *.
  set (mark := Prisma.set_status_orderId ReservationStatus.used (Some (Order.id o))) in *.
  assert (Hfind : List.find (OrderService.order_has_id (Order.id o)) (order (db w1))
                  = Some o2).
  { rewrite Horders1, Horders. unfold OrderService.order_has_id.
    apply (find_older_rows Order.id); [|reflexivity].
    eapply Forall_impl; [exact Hold|]. cbn in Hid |- *. intros; lia. }
  assert (Hres : inventoryReservation (db w1)
                 = inventoryReservation (db w) ++ List.map mark rs).
  { rewrite Hr1, Htable. subst wk. cbn [db inventoryReservation set_idempotencyKey].
    rewrite map_app. f_equal; [apply map_unmarked | apply map_marked].
    - intros x Hx. apply bool_decide_eq_false_2. intros Hin.
      apply list_elem_of_In, in_map_iff in Hin as (y & Hy & Hin).
      rewrite Forall_forall in Hrids, Hids.
      apply list_elem_of_In, Hrids in Hx. apply list_elem_of_In, Hids in Hin.
      cbn in Hin. lia.
    - intros x Hx. apply bool_decide_eq_true_2. apply list_elem_of_In. by apply in_map. }
  assert (Hholds : holds_of_order (Order.id o) (db w1) = List.map mark rs).
  { unfold holds_of_order. rewrite Hres, List.filter_app.
    rewrite filter_all_false, filter_all_true; [reflexivity|..].
    - intros x Hx. apply in_map_iff in Hx as (y & <- & _). cbn.
      by rewrite !bool_decide_eq_true_2.
    - intros x Hx. apply andb_false_iff. left. apply bool_decide_eq_false_2.
      intros Heq. rewrite Forall_forall in Hfk.
      apply list_elem_of_In in Hx. specialize (Hfk x Hx _ Heq). cbn in Hid. lia. }
  assert (Hnd1 : NoDup (List.map InventoryReservation.id (inventoryReservation (db w1)))).
  { rewrite Hres, map_app, map_map. cbn. apply NoDup_app.
    split; [exact Hrnd|]. split; [|exact Hnd].
    intros i Hi Hi'.
    apply list_elem_of_In, in_map_iff in Hi as (x & <- & Hx).
    apply list_elem_of_In, in_map_iff in Hi' as (y & Hy & Hin).
    rewrite Forall_forall in Hrids, Hids.
    apply list_elem_of_In, Hrids in Hx. apply list_elem_of_In, Hids in Hin.
    cbn in Hin. lia. }
  assert (Hrows1 : Forall (fun r => is_Some (storeInventory (db w1) !! row_key r))
                     (holds_of_order (Order.id o) (db w1))).
  { rewrite Hholds. apply Forall_forall. intros x Hx.
    apply list_elem_of_In, in_map_iff in Hx as (y & <- & Hy).
    change (row_key (mark y)) with (row_key y).
    rewrite Hs1, Hlook. apply fmap_is_Some.
    rewrite Forall_forall in Hrows. by apply Hrows, list_elem_of_In. }
  destruct (cancelOrder_run (Order.id o) userId (mkSite w1 asked) o2)
    as (ow' & w2 & Hcancel & _ & _ & Hrows2 & _ & Hcharges2).
  { exact Hfind. }
  { exact Huser. }
  { discriminate. }
  { discriminate. }
  { exact Hnd1. }
  { exact Hrows1. }
  unfold OrderService.getOrderById in Hget. rewrite query_run in Hget.
  injection Hget as <-. rewrite Hfind. cbn [Orders.payload_of].
  eexists _, _, _, _. split; [reflexivity|].
  cbn [OrderWithItems.order].
  split; [rewrite Hc1; exact Hcharges|].
  split; [exact Hcancel|].
  split.
  { apply map_eq. intros k. cbn [world]. rewrite Hrows2. cbn [world].
    rewrite Hholds. unfold mark. rewrite held_on_marked, Hs1, Hlook.
    subst wk. cbn [db storeInventory set_idempotencyKey].
    destruct (storeInventory (db w) !! k); cbn; [|done].
    f_equal. apply add_reserved_back. }
  split; [reflexivity | exact Hcharges2].
Qed.

Lemma checkout_then_cancel_restores_stock_witness :
  Shop.row after_first_checkout = Some (StoreInventory.mk 5 2 true)
  /\ exists q s2,
       Orders.cancelOrder 12%nat Shop.userId (mkSite after_first_checkout [])
       = (Done q, s2)
       /\ Shop.row (world s2) = Some (StoreInventory.mk 5 0 true)
       /\ List.length (refunds s2) = 1%nat.
Proof.
  split; [vm_compute; reflexivity|].
  destruct (checkout_then_cancel_restores_stock
              (Shop.env "uuid-1" "ORD-1" true) Shop.userId
              (Shop.checkout "credit_card" (Some "k1"))
              (Shop.world 5 0 2 []) after_first_checkout
              (returned_payload
                 (OrderService.createOrder (Shop.env "uuid-1" "ORD-1" true) Shop.userId
                    (Shop.checkout "credit_card" (Some "k1")) (Shop.world 5 0 2 [])))
              [])
    as (ow & req & q & s2 & Hp & _ & Hcancel & Hstock & Hrefunds & _).
  - repeat split; try constructor.
  - reflexivity.
  - vm_compute. reflexivity.
  - vm_compute in Hp. injection Hp as <-.
    exists q, s2. split; [exact Hcancel|]. split.
    + unfold Shop.row. rewrite Hstock. reflexivity.
    + rewrite Hrefunds. reflexivity.
Defined.

Lemma createOrder_replay_run_witness :
  exists o its,
    OrderService.createOrder (Shop.env "uuid-1" "ORD-1" true) Shop.userId
      (Shop.checkout "credit_card" (Some "k1")) after_first_checkout
    = (Returned (TxResultPayload o its), after_first_checkout)
    /\ Order.status o = OrderStatus.pending.
Proof.
  destruct (createOrder_replay_run
              (Shop.env "uuid-1" "ORD-1" true) (Shop.env "uuid-1" "ORD-1" true)
              Shop.userId (Shop.checkout "credit_card" (Some "k1"))
              (Shop.world 5 0 2 [])
              (returned_payload
                 (OrderService.createOrder (Shop.env "uuid-1" "ORD-1" true) Shop.userId
                    (Shop.checkout "credit_card" (Some "k1")) (Shop.world 5 0 2 [])))
              after_first_checkout)
    as (o & its & ow & _ & _ & _ & _ & Hst & _ & Hreplay).
  - split; constructor.
  - reflexivity.
  - reflexivity.
  - vm_compute. reflexivity.
  - exists o, its. by split.
Defined.

(** ** Checkout and the cart *)

Lemma reserve_line_keeps_carts (env : Env) (userId storeId : string) (line : CartLine.t) :
  keeps carts (OrderService.reserve_line env userId storeId line).
Proof.
  intros w. unfold OrderService.reserve_line, Prisma.inventoryReservation_create,
    Prisma.storeInventory_increment_reserved.
  run_monad. by destruct (_ !! _).
Qed.

Lemma orderItem_create_keeps_carts (orderId : Id) (line : CartLine.t) :
  keeps carts (OrderService.orderItem_create orderId line).
Proof. by intros w. Qed.

(** The transaction of a checkout that returns, seen from the carts: the
    lines of the cart that was checked out are deleted, nothing else. *)
Lemma createOrder_tx_carts (env : Env) (userId : string) (data : CreateOrderData.t)
  (cart : CartWithItems.t) (w : World) (o : Order.t) (its : list OrderItem.t)
  (w' : World) :
  OrderService.createOrder_tx env userId data cart w = (Returned (o, its), w') ->
  shoppingCart (db w') = shoppingCart (db w)
  /\ cartItem (db w')
     = List.filter (fun i => negb (bool_decide (CartItem.cartId i
                                               = ShoppingCart.id (CartWithItems.cart cart))))
         (cartItem (db w)).
Proof.
  intros Hrun. unfold OrderService.createOrder_tx in Hrun.
  apply bind_returned in Hrun as (rs & wa & Ha & Hrun).
  pose proof (keeps_run carts _ _ _ _
                (keeps_for_each carts _ _
                   (reserve_line_keeps_carts env userId (CreateOrderData.storeId data)))
                Ha) as [= Hsa Hia].
  apply bind_returned in Hrun as (n & wb & Hb & Hrun).
  assert (wb = wa) as ->.
  { pose proof (generateOrderNumber_from_reads (orderNumberCandidates env) wa) as Hr.
    unfold OrderService.generateOrderNumber in Hb. by rewrite Hb in Hr. }
  apply bind_returned in Hrun as (o0 & wc & Hc & Hrun).
  destruct (order_create_forward n userId (CreateOrderData.storeId data)
              (CartWithItems.totals cart) data wa)
    as [[e He] | (o' & Ho & _)];
    rewrite ?He, ?Ho in Hc; [discriminate|].
  injection Hc as <- <-.
  apply bind_returned in Hrun as (ois & wd & Hd & Hrun).
  pose proof (keeps_run carts _ _ _ _
                (keeps_for_each carts _ _ (orderItem_create_keeps_carts (Order.id o')))
                Hd) as [= Hsd Hid].
  cbn in Hsd, Hid.
  apply bind_returned in Hrun as (pr & we & He & Hrun).
  unfold PaymentService.processPayment in He. injection He as <- <-.
  destruct (PaymentResult.success _); [|discriminate].
  cbn [negb] in Hrun.
  apply bind_returned in Hrun as ([] & wf & Hf & Hrun).
  apply bind_returned in Hrun as ([] & wg & Hg & Hrun).
  apply bind_returned in Hrun as ([] & wh & Hh & Hrun).
  injection Hrun as <- <- <-.
  unfold OrderService.cartItem_deleteMany, write in Hh. injection Hh as <-.
  unfold Prisma.inventoryReservation_updateMany, write in Hg. injection Hg as <-.
  unfold OrderService.order_update_payment in Hf.
  apply bind_returned in Hf as (found & wf0 & Hq & Hf).
  rewrite query_run in Hq. injection Hq as <- <-.
  destruct (existsb _ _); [|discriminate].
  unfold write in Hf. injection Hf as <-. cbn.
  by rewrite Hsd, Hid, Hsa, Hia.
Qed.

(** A checkout that returns an order has emptied the cart it was made
    from: the checkout validation of the same user at the same store that
    follows fails, with 'Cart is empty' and nothing else, so the same cart
    cannot be ordered a second time under another key. *)
Theorem checkout_empties_the_cart (env env' : Env) (userId : string)
  (data : CreateOrderData.t) (w w1 : World) (p : Payload) :
  record_of (OrderService.key_of env data) userId w = None ->
  OrderService.createOrder env userId data w = (Returned p, w1) ->
  CartService.validateCartForCheckout env' userId (CreateOrderData.storeId data) w1
  = (Returned (CartService.Validation.mk false [EmptyCart]), w1).
Proof.
  intros Hnew Hrun. unfold record_of in Hnew.
  rewrite createOrder_new_key in Hrun by exact Hnew.
  destruct (createOrder_claimed_inv _ _ _ _ _ _ _ Hrun)
    as (cart & o & its & wt & Htx & Hcart & _ & Hcarts & _).
  injection Hcarts as Hs1 Hi1.
  apply createOrder_tx_carts in Htx as [Hs Hi]. cbn in Hs, Hi.
  unfold CartService.getCartWithItems, CartService.shoppingCart_findFirst,
    CartService.cartItem_of_cart in Hcart.
  revert Hcart. run_monad.
  destruct (List.find _ (shoppingCart (db w))) as [c|] eqn:Hfind; [|discriminate].
  intros [= <-]. cbn in Hi.
  unfold CartService.validateCartForCheckout, CartService.getCartWithItems,
    CartService.shoppingCart_findFirst, CartService.cartItem_of_cart.
  run_monad. rewrite Hs1, Hs, Hfind. cbn. rewrite Hi1, Hi.
  by rewrite (filter_filter_negb
                (fun i => bool_decide (CartItem.cartId i = ShoppingCart.id c))).
Qed.

Lemma checkout_empties_the_cart_witness :
  CartService.validateCartForCheckout (Shop.env "uuid-2" "ORD-2" true) Shop.userId
    Shop.storeId after_first_checkout
  = (Returned (CartService.Validation.mk false [EmptyCart]), after_first_checkout).
Proof.
  apply (checkout_empties_the_cart (Shop.env "uuid-1" "ORD-1" true)
           (Shop.env "uuid-2" "ORD-2" true) Shop.userId
           (Shop.checkout "credit_card" (Some "k1")) (Shop.world 5 0 2 [])
           after_first_checkout
           (returned_payload
              (OrderService.createOrder (Shop.env "uuid-1" "ORD-1" true) Shop.userId
                 (Shop.checkout "credit_card" (Some "k1")) (Shop.world 5 0 2 [])))).
  - reflexivity.
  - vm_compute. reflexivity.
Defined.

(** ** Payment methods, fees and the simulated provider *)

(** The methods [validatePaymentMethod] accepts are the ones
    [getSupportedPaymentMethods] lists and, besides them, ['test_fail']. *)
Theorem validatePaymentMethod_supported_or_test_fail
  (toLowerCase : string -> string) (paymentMethod : string) :
  Payment.validatePaymentMethod toLowerCase paymentMethod = true
  <-> In (toLowerCase paymentMethod) Payment.getSupportedPaymentMethods
      \/ toLowerCase paymentMethod = "test_fail".
Proof.
  unfold Payment.validatePaymentMethod, Payment.getSupportedPaymentMethods.
  cbv zeta. rewrite bool_decide_eq_true, !elem_of_cons, elem_of_nil. cbn [In].
  split; intros H; repeat destruct H as [H|H]; auto 10; done.
Qed.

(** Cash on delivery is not free of fees: its rate in [feeRates] is [0],
    which [||] replaces by the default [0.029], so the fee is the one of a
    credit card payment of the same amount. *)
Theorem calculateProcessingFee_cash_on_delivery_as_credit_card
  (toLowerCase : string -> string) (amount : Number.t) (cash card : string) :
  toLowerCase cash = "cash_on_delivery" ->
  toLowerCase card = "credit_card" ->
  Payment.calculateProcessingFee toLowerCase amount cash
  = Payment.calculateProcessingFee toLowerCase amount card.
Proof.
  intros Hcash Hcard. unfold Payment.calculateProcessingFee, Payment.rate_of.
  cbv zeta. by rewrite Hcash, Hcard.
Qed.

Lemma calculateProcessingFee_cash_on_delivery_as_credit_card_witness :
  Payment.calculateProcessingFee (fun s => s) (Number.ofZ 100) "cash_on_delivery"
  = Number.ofCents 290.
Proof.
  rewrite (calculateProcessingFee_cash_on_delivery_as_credit_card (fun s => s)
             (Number.ofZ 100) "cash_on_delivery" "credit_card");
    [|reflexivity..].
  vm_compute. reflexivity.
Defined.

(** What [simulatePayment] returns hangs together, whatever the random
    draws: the payment succeeded exactly when there is no error message,
    exactly when there is a transaction id, and exactly when the status is
    ['completed'], otherwise the status is ['failed']; the amount is the
    requested one and the currency is USD. *)
Theorem simulatePayment_consistent
  (toLowerCase : string -> string) (random : nat -> Number.t)
  (generateTransactionId : Number.t -> string) (amount : Number.t)
  (paymentMethod : string) :
  let r := Payment.simulatePayment toLowerCase random generateTransactionId amount
             paymentMethod in
  (Payment.success r = true <-> Payment.error r = None)
  /\ (Payment.success r = true <-> is_Some (Payment.transactionId r))
  /\ Payment.status r = (if Payment.success r then Payment.completed else Payment.failed)
  /\ Payment.amount r = amount
  /\ Payment.currency r = "USD".
Proof.
  cbv zeta. unfold Payment.simulatePayment, Payment.draw_above.
  repeat case_bool_decide;
    repeat match goal with
           | |- context [Number.ltb ?a ?b] => destruct (Number.ltb a b)
           end;
    cbn; repeat split; try done; try (intros [? ?]; done); eauto.
Qed.

(** The method ['test_fail'] never succeeds, whatever the amount and the
    random draws. *)
Theorem simulatePayment_test_fail_fails
  (toLowerCase : string -> string) (random : nat -> Number.t)
  (generateTransactionId : Number.t -> string) (amount : Number.t)
  (paymentMethod : string) :
  toLowerCase paymentMethod = "test_fail" ->
  Payment.success (Payment.simulatePayment toLowerCase random generateTransactionId
                     amount paymentMethod) = false.
Proof.
  intros Hkey. unfold Payment.simulatePayment, Payment.draw_above.
  rewrite Hkey.
  repeat case_bool_decide; try done.
  repeat match goal with
         | |- context [Number.ltb ?a ?b] => destruct (Number.ltb a b)
         end; reflexivity.
Qed.

Lemma simulatePayment_test_fail_fails_witness :
  Payment.success (Payment.simulatePayment (fun s => s) (fun _ => Number.ofZ 1)
                     (fun _ => "TXN") (Number.ofZ 20) "test_fail") = false.
Proof.
  apply (simulatePayment_test_fail_fails (fun s => s) (fun _ => Number.ofZ 1)
           (fun _ => "TXN") (Number.ofZ 20) "test_fail").
  reflexivity.
Defined.
